(* ===== verification/_CoqProject ===== *)
-Q . S2P
Prelude.v
Json.v
JsonString.v
Utf8.v
JsonParse.v
JsonPrint.v
JsonWf.v
Codec.v
RoundTrip.v
Base64.v
GoTime.v
Typed.v
Models.v
Http.v
Fixtures.v
Client.v
Envelope.v
Messages.v
Examples.v
Tests.v
