(* ===== verification/Prelude.v ===== *)
(** * postalclient-go: a verification development

    The program is a Go client for the Postal mail-delivery HTTP API.  It
    builds an authenticated JSON request, sends it through [net/http], reads
    the reply, and maps the JSON envelope [{status, time, flags, data}] to a
    typed result or to an error.  The development models the client, the
    operations, the data types, the part of the Go library they call, and
    the two test files; it proves what the client returns in every case,
    that both ends of the wire agree on the requests and the responses, and
    that what the client returns is well typed whatever the server sent.
    The tests of the repository are run on the model as examples.

    ** Parts of the program and the files that model them

    - [Prelude] (this file): the shared vocabulary.  Go's
      [(value, error)] returns as the [result] monad with its notation scope
      [go_scope], Go's [int] as a range of [Z], [strings.HasPrefix] and
      [strings.Contains], the ASCII case operations, the tactics ([inv_bind],
      [case_result], [str_simpl]) and the hint databases [postal] and [str].
    - [Json]: the JSON values that [encoding/json] reads and writes, number
      literals kept as decimals, [strconv.ParseInt] and [strconv.ParseFloat]
      on a literal, the folding of member names.
    - [JsonString]: the text of a JSON string: what the scanner accepts
      ([valid_raw]), [unquote], [quote] with HTML escaping, UTF-8.
    - [Utf8]: [unquote] is total on what the scanner accepts and gives
      valid UTF-8 only.
    - [JsonParse]: the scanner and the construction of a value
      ([parse_value], [json_parse]), by recursive descent on fuel.
    - [JsonPrint]: the compact text of a value ([json_print]) and the proof
      that the scanner reads it back.
    - [JsonWf]: what the scanner builds is well formed and within the
      nesting depth ([scanned]), so printing and reading it again gives it
      back.
    - [Codec]: what [encoding/json] does with a Go type: the classes
      [Unmarshaler] and [Marshaler], their instances for [string], [int],
      [bool], [float64], slices, maps, pointers and [json.RawMessage], the
      field matching of struct decoding, [omitempty]; [Marshal],
      [Unmarshal], and [Decode], the stream decoder a handler of the tests
      reads its request with.
    - [RoundTrip]: the class [Faithful] of the types that are read as they
      were written, its instances, and the theorem for structs given by
      their fields ([wire]).
    - [Base64]: [base64.StdEncoding.EncodeToString], which the raw example
      calls, and the decoder that undoes it.
    - [GoTime]: [time.Time] as the decoder of [models.Delivery] sees it: the
      interface [TimeParser] and the instance [strict_rfc3339].
    - [Typed]: the class [Typed] of the types with an invariant that every
      decoder keeps (integers within 64 bits, strings of valid UTF-8,
      finite floats, raw messages that hold one JSON value), with its
      instances for the types of [Codec] and the rule for structs.
    - [Models]: package [models] (src/models/message.go, and models/send.go
      which is src/README.md from line 861): one record per struct, its
      decoder and encoder from its field tags.  The requests, the send
      response and [Attachment] are given by one table of typed fields
      ([SendMessageRequest_wires] and the like), from which both
      directions are made.
    - [Http]: the part of [net/http] the client calls: requests, canonical
      header keys, [http.NewRequest], [http.Client.Do] with its timeout.
    - [Fixtures]: the servers and bodies of the tests.
    - [Client]: client.go (src/unnamed/part_000 from line 113): [Client],
      [NewClient], [NewClientWithOptions], [Response], [Error], [do],
      [post].
    - [Envelope]: the two decodings of the envelope in [do] (lines 293 to
      317 of client.go) looked at closely: the type invariant of [Response]
      and [Error], when the second decoding fails, and the case of the keys.
    - [Messages]: messages.go (src/unnamed/part_001): [GetMessage],
      [GetMessageDeliveries], [SendMessage], [SendRaw].
    - [Examples]: the two example programs
      (src/examples/message/send_message.go and src/unnamed/part_003) as
      programs on a console that return or exit.
    - [Tests]: client_test.go (src/unnamed/part_002) and messages_test.go
      (src/README.md, lines 314 to 860): every test function as the boolean
      of its assertions, and its run.

    Names follow the source.  A struct field [F] of struct [S] is the
    projection [S_F], because Go's field names repeat across structs.

    ** Conventions of the model

    - A Go string and a byte slice are both a [string] of this library: a
      sequence of bytes.
    - A call that returns [(v, nil)] is [Ok v]; one that returns
      [(nil, err)] is [Err err].  The source never returns both or neither.
    - A pointer is an [option]; a slice is [SliceNil] or [Slice l] and a map
      [MapNil] or [Map g], because the encoder writes [null] for nil and
      [omitempty] tells an empty value from a nil one only by its length.
    - Go's [int] is the 64-bit one: [Z] in [int_range].  A duration is a
      number of nanoseconds in [Z].
    - An [interface{}] body is [None] for the nil interface and
      [Some (Box x)] for a value with the encoder of its dynamic type.
    - The network and the server are a function from the request to an
      [exchange]: no response, or a status and a body with the times at
      which each is complete.  A panic of a nil [HTTPClient] is the error
      [NilDereference].
    - The text that a Go library gives to an error it creates is a
      parameter [describe]; the theorems hold for every choice of it.

    ** What the theorems show

    - [Client]: [do] returns exactly what the contract [returns] allows,
      case by case ([do_meets_contract], [contract_determines_do]); a
      response is returned only for status 200 with the envelope status
      ["success"]; every error is one of seven kinds, and an [Error] of the
      API is returned exactly when a reply arrived in full and is rejected;
      the request carries the three headers; the timeout of [NewClient] is
      thirty seconds and a timeout that is not positive is no deadline; a
      reply with a status other than 200 is rejected even when its body is
      a success envelope ([success_envelope_rejected]).
    - [Envelope]: for a reply with status 200 the second decoding fails
      exactly on a body the first one accepted, with a type error on
      [error_code] or [message] ([do_second_decoder]); servers that spell
      the keys of the envelope in another case get the same result
      ([do_keys_fold]).
    - [Messages]: each operation returns a result exactly when the server
      [delivers] one for its path and body, and otherwise the error of
      [post] unchanged or the wrapped error of the decoder; a nil request is
      sent as [null] and the call returns what the server answers to it
      ([nil_request_is_sent]); a server that decodes the body reads the
      request of the caller, and the client returns the response the server
      marshalled ([SendMessage_server_reads], [SendMessage_reads_answer]);
      an id is returned exactly when it is within 64 bits
      ([SendMessage_id_bounds]); the error of the send operations' own
      decoding has one source ([send_decode_error_iff]); whatever an
      operation returns satisfies the invariant of its type
      ([operations_typed]).
    - [JsonParse], [JsonPrint], [JsonString], [RoundTrip], [Models]: the
      result of the scanner does not depend on its fuel; the scanner reads
      back what the printer writes; [unquote] reads back what [quote] wrote
      for valid UTF-8, and U+FFFD for the rest; faithful types, and the
      requests among them, survive [Marshal] followed by [Unmarshal].
    - [Codec], [Utf8], [JsonWf], [Typed]: the requests always encode
      ([Total]); an integer that is stored is within 64 bits, a string that
      is stored is valid UTF-8, and every decoder keeps the invariant of its
      type on the values the scanner builds.
    - [Examples], [Base64]: an example returns exactly when its three
      calls succeed and then has printed a line for each call and for each
      delivery; it exits with status 1 at the first call that fails, with
      one line logged; the data of the raw example is base64 that decodes
      to its message; both examples keep the discipline of the console
      ([examples_disciplined]): a statement adds lines to the standard
      output only, and an exit has status 1 after one line of the log.
    - [Tests]: the runs of the tests of the two test files, as examples:
      they are evaluations of the model on the inputs of the tests and no
      properties of the code.

    ** Bounds and fuel

    [parse_value] recurses on fuel.  Every call that recurses has consumed
    a byte, so the fuel [S (length text)] that [json_parse] gives is never
    used up: [parse_value_fuel] shows that any larger fuel gives the same
    result.  The scanner refuses more than [max_depth = 10000] nested
    containers, as Go does; the round-trip theorems ask for values within
    that depth, which the types of the client are by construction
    ([depth]).  Integers are kept in [Z] with [int_range] checked where Go
    checks it ([strconv.ParseInt]).

    ** What is modelled from the library and not from the repository

    [encoding/json], [net/http], [io], [time], [encoding/base64] and the
    error values they create are not code of the repository: their
    definitions follow the documentation of the Go library.  The
    specification predicates ([returns], [sent], [answered], [delivers],
    [Typed], [scanned], [disciplined] and the like) state what the code
    promises and translate no line of it.

    ** Where the model differs from Go

    - The id of a query and a [Duration] are unbounded integers; Go's are
      64 bits wide.  The client does no arithmetic on either; an id is
      printed into the body as it is.
    - The URL inside a [url.Error] is the string the request was built
      from; Go writes the parsed URL again and masks a password in it.
    - Of [url.Parse], only the check on control characters is modelled.
    - The decoder stops at the first type error; Go goes on and returns the
      first type error at the end, or the error of a later
      [UnmarshalJSON] method.  The client discards the value on any error.
    - [Decode] reports a text that ends too early as [SyntaxError]; Go has
      errors of its own for the end of the stream.
    - A test handler that calls [t.Errorf] answers with a failure of the
      connection; Go goes on and writes the reply.  The test fails in both.
    - The handler of TestClientDoReadBodyError closes the connection
      half-way through a body; whether the client sees the failure depends
      on timing in Go and is fixed by the [exchange] in the model.

    ** What is not modelled

    The network, TLS, connection reuse, redirects and cookies of
    [net/http]; the printing of [float64] and of [time.Time], which the
    client never sends; the text of the errors of the library (a parameter
    [describe]); the reading of the API key from the environment by the
    caller of the examples; the CI workflows; the documentation. *)

From Stdlib Require Import ZArith Lia Ascii String.
From stdpp Require Import base tactics option list strings.

(** * The result monad: Go's [(value, error)] returns *)

Declare Scope go_scope.
Delimit Scope go_scope with go.

Inductive result (E A : Type) : Type :=
| Ok (a : A)
| Err (e : E).
Arguments Ok {E A} a.
Arguments Err {E A} e.

#[export] Instance result_ret {E} : MRet (result E) := fun _ a => Ok a.
#[export] Instance result_bind {E} : MBind (result E) :=
  fun _ _ f m => match m with Ok a => f a | Err e => Err e end.
#[export] Instance result_fmap {E} : FMap (result E) :=
  fun _ _ f m => match m with Ok a => Ok (f a) | Err e => Err e end.

(** [if err != nil { return nil, wrap(err) }]: the error of a callee is
    translated on the way out. *)
Definition map_err {E E' A} (f : E -> E') (m : result E A) : result E' A :=
  match m with Ok a => Ok a | Err e => Err (f e) end.

Definition is_ok {E A} (m : result E A) : bool :=
  match m with Ok _ => true | Err _ => false end.

Definition of_option {E A} (e : E) (o : option A) : result E A :=
  match o with Some a => Ok a | None => Err e end.

Notation "m 'or_wrap' f" := (map_err f m)
  (at level 50, left associativity) : go_scope.

(** * Machine integers *)

Definition int_min : Z := - 2 ^ 63.
Definition int_max : Z := 2 ^ 63 - 1.

Definition int_range (z : Z) : Prop := (int_min <= z <= int_max)%Z.

#[export] Instance int_range_dec z : Decision (int_range z).
Proof. unfold int_range. apply _. Defined.

(** * Bytes *)

Definition byte_of (n : nat) : ascii := ascii_of_nat n.
Definition code (c : ascii) : nat := nat_of_ascii c.

Definition is_upper (c : ascii) : bool :=
  (65 <=? code c)%nat && (code c <=? 90)%nat.
Definition is_lower (c : ascii) : bool :=
  (97 <=? code c)%nat && (code c <=? 122)%nat.
Definition is_digit (c : ascii) : bool :=
  (48 <=? code c)%nat && (code c <=? 57)%nat.

Definition to_lower (c : ascii) : ascii :=
  if is_upper c then byte_of (code c + 32) else c.
Definition to_upper (c : ascii) : ascii :=
  if is_lower c then byte_of (code c - 32) else c.

Fixpoint string_map (f : ascii -> ascii) (s : string) : string :=
  match s with
  | EmptyString => EmptyString
  | String c s' => String (f c) (string_map f s')
  end.

(** * [strings.Contains] and [strings.HasPrefix] *)

Fixpoint has_prefix (s p : string) {struct p} : bool :=
  match p, s with
  | EmptyString, _ => true
  | String _ _, EmptyString => false
  | String c p', String d s' => bool_decide (c = d) && has_prefix s' p'
  end.

(** [strings.CutPrefix]: what follows the prefix [p] in [s]. *)
Fixpoint strip_prefix (p s : string) {struct p} : option string :=
  match p, s with
  | EmptyString, _ => Some s
  | String _ _, EmptyString => None
  | String c p', String d s' =>
      if bool_decide (c = d) then strip_prefix p' s' else None
  end.

(** What follows the byte [c] at the head of [s]. *)
Definition expect (c : ascii) (s : string) : option string :=
  match s with
  | String d s' => if bool_decide (c = d) then Some s' else None
  | EmptyString => None
  end.

(** What follows a byte that is [c1] or [c2] at the head of [s]. *)
Definition expect_either (c1 c2 : ascii) (s : string) : option string :=
  match s with
  | String d s' =>
      if bool_decide (c1 = d) || bool_decide (c2 = d) then Some s' else None
  | EmptyString => None
  end.

Fixpoint contains (s sub : string) : bool :=
  has_prefix s sub ||
  match s with
  | EmptyString => false
  | String _ s' => contains s' sub
  end.

(** * Tactics and hints *)

Create HintDb postal discriminated.
Create Rewrite HintDb postal_rw.

(** Case analysis on the scrutinee of the first [match] of the goal that is a
    [result], keeping the equation. *)
Ltac case_result :=
  match goal with
  | |- context [match ?m with Ok _ => _ | Err _ => _ end] =>
      let E := fresh "E" in destruct m eqn:E
  end.

Ltac inv_result :=
  repeat match goal with
  | H : Ok _ = Ok _ |- _ => injection H as H; try subst
  | H : Err _ = Err _ |- _ => injection H as H; try subst
  | H : Ok _ = Err _ |- _ => discriminate H
  | H : Err _ = Ok _ |- _ => discriminate H
  end.

(** * Laws of the result monad *)

Section result_laws.
Context {E A B C : Type}.
Implicit Types (m : result E A) (f : A -> result E B) (g : B -> result E C).

Lemma bind_Ok a f : Ok a ≫= f = f a.
Proof. reflexivity. Qed.

Lemma bind_Err (e : E) f : Err e ≫= f = Err e.
Proof. reflexivity. Qed.

Lemma bind_ret_r m : m ≫= mret = m.
Proof. by destruct m. Qed.

Lemma bind_assoc m f g : (m ≫= f) ≫= g = m ≫= (fun a => f a ≫= g).
Proof. by destruct m. Qed.

Lemma bind_Ok_inv m f b :
  m ≫= f = Ok b <-> exists a, m = Ok a /\ f a = Ok b.
Proof.
  destruct m as [a|e]; simpl; split.
  - eauto.
  - by intros (? & [= <-] & ?).
  - discriminate.
  - by intros (? & ? & _).
Qed.

Lemma bind_Err_inv m f e :
  m ≫= f = Err e <-> m = Err e \/ exists a, m = Ok a /\ f a = Err e.
Proof.
  destruct m as [a|e']; simpl; split.
  - eauto.
  - intros [?|(? & [= <-] & ?)]; [done|auto].
  - intros [= ->]; auto.
  - intros [[= ->]|(? & ? & _)]; done.
Qed.

End result_laws.

Lemma map_err_Ok_inv {E E' A} (f : E -> E') (m : result E A) a :
  map_err f m = Ok a <-> m = Ok a.
Proof. destruct m; simpl; split; congruence. Qed.

Lemma map_err_Err_inv {E E' A} (f : E -> E') (m : result E A) e' :
  map_err f m = Err e' <-> exists e, m = Err e /\ e' = f e.
Proof.
  destruct m; simpl; split; try congruence.
  - by intros (? & ? & _).
  - intros [= <-]; eauto.
  - by intros (? & [= <-] & ->).
Qed.

Lemma of_option_Ok_inv {E A} (e : E) (o : option A) a :
  of_option e o = Ok a <-> o = Some a.
Proof. destruct o; simpl; split; congruence. Qed.

Lemma of_option_Err_inv {E A} (e e' : E) (o : option A) :
  of_option e o = Err e' <-> o = None /\ e' = e.
Proof. destruct o; simpl; (split; [intros [= <-]| intros [[= ] ->]]); done. Qed.

Lemma fmap_Ok_inv {E A B} (f : A -> B) (m : result E A) b :
  f <$> m = Ok b <-> exists a, m = Ok a /\ b = f a.
Proof.
  destruct m; simpl; split; try congruence.
  - intros [= <-]; eauto.
  - by intros (? & [= <-] & ->).
  - by intros (? & ? & _).
Qed.

Lemma fmap_Err_inv {E A B} (f : A -> B) (m : result E A) e :
  f <$> m = Err e <-> m = Err e.
Proof. destruct m; simpl; split; congruence. Qed.

Lemma fmap_map_err {E E' A B} (f : A -> B) (g : E -> E') (m : result E A) :
  f <$> map_err g m = map_err g (f <$> m).
Proof. by destruct m. Qed.

Lemma is_ok_true {E A} (m : result E A) : is_ok m = true <-> exists a, m = Ok a.
Proof. destruct m; simpl; split; eauto; try done. by intros [? ?]. Qed.

Lemma is_ok_false {E A} (m : result E A) : is_ok m = false <-> exists e, m = Err e.
Proof. destruct m; simpl; split; eauto; try done. by intros [? ?]. Qed.

#[export] Hint Rewrite @bind_Ok @bind_Err @bind_ret_r : postal_rw.

(** Takes apart every hypothesis that says a chain of binds, of wrapped
    calls and of options made into results has succeeded, or has failed. *)
Ltac inv_bind :=
  repeat match goal with
  | H : _ ≫= _ = Ok _ |- _ => apply bind_Ok_inv in H as (? & ? & H)
  | H : map_err _ _ = Ok _ |- _ => apply map_err_Ok_inv in H
  | H : of_option _ _ = Ok _ |- _ => apply of_option_Ok_inv in H
  | H : _ <$> _ = Ok _ |- _ => apply fmap_Ok_inv in H as (? & H & ?)
  | H : _ ≫= _ = Err _ |- _ => apply bind_Err_inv in H as [H|(? & ? & H)]
  | H : map_err _ _ = Err _ |- _ => apply map_err_Err_inv in H as (? & H & ?)
  | H : of_option _ _ = Err _ |- _ => apply of_option_Err_inv in H as [H ?]
  | H : _ <$> _ = Err _ |- _ => apply fmap_Err_inv in H
  | H : Ok _ = Ok _ |- _ => injection H as H
  | H : mret _ = Ok _ |- _ => injection H as H
  | H : Err _ = Err _ |- _ => injection H as H
  | H : Ok _ = Err _ |- _ => discriminate H
  | H : Err _ = Ok _ |- _ => discriminate H
  end; subst.

(** * Laws of [has_prefix] and [contains] *)

(** [String.app] does not unfold under [simpl]; these two equations and
    [str_simpl] do the work. *)
Lemma app_nil_l s : "" +:+ s = s.
Proof. reflexivity. Qed.

Lemma app_cons c a s : String c a +:+ s = String c (a +:+ s).
Proof. reflexivity. Qed.

Lemma app_nil_r s : s +:+ "" = s.
Proof. induction s as [|c s IH]; [done|]. by rewrite app_cons, IH. Qed.

Lemma app_assoc' a b c : (a +:+ b) +:+ c = a +:+ b +:+ c.
Proof. induction a as [|x a IH]; [done|]. by rewrite !app_cons, IH. Qed.

Lemma app_length a b : String.length (a +:+ b) = String.length a + String.length b.
Proof. induction a as [|x a IH]; [done|]. rewrite app_cons. simpl. by rewrite IH. Qed.

Create Rewrite HintDb str.
#[export] Hint Rewrite app_nil_l app_cons app_nil_r app_assoc' : str.

Ltac str_simpl := autorewrite with str; simpl.

Lemma has_prefix_app p s : has_prefix (p +:+ s) p = true.
Proof.
  induction p as [|c p IH]; [done|].
  rewrite app_cons. simpl. by rewrite bool_decide_eq_true_2, IH.
Qed.

Lemma has_prefix_refl s : has_prefix s s = true.
Proof. rewrite <- (app_nil_r s) at 1. apply has_prefix_app. Qed.

Lemma has_prefix_spec s p : has_prefix s p = true <-> exists t, s = p +:+ t.
Proof.
  revert s; induction p as [|c p IH]; intros s; simpl.
  - split; eauto.
  - destruct s as [|d s]; simpl.
    + split; [done|]. by intros (? & ?).
    + rewrite andb_true_iff, bool_decide_eq_true, IH. split.
      * intros (-> & t & ->). by exists t.
      * intros (t & [= -> ->]). eauto.
Qed.

Lemma strip_prefix_app p s : strip_prefix p (p +:+ s) = Some s.
Proof.
  induction p as [|c p IH]; [done|].
  rewrite app_cons. simpl. by rewrite bool_decide_eq_true_2.
Qed.

Lemma strip_prefix_Some p s r : strip_prefix p s = Some r <-> s = p +:+ r.
Proof.
  revert s; induction p as [|c p IH]; intros s; simpl.
  - rewrite app_nil_l. split; congruence.
  - destruct s as [|d s]; [by rewrite app_cons|].
    rewrite app_cons. case_bool_decide as Hcd.
    + subst d. rewrite IH. split; [by intros ->|by intros [= ->]].
    + split; [done|]. intros [= ? ?]. congruence.
Qed.

Lemma contains_prefix s sub : has_prefix s sub = true -> contains s sub = true.
Proof. intros H. destruct s; simpl in *; by rewrite H. Qed.

Lemma contains_app_r a s sub : contains s sub = true -> contains (a +:+ s) sub = true.
Proof.
  intros H. induction a as [|c a IH]; [done|].
  rewrite app_cons. simpl. rewrite IH. apply orb_true_r.
Qed.

Lemma contains_app_l s b sub : contains s sub = true -> contains (s +:+ b) sub = true.
Proof.
  assert (Hp : forall s, has_prefix s sub = true -> has_prefix (s +:+ b) sub = true).
  { intros s' (t & ->)%has_prefix_spec. rewrite app_assoc'. apply has_prefix_app. }
  induction s as [|c s IH].
  - simpl. rewrite orb_false_r. intros H. apply contains_prefix, (Hp ""), H.
  - rewrite app_cons. simpl. rewrite !orb_true_iff. intros [H|H]; [left|right; auto].
    apply (Hp (String c s)), H.
Qed.

Lemma contains_refl s : contains s s = true.
Proof. apply contains_prefix, has_prefix_refl. Qed.

(** A needle between any two strings is found. *)
Lemma contains_middle a sub b : contains (a +:+ sub +:+ b) sub = true.
Proof. apply contains_app_r, contains_prefix, has_prefix_app. Qed.

#[export] Hint Resolve contains_refl contains_middle contains_app_l
  contains_app_r has_prefix_app has_prefix_refl : postal.
