(* ===== verification/Json.v ===== *)
(** * Json: the values of [encoding/json]

    A JSON text that the scanner of [encoding/json] accepts denotes a
    [value].  A number keeps its decimal literal ([Decimal.decimal] of the
    Standard Library), because the decoder converts the literal itself with
    [strconv.ParseInt] or [strconv.ParseFloat] according to the Go type it
    fills.  A string keeps the bytes between its quotes, escapes unprocessed,
    because [time.Time] reads them as they stand and every other target
    unquotes them first ([JsonString]).

    This file also holds the two number conversions and the folding of
    member names that struct decoding uses. *)

From Stdlib Require Import ZArith Lia Ascii String Decimal DecimalZ SpecFloat.
From stdpp Require Import base tactics option list strings.
From S2P Require Import Prelude.

(** * Values *)

#[warning="-register-all"]
Inductive value : Type :=
| JNull
| JBool (b : bool)
| JNumber (d : decimal)
| JString (raw : string)
| JArray (vs : list value)
| JObject (ms : list (string * value)).

(** The kind a type error reports ([UnmarshalTypeError.Value]). *)
Inductive kind : Type := KNull | KBool | KNumber | KString | KArray | KObject.

Definition kind_of (v : value) : kind :=
  match v with
  | JNull => KNull
  | JBool _ => KBool
  | JNumber _ => KNumber
  | JString _ => KString
  | JArray _ => KArray
  | JObject _ => KObject
  end.

Definition is_null (v : value) : bool :=
  match v with JNull => true | _ => false end.

(** Nesting depth: the scanner's [maxNestingDepth] bounds it by 10000. *)
Fixpoint value_depth (v : value) : nat :=
  match v with
  | JArray vs => S (foldr (fun v n => Nat.max (value_depth v) n) 0 vs)
  | JObject ms => S (foldr (fun m n => Nat.max (value_depth m.2) n) 0 ms)
  | _ => 0
  end.

Fixpoint value_size (v : value) : nat :=
  match v with
  | JArray vs => S (foldr (fun v n => value_size v + n) 0 vs)
  | JObject ms => S (foldr (fun m n => value_size m.2 + n) 0 ms)
  | _ => 1
  end.

(** The induction principle that reaches the values inside arrays and
    objects. *)
Section value_induction.
Variable P : value -> Prop.
Hypothesis Hnull : P JNull.
Hypothesis Hbool : forall b, P (JBool b).
Hypothesis Hnumber : forall d, P (JNumber d).
Hypothesis Hstring : forall s, P (JString s).
Hypothesis Harray : forall vs, Forall P vs -> P (JArray vs).
Hypothesis Hobject : forall ms, Forall (fun m => P m.2) ms -> P (JObject ms).

Fixpoint value_ind' (v : value) : P v :=
  match v with
  | JNull => Hnull
  | JBool b => Hbool b
  | JNumber d => Hnumber d
  | JString s => Hstring s
  | JArray vs =>
      Harray vs
        ((fix go (l : list value) : Forall P l :=
            match l with
            | [] => List.Forall_nil P
            | v :: l1 => @List.Forall_cons _ P v l1 (value_ind' v) (go l1)
            end) vs)
  | JObject ms =>
      Hobject ms
        ((fix go (l : list (string * value)) : Forall (fun m => P m.2) l :=
            match l with
            | [] => List.Forall_nil _
            | m :: l1 => @List.Forall_cons _ (fun m => P m.2) m l1 (value_ind' m.2) (go l1)
            end) ms)
  end.
End value_induction.

#[export] Instance kind_eq_dec : EqDecision kind.
Proof. solve_decision. Defined.

#[export] Instance uint_eq_dec' : EqDecision uint := uint_eq_dec.
#[export] Instance decimal_eq_dec' : EqDecision decimal := decimal_eq_dec.

Fixpoint value_eqb (v w : value) : bool :=
  match v, w with
  | JNull, JNull => true
  | JBool a, JBool b => bool_decide (a = b)
  | JNumber a, JNumber b => bool_decide (a = b)
  | JString a, JString b => bool_decide (a = b)
  | JArray vs, JArray ws =>
      (fix go (l1 l2 : list value) : bool :=
         match l1, l2 with
         | [], [] => true
         | x :: l1', y :: l2' => value_eqb x y && go l1' l2'
         | _, _ => false
         end) vs ws
  | JObject ms, JObject ns =>
      (fix go (l1 l2 : list (string * value)) : bool :=
         match l1, l2 with
         | [], [] => true
         | x :: l1', y :: l2' =>
             bool_decide (x.1 = y.1) && value_eqb x.2 y.2 && go l1' l2'
         | _, _ => false
         end) ms ns
  | _, _ => false
  end.

(** * Numbers *)

(** [strconv.ParseInt(lit, 10, 64)] on a JSON number literal: an optional
    minus and digits, nothing else, and the value within 64 bits. *)
Definition int_of_decimal (d : decimal) : option Z :=
  match d with
  | Decimal i Nil =>
      let z := Z.of_int i in
      if decide (int_range z) then Some z else None
  | _ => None
  end.

(** The binary64 format. *)
Definition prec : Z := 53.
Definition emax : Z := 1024.

Definition float64 : Type := spec_float.

Definition float64_zero : float64 := S754_zero false.

Definition is_neg (i : Decimal.int) : bool :=
  match i with Pos _ => false | Neg _ => true end.

Definition int_digits (i : Decimal.int) : uint :=
  match i with Pos u | Neg u => u end.

(** The literal [i.f e x] is [mantissa * 10 ^ exponent10]. *)
Definition mantissa (d : decimal) : Z :=
  match d with
  | Decimal i f | DecimalExp i f _ =>
      Z.of_uint (Decimal.app (int_digits i) f)
  end.

Definition exponent10 (d : decimal) : Z :=
  match d with
  | Decimal _ f => - Z.of_nat (nb_digits f)
  | DecimalExp _ f e => Z.of_int e - Z.of_nat (nb_digits f)
  end.

Definition decimal_neg (d : decimal) : bool :=
  match d with Decimal i _ | DecimalExp i _ _ => is_neg i end.

(** The nearest binary64 of [m * 10 ^ e], ties to even.  For a negative
    [e] the quotient is taken with 64 bits more than the divisor has and
    made odd when inexact, so that the one rounding of [binary_normalize]
    sees which side of a tie the exact value lies on. *)
Definition round_decimal (neg : bool) (m e : Z) : float64 :=
  let sign z := if neg then (- z)%Z else z in
  if (0 <=? e)%Z then binary_normalize prec emax (sign (m * 10 ^ e))%Z 0 neg
  else
    let den := (10 ^ (- e))%Z in
    let s := (64 + Z.log2 den)%Z in
    let num := (m * 2 ^ s)%Z in
    let q := (num / den)%Z in
    let q' := if (num mod den =? 0)%Z then q else Z.lor q 1 in
    binary_normalize prec emax (sign q') (- s) neg.

(** [strconv.ParseFloat(lit, 64)]: a literal beyond the largest finite
    binary64 is a range error. *)
Definition float64_of_decimal (d : decimal) : option float64 :=
  match round_decimal (decimal_neg d) (mantissa d) (exponent10 d) with
  | S754_infinity _ | S754_nan => None
  | f => Some f
  end.

(** * Folding of member names

    A member of a JSON object fills the struct field whose name equals the
    member's key after folding.  Go folds a rune to the smallest rune of
    its simple-fold orbit: an ASCII letter to its capital, and, alone among
    the runes outside ASCII, U+017F (long s) to [S] and U+212A (Kelvin) to
    [K].  The other runes fold to runes outside ASCII; [fold_name] leaves
    their bytes alone, which decides equality with an ASCII name the same
    way. *)
Fixpoint fold_name (s : string) : string :=
  match s with
  | EmptyString => EmptyString
  | String c s1 =>
      let plain := String (to_upper c) (fold_name s1) in
      match s1 with
      | String d s2 =>
          if bool_decide (code c = 197) && bool_decide (code d = 191)
          then String (byte_of 83) (fold_name s2)
          else
            match s2 with
            | String e s3 =>
                if bool_decide (code c = 226) && bool_decide (code d = 132)
                   && bool_decide (code e = 170)
                then String (byte_of 75) (fold_name s3)
                else plain
            | EmptyString => plain
            end
      | EmptyString => plain
      end
  end.

Definition name_matches (field key : string) : bool :=
  bool_decide (fold_name key = fold_name field).

(** * Laws *)

Lemma value_eqb_refl v : value_eqb v v = true.
Proof.
  induction v as [| | | |vs IH|ms IH] using value_ind'; simpl;
    rewrite ?bool_decide_eq_true_2 by done; try done.
  - induction IH as [|v vs Hv _ IHvs]; [done|]. by rewrite Hv, IHvs.
  - induction IH as [|m ms Hm _ IHms]; [done|].
    by rewrite bool_decide_eq_true_2, Hm, IHms.
Qed.

Lemma value_eqb_eq v w : value_eqb v w = true <-> v = w.
Proof.
  split; [|intros <-; apply value_eqb_refl].
  revert w. induction v as [| | | |vs IH|ms IH] using value_ind';
    intros [] H; simpl in H; try done;
    try (apply bool_decide_eq_true in H; congruence).
  - f_equal. revert vs0 H. induction IH as [|v vs Hv _ IHvs]; intros [|w ws] H;
      try done.
    apply andb_true_iff in H as [H1 H2]. f_equal; auto.
  - f_equal. revert ms0 H. induction IH as [|m ms Hm _ IHms]; intros [|n ns] H;
      try done.
    apply andb_true_iff in H as [H12 H3]. apply andb_true_iff in H12 as [H1 H2].
    apply bool_decide_eq_true in H1. destruct m, n; simpl in *.
    f_equal; [f_equal|]; auto.
Qed.

#[export] Instance value_eq_dec : EqDecision value.
Proof.
  intros v w. destruct (value_eqb v w) eqn:E.
  - left. by apply value_eqb_eq.
  - right. intros H%value_eqb_eq. congruence.
Defined.

Lemma int_of_decimal_range d z : int_of_decimal d = Some z -> int_range z.
Proof.
  destruct d as [i [] | ]; simpl; try done. case_decide; congruence.
Qed.

Lemma int_of_decimal_to_int z :
  int_range z -> int_of_decimal (Decimal (Z.to_int z) Nil) = Some z.
Proof.
  intros Hz. simpl. rewrite DecimalZ.of_to. by rewrite decide_True.
Qed.

Lemma int_of_decimal_beyond z :
  ~ int_range z -> int_of_decimal (Decimal (Z.to_int z) Nil) = None.
Proof. intros Hz. simpl. rewrite DecimalZ.of_to. by rewrite decide_False. Qed.

Lemma float64_of_decimal_finite d f :
  float64_of_decimal d = Some f ->
  match f with S754_infinity _ | S754_nan => False | _ => True end.
Proof.
  unfold float64_of_decimal.
  by destruct (round_decimal _ _ _); intros [= <-].
Qed.

Lemma fold_name_ascii_upper c s :
  (code c < 128)%nat ->
  fold_name (String c s) = String (to_upper c) (fold_name s).
Proof.
  intros Hc. simpl. destruct s as [|d [|e s]]; [done|..];
    repeat case_bool_decide; simpl; try done; lia.
Qed.

Lemma name_matches_refl f : name_matches f f = true.
Proof. unfold name_matches. by rewrite bool_decide_eq_true_2. Qed.

#[export] Hint Resolve name_matches_refl int_of_decimal_range : postal.
