(* ===== verification/JsonString.v ===== *)
(** * JsonString: the text of a JSON string

    [valid_raw] is what the scanner of [encoding/json] accepts between two
    quotes; [unquote] is the decoder's [unquoteBytes] on such text: escapes
    resolved, surrogate pairs joined, a byte that starts no UTF-8 sequence
    replaced by U+FFFD; [quote] is the encoder's [appendString] with HTML
    escaping on, as [json.Marshal] calls it.

    The laws: the scanner accepts what [quote] writes ([valid_raw_quote]),
    and [unquote] reads from it the string with U+FFFD in the place of the
    bytes of no sequence ([unquote_quote]), so the string itself exactly
    when it is valid UTF-8 ([unquote_quote_iff]). *)

From Stdlib Require Import ZArith Lia Ascii String.
From stdpp Require Import base tactics option list strings.
From S2P Require Import Prelude.


(** * Hexadecimal *)

Definition hex_val (c : ascii) : option N :=
  let n := code c in
  if is_digit c then Some (N.of_nat (n - 48))
  else if (97 <=? n) && (n <=? 102) then Some (N.of_nat (n - 87))
  else if (65 <=? n) && (n <=? 70) then Some (N.of_nat (n - 55))
  else None.

(** [getu4]: the value of four hexadecimal digits. *)
Definition hex4 (a b c d : ascii) : option N :=
  x ← hex_val a; y ← hex_val b; z ← hex_val c; w ← hex_val d;
  Some (((x * 16 + y) * 16 + z) * 16 + w)%N.

Definition hex_digit (n : nat) : ascii :=
  if n <? 10 then byte_of (48 + n) else byte_of (87 + n).

(** * UTF-8 *)

Definition in_range (lo hi : nat) (c : ascii) : bool :=
  (lo <=? code c) && (code c <=? hi).

Definition is_cont : ascii -> bool := in_range 128 191.

(** [utf8.DecodeRune]: the length of the well-formed sequence at the head
    of [s], or [0] when its first byte starts none. *)
Definition rune_len (s : string) : nat :=
  match s with
  | EmptyString => 0
  | String a s1 =>
      if code a <? 128 then 1
      else
        match s1 with
        | EmptyString => 0
        | String b s2 =>
            if in_range 194 223 a then (if is_cont b then 2 else 0)
            else
              match s2 with
              | EmptyString => 0
              | String c s3 =>
                  let second3 :=
                    if in_range 224 224 a then in_range 160 191 b
                    else if in_range 237 237 a then in_range 128 159 b
                    else is_cont b in
                  if in_range 224 239 a
                  then (if second3 && is_cont c then 3 else 0)
                  else
                    match s3 with
                    | EmptyString => 0
                    | String d _ =>
                        let second4 :=
                          if in_range 240 240 a then in_range 144 191 b
                          else if in_range 244 244 a then in_range 128 143 b
                          else is_cont b in
                        if in_range 240 244 a && second4 && is_cont c && is_cont d
                        then 4 else 0
                    end
              end
        end
  end.

Definition replacement : string :=
  String (byte_of 239) (String (byte_of 191) (String (byte_of 189) EmptyString)).

(** [utf8.EncodeRune]: a surrogate or a value past U+10FFFF is written as
    U+FFFD. *)
Definition is_high_surrogate (r : N) : bool := (55296 <=? r)%N && (r <=? 56319)%N.
Definition is_low_surrogate (r : N) : bool := (56320 <=? r)%N && (r <=? 57343)%N.
Definition is_surrogate (r : N) : bool := (55296 <=? r)%N && (r <=? 57343)%N.

Definition byte_of_N (n : N) : ascii := ascii_of_N n.

Definition encode_rune (r : N) : string :=
  (if r <? 128 then String (byte_of_N r) EmptyString
   else if r <? 2048 then
     String (byte_of_N (192 + r / 64)) (String (byte_of_N (128 + r mod 64)) EmptyString)
   else if is_surrogate r then replacement
   else if r <? 65536 then
     String (byte_of_N (224 + r / 4096))
       (String (byte_of_N (128 + (r / 64) mod 64))
          (String (byte_of_N (128 + r mod 64)) EmptyString))
   else if r <? 1114112 then
     String (byte_of_N (240 + r / 262144))
       (String (byte_of_N (128 + (r / 4096) mod 64))
          (String (byte_of_N (128 + (r / 64) mod 64))
             (String (byte_of_N (128 + r mod 64)) EmptyString)))
   else replacement)%N.

(** [utf16.DecodeRune]. *)
Definition join_surrogates (hi lo : N) : N :=
  ((hi - 55296) * 1024 + (lo - 56320) + 65536)%N.

(** * What the scanner accepts inside a string *)

Definition simple_escape (c : ascii) : option ascii :=
  if bool_decide (c = "034"%char) then Some "034"%char
  else if bool_decide (c = "\"%char) then Some "\"%char
  else if bool_decide (c = "/"%char) then Some "/"%char
  else if bool_decide (c = "b"%char) then Some (byte_of 8)
  else if bool_decide (c = "f"%char) then Some (byte_of 12)
  else if bool_decide (c = "n"%char) then Some (byte_of 10)
  else if bool_decide (c = "r"%char) then Some (byte_of 13)
  else if bool_decide (c = "t"%char) then Some (byte_of 9)
  else None.

Fixpoint valid_raw (s : string) : bool :=
  match s with
  | EmptyString => true
  | String c s1 =>
      if bool_decide (c = "\"%char) then
        match s1 with
        | String e s2 =>
            if bool_decide (e = "u"%char) then
              match s2 with
              | String h1 (String h2 (String h3 (String h4 s5))) =>
                  bool_decide (is_Some (hex4 h1 h2 h3 h4)) && valid_raw s5
              | _ => false
              end
            else bool_decide (is_Some (simple_escape e)) && valid_raw s2
        | EmptyString => false
        end
      else if bool_decide (c = "034"%char) || (code c <? 32) then false
      else valid_raw s1
  end.

(** * [unquoteBytes] *)

(** [k] counts the continuation bytes of a well-formed sequence still to be
    copied. *)
Fixpoint unquote_go (k : nat) (s : string) : option string :=
  match s with
  | EmptyString => Some EmptyString
  | String c s1 =>
      match k with
      | S k' => String c <$> unquote_go k' s1
      | O =>
          if bool_decide (c = "\"%char) then
            match s1 with
            | String e s2 =>
                if bool_decide (e = "u"%char) then
                  match s2 with
                  | String h1 (String h2 (String h3 (String h4 s5))) =>
                      r ← hex4 h1 h2 h3 h4;
                      if is_surrogate r then
                        match s5 with
                        | String b (String u
                            (String l1 (String l2 (String l3 (String l4 s11))))) =>
                            match hex4 l1 l2 l3 l4 with
                            | Some r1 =>
                                if bool_decide (b = "\"%char) && bool_decide (u = "u"%char)
                                   && is_high_surrogate r && is_low_surrogate r1
                                then String.app (encode_rune (join_surrogates r r1))
                                       <$> unquote_go 0 s11
                                else String.app replacement <$> unquote_go 0 s5
                            | None => String.app replacement <$> unquote_go 0 s5
                            end
                        | _ => String.app replacement <$> unquote_go 0 s5
                        end
                      else String.app (encode_rune r) <$> unquote_go 0 s5
                  | _ => None
                  end
                else x ← simple_escape e; String x <$> unquote_go 0 s2
            | EmptyString => None
            end
          else if bool_decide (c = "034"%char) || (code c <? 32) then None
          else
            match rune_len s with
            | O => String.app replacement <$> unquote_go 0 s1
            | S n => String c <$> unquote_go n s1
            end
      end
  end.

Definition unquote (raw : string) : option string := unquote_go 0 raw.

(** * [appendString] with HTML escaping *)

Definition u00 (c : ascii) : string :=
  String "\"%char (String "u"%char (String "0"%char (String "0"%char
    (String (hex_digit (code c / 16)) (String (hex_digit (code c mod 16)) EmptyString))))).

Definition escape_byte (c : ascii) : string :=
  if bool_decide (c = "034"%char) || bool_decide (c = "\"%char) then String "\"%char (String c EmptyString)
  else if bool_decide (code c = 8) then "\b"%string
  else if bool_decide (code c = 12) then "\f"%string
  else if bool_decide (code c = 10) then "\n"%string
  else if bool_decide (code c = 13) then "\r"%string
  else if bool_decide (code c = 9) then "\t"%string
  else if (code c <? 32) || bool_decide (c = "<"%char) || bool_decide (c = ">"%char)
          || bool_decide (c = "&"%char)
  then u00 c
  else String c EmptyString.

(** U+2028 and U+2029 are [E2 80 A8] and [E2 80 A9]. *)
Definition is_line_sep (a b c : ascii) : bool :=
  bool_decide (code a = 226) && bool_decide (code b = 128)
  && (bool_decide (code c = 168) || bool_decide (code c = 169)).

Definition ufffd : string :=
  String "\"%char (String "u"%char (String "f"%char (String "f"%char (String "f"%char (String "d"%char EmptyString))))).
Definition u202 : string :=
  String "\"%char (String "u"%char (String "2"%char (String "0"%char (String "2"%char EmptyString)))).

Fixpoint quote_go (k : nat) (s : string) : string :=
  match s with
  | EmptyString => EmptyString
  | String c s1 =>
      match k with
      | S k' => String c (quote_go k' s1)
      | O =>
          if code c <? 128 then String.app (escape_byte c) (quote_go 0 s1)
          else
            match rune_len s, s1 with
            | O, _ => String.app ufffd (quote_go 0 s1)
            | 3, String b (String d s3) =>
                if is_line_sep c b d
                then String.app u202 (String (hex_digit (code d - 160)) (quote_go 0 s3))
                else String c (quote_go 2 s1)
            | S n, _ => String c (quote_go n s1)
            end
      end
  end.

Definition quote (s : string) : string := quote_go 0 s.

(** * Valid UTF-8

    [coerce] is the string with U+FFFD in the place of every byte that
    starts no sequence; [valid_utf8] is [utf8.ValidString].  In both, [k]
    counts the continuation bytes of a sequence still to come. *)
Fixpoint coerce_go (k : nat) (s : string) : string :=
  match s with
  | EmptyString => EmptyString
  | String c s1 =>
      match k with
      | S k' => String c (coerce_go k' s1)
      | O =>
          match rune_len s with
          | O => String.app replacement (coerce_go 0 s1)
          | S n => String c (coerce_go n s1)
          end
      end
  end.

Definition coerce (s : string) : string := coerce_go 0 s.

Fixpoint valid_utf8_go (k : nat) (s : string) : bool :=
  match s with
  | EmptyString => true
  | String c s1 =>
      match k with
      | S k' => valid_utf8_go k' s1
      | O =>
          match rune_len s with
          | O => false
          | S n => valid_utf8_go n s1
          end
      end
  end.

Definition valid_utf8 (s : string) : bool := valid_utf8_go 0 s.

(** The next [k] bytes, as far as there are any, are not ASCII. *)
Fixpoint high_prefix (k : nat) (s : string) : bool :=
  match k, s with
  | S k', String c s1 => negb (code c <? 128) && high_prefix k' s1
  | _, _ => true
  end.

(** * Laws *)

(** * Bytes *)

Lemma code_inv c n : code c = n -> c = byte_of n.
Proof. intros <-. unfold byte_of, code. by rewrite ascii_nat_embedding. Qed.

(** A fact of all bytes, by enumeration. *)
Ltac all_bytes c :=
  destruct c as [[] [] [] [] [] [] [] []]; vm_compute; try done.

Lemma hex4_u00 c :
  hex4 "0" "0" (hex_digit (code c / 16)) (hex_digit (code c mod 16))
  = Some (N.of_nat (code c)).
Proof. by all_bytes c. Qed.

Lemma is_surrogate_byte c : is_surrogate (N.of_nat (code c)) = false.
Proof. by all_bytes c. Qed.

Lemma encode_rune_low c :
  (code c <? 128) = true -> encode_rune (N.of_nat (code c)) = String c EmptyString.
Proof. by all_bytes c. Qed.

Lemma high_byte_plain c :
  (code c <? 128) = false ->
  c <> "\"%char /\ c <> "034"%char /\ (code c <? 32) = false.
Proof. all_bytes c; by intros _. Qed.

(** * One step of [unquote_go] *)

Lemma fmap_app_one (c : ascii) (o : option string) :
  String.app (String c EmptyString) <$> o = String c <$> o.
Proof. by destruct o. Qed.

Lemma unquote_go_escaped e x t :
  simple_escape e = Some x ->
  unquote_go 0 (String "\" (String e t)) = String x <$> unquote_go 0 t.
Proof.
  intros He. cbn [unquote_go]. rewrite bool_decide_eq_true_2 by done.
  case_bool_decide as Hu; [by subst|]. by rewrite He.
Qed.

Lemma unquote_go_u h1 h2 h3 h4 r t :
  hex4 h1 h2 h3 h4 = Some r -> is_surrogate r = false ->
  unquote_go 0 (String "\" (String "u" (String h1 (String h2 (String h3 (String h4 t))))))
  = String.app (encode_rune r) <$> unquote_go 0 t.
Proof.
  intros Hh Hr. cbn [unquote_go]. rewrite !bool_decide_eq_true_2 by done.
  rewrite Hh. cbn [mbind option_bind]. by rewrite Hr.
Qed.

Lemma unquote_go_plain c t :
  c <> "\"%char -> c <> "034"%char -> (code c <? 32) = false ->
  unquote_go 0 (String c t)
  = match rune_len (String c t) with
    | O => String.app replacement <$> unquote_go 0 t
    | S n => String c <$> unquote_go n t
    end.
Proof.
  intros H1 H2 H3. cbn [unquote_go].
  by rewrite !bool_decide_eq_false_2, H3 by done.
Qed.

Lemma rune_len_low c t : (code c <? 128) = true -> rune_len (String c t) = 1.
Proof. intros Hc. cbn [rune_len]. by rewrite Hc. Qed.

Lemma unquote_go_u00 c t :
  (code c <? 128) = true -> unquote_go 0 (u00 c +:+ t) = String c <$> unquote_go 0 t.
Proof.
  intros Hc. unfold u00. rewrite !app_cons, app_nil_l.
  rewrite (unquote_go_u _ _ _ _ _ _ (hex4_u00 c) (is_surrogate_byte c)).
  by rewrite encode_rune_low, fmap_app_one.
Qed.

Lemma unquote_go_ufffd t :
  unquote_go 0 (ufffd +:+ t) = String.app replacement <$> unquote_go 0 t.
Proof.
  unfold ufffd. rewrite !app_cons, app_nil_l.
  by rewrite (unquote_go_u _ _ _ _ 65533%N).
Qed.

Lemma unquote_escape_byte c t :
  (code c <? 128) = true ->
  unquote_go 0 (escape_byte c +:+ t) = String c <$> unquote_go 0 t.
Proof.
  intros Hc. unfold escape_byte.
  destruct (bool_decide (c = "034"%char) || bool_decide (c = "\"%char)) eqn:Hq.
  { rewrite !app_cons, app_nil_l. apply unquote_go_escaped.
    apply orb_true_iff in Hq as [->%bool_decide_eq_true| ->%bool_decide_eq_true]; done. }
  apply orb_false_iff in Hq as [Hq%bool_decide_eq_false Hb%bool_decide_eq_false].
  repeat (case_bool_decide as Hk;
          [apply code_inv in Hk as ->; by apply unquote_go_escaped|clear Hk]).
  destruct (_ || _) eqn:Hu; [by apply unquote_go_u00|].
  apply orb_false_iff in Hu as [[[Hu _]%orb_false_iff _]%orb_false_iff _].
  rewrite app_cons, app_nil_l, unquote_go_plain by done.
  by rewrite rune_len_low.
Qed.

(** * Sequences of more than one byte *)

(** [rune_len] reads no further than the sequence it measures, and
    [quote_go] copies that far. *)
Lemma rune_len_quote c s n :
  rune_len (String c s) = S n -> rune_len (String c (quote_go n s)) = S n.
Proof.
  intros Hn. cbn [rune_len] in Hn. destruct (code c <? 128) eqn:Hc.
  { by rewrite rune_len_low. }
  destruct s as [|b [|d [|e s]]]; repeat (case_match; try done).
  all: simplify_eq; cbn [quote_go rune_len].
  all: by repeat match goal with H : _ = _ |- _ => rewrite H end.
Qed.

Lemma unquote_go_lead c s n :
  (code c <? 128) = false -> rune_len (String c s) = S n ->
  unquote_go 0 (String c (quote_go n s)) = String c <$> unquote_go n (quote_go n s).
Proof.
  intros (H1 & H2 & H3)%high_byte_plain Hn.
  by rewrite unquote_go_plain, (rune_len_quote _ _ _ Hn).
Qed.

Lemma is_line_sep_inv a b c :
  is_line_sep a b c = true ->
  a = byte_of 226 /\ b = byte_of 128 /\ (c = byte_of 168 \/ c = byte_of 169).
Proof.
  unfold is_line_sep.
  intros [[Ha%bool_decide_eq_true%code_inv Hb%bool_decide_eq_true%code_inv]%andb_true_iff
          Hc%orb_true_iff]%andb_true_iff.
  repeat split; [done..|].
  destruct Hc as [Hc%bool_decide_eq_true%code_inv|Hc%bool_decide_eq_true%code_inv]; eauto.
Qed.

(** U+2028 and U+2029 are written as escapes and read back as their three
    bytes. *)
Lemma unquote_go_line_sep a b c t :
  is_line_sep a b c = true ->
  unquote_go 0 (u202 +:+ String (hex_digit (code c - 160)) t)
  = (fun x => String a (String b (String c x))) <$> unquote_go 0 t.
Proof.
  intros (-> & -> & Hc)%is_line_sep_inv. unfold u202. rewrite !app_cons, app_nil_l.
  destruct Hc as [-> | ->].
  - rewrite (unquote_go_u _ _ _ _ 8232%N) by done. by destruct (unquote_go 0 t).
  - rewrite (unquote_go_u _ _ _ _ 8233%N) by done. by destruct (unquote_go 0 t).
Qed.

(** * What the decoder reads from what the encoder wrote *)

Lemma unquote_quote_go s : forall k, unquote_go k (quote_go k s) = Some (coerce_go k s).
Proof.
  induction s as [|c s IH]; intros [|k]; try done.
  2: { cbn [quote_go unquote_go coerce_go]. by rewrite IH. }
  cbn [quote_go coerce_go]. destruct (code c <? 128) eqn:Hc.
  { by rewrite unquote_escape_byte, IH, rune_len_low. }
  destruct (rune_len (String c s)) as [|n] eqn:Hn.
  { by rewrite unquote_go_ufffd, IH. }
  assert (Hlead : unquote_go 0 (String c (quote_go n s)) = Some (String c (coerce_go n s))).
  { by rewrite unquote_go_lead, IH. }
  destruct n as [|[|[|n]]]; try done.
  pose proof (IH 2) as IH2. destruct s as [|b [|d s]]; try done.
  destruct (is_line_sep c b d) eqn:Hsep; [|done].
  rewrite (unquote_go_line_sep c b d) by done.
  cbn [quote_go unquote_go coerce_go] in IH2 |- *.
  destruct (unquote_go 0 (quote_go 0 s)) as [x|]; [|done].
  cbn [fmap option_fmap option_map] in IH2 |- *. by injection IH2 as ->.
Qed.

(** What the decoder reads from the literal the encoder wrote is the string
    with U+FFFD in the place of every byte that is part of no UTF-8
    sequence. *)
Lemma unquote_quote s : unquote (quote s) = Some (coerce s).
Proof. apply unquote_quote_go. Qed.

Lemma coerce_go_valid s : forall k, valid_utf8_go k s = true -> coerce_go k s = s.
Proof.
  induction s as [|c s IH]; intros [|k] Hv; try done; cbn [coerce_go valid_utf8_go] in *.
  - destruct (rune_len (String c s)); [done|]. by rewrite IH.
  - by rewrite IH.
Qed.

(** A string of valid UTF-8 comes back as it was. *)
Corollary unquote_quote_valid s : valid_utf8 s = true -> unquote (quote s) = Some s.
Proof. intros Hs. rewrite unquote_quote. unfold coerce. by rewrite coerce_go_valid. Qed.

(** Only valid UTF-8 is read back as it was. *)
Lemma coerce_go_length s : forall k, String.length s <= String.length (coerce_go k s).
Proof.
  induction s as [|c s IH]; intros [|k]; cbn [coerce_go String.length]; try lia.
  - destruct (rune_len (String c s)).
    + unfold replacement. rewrite !app_cons, app_nil_l. cbn [String.length].
      specialize (IH 0). lia.
    + cbn [String.length]. specialize (IH n). lia.
  - specialize (IH k). lia.
Qed.

Lemma coerce_go_fixed s : forall k, coerce_go k s = s -> valid_utf8_go k s = true.
Proof.
  induction s as [|c s IH]; intros [|k] Hs; try done; cbn [coerce_go valid_utf8_go] in *.
  - destruct (rune_len (String c s)) as [|n].
    + apply (f_equal String.length) in Hs. unfold replacement in Hs.
      rewrite !app_cons, app_nil_l in Hs. cbn [String.length] in Hs.
      pose proof (coerce_go_length s 0). lia.
    + injection Hs as Hs. by apply IH.
  - injection Hs as Hs. by apply IH.
Qed.

Lemma unquote_quote_iff s : unquote (quote s) = Some s <-> valid_utf8 s = true.
Proof.
  rewrite unquote_quote. unfold coerce, valid_utf8. split.
  - intros [= Hs]. by apply coerce_go_fixed.
  - intros Hs. by rewrite coerce_go_valid.
Qed.

(** * The encoder writes what the scanner accepts *)


Lemma valid_raw_escaped e x t :
  simple_escape e = Some x -> valid_raw (String "\" (String e t)) = valid_raw t.
Proof.
  intros He. cbn [valid_raw]. rewrite bool_decide_eq_true_2 by done.
  case_bool_decide as Hu; [by subst|]. by rewrite ?He, ?bool_decide_eq_true_2 by eauto.
Qed.

Lemma valid_raw_u h1 h2 h3 h4 r t :
  hex4 h1 h2 h3 h4 = Some r ->
  valid_raw (String "\" (String "u" (String h1 (String h2 (String h3 (String h4 t))))))
  = valid_raw t.
Proof.
  intros Hh. cbn [valid_raw]. rewrite !bool_decide_eq_true_2 by done.
  by rewrite ?Hh, ?bool_decide_eq_true_2 by eauto.
Qed.

Lemma valid_raw_plain c t :
  c <> "\"%char -> c <> "034"%char -> (code c <? 32) = false ->
  valid_raw (String c t) = valid_raw t.
Proof.
  intros H1 H2 H3. cbn [valid_raw]. by rewrite !bool_decide_eq_false_2, H3 by done.
Qed.

Lemma valid_raw_high c t : (code c <? 128) = false -> valid_raw (String c t) = valid_raw t.
Proof. intros (H1 & H2 & H3)%high_byte_plain. by apply valid_raw_plain. Qed.

Lemma valid_raw_escape_byte c t : valid_raw (escape_byte c +:+ t) = valid_raw t.
Proof.
  unfold escape_byte.
  destruct (bool_decide (c = "034"%char) || bool_decide (c = "\"%char)) eqn:Hq.
  { rewrite !app_cons, app_nil_l.
    apply orb_true_iff in Hq as [->%bool_decide_eq_true| ->%bool_decide_eq_true];
      by eapply valid_raw_escaped. }
  apply orb_false_iff in Hq as [Hq%bool_decide_eq_false Hb%bool_decide_eq_false].
  repeat (case_bool_decide as Hk;
          [apply code_inv in Hk as ->; by eapply valid_raw_escaped|clear Hk]).
  destruct (_ || _) eqn:Hu.
  { unfold u00. rewrite !app_cons, app_nil_l. apply (valid_raw_u _ _ _ _ _ _ (hex4_u00 c)). }
  apply orb_false_iff in Hu as [[[Hu _]%orb_false_iff _]%orb_false_iff _].
  by rewrite app_cons, app_nil_l, valid_raw_plain.
Qed.

Lemma in_range_high lo hi b :
  128 <= lo -> in_range lo hi b = true -> (code b <? 128) = false.
Proof.
  unfold in_range. intros Hlo [Hb _]%andb_true_iff.
  apply Nat.leb_le in Hb. apply Nat.ltb_ge. lia.
Qed.

Lemma rune_len_high c s n :
  (code c <? 128) = false -> rune_len (String c s) = S n -> high_prefix n s = true.
Proof.
  intros Hc Hn. cbn [rune_len] in Hn. rewrite Hc in Hn.
  destruct s as [|b [|d [|e s]]]; repeat (case_match; try done).
  all: simplify_eq; cbn [high_prefix].
  all: repeat match goal with H : _ && _ = true |- _ => apply andb_true_iff in H as [? ?] end.
  all: repeat match goal with
         | H : in_range _ _ ?b = true |- _ => apply in_range_high in H; [rewrite H|lia]
         | H : is_cont ?b = true |- _ => apply in_range_high in H; [rewrite H|lia]
         end.
  all: done.
Qed.

Lemma valid_raw_quote_go s : forall k,
  high_prefix k s = true -> valid_raw (quote_go k s) = true.
Proof.
  induction s as [|c s IH]; intros [|k] Hk; try done.
  2: { cbn [high_prefix quote_go] in *.
       apply andb_true_iff in Hk as [Hc%negb_true_iff Hk].
       rewrite valid_raw_high by done. by apply IH. }
  cbn [quote_go]. destruct (code c <? 128) eqn:Hc.
  { rewrite valid_raw_escape_byte. by apply IH. }
  destruct (rune_len (String c s)) as [|n] eqn:Hn.
  { unfold ufffd. rewrite !app_cons, app_nil_l, (valid_raw_u _ _ _ _ 65533%N) by done.
    by apply IH. }
  assert (Hlead : valid_raw (String c (quote_go n s)) = true).
  { rewrite valid_raw_high by done. eapply IH, rune_len_high; done. }
  destruct n as [|[|[|n]]]; try done.
  destruct s as [|b [|d s]]; try done.
  destruct (is_line_sep c b d) eqn:Hsep; [|done].
  apply is_line_sep_inv in Hsep as (-> & -> & Hd). cbn [quote_go] in Hlead.
  unfold u202. rewrite !app_cons, app_nil_l.
  destruct Hd as [-> | ->]; rewrite !valid_raw_high in Hlead by done.
  - by rewrite (valid_raw_u _ _ _ _ 8232%N).
  - by rewrite (valid_raw_u _ _ _ _ 8233%N).
Qed.

(** Whatever the string, its literal is one the scanner accepts. *)
Lemma valid_raw_quote s : valid_raw (quote s) = true.
Proof. by apply valid_raw_quote_go. Qed.
