(* ===== verification/Utf8.v ===== *)
(** * Utf8: what the decoder of strings yields

    [unquote] never yields a string that is not valid UTF-8: an escape is
    written by [utf8.EncodeRune], which writes U+FFFD for a surrogate or a
    value past U+10FFFF ([whole_encode_rune]), a byte that starts no
    sequence is replaced by U+FFFD, and a sequence is copied as far as
    [utf8.DecodeRune] measured it ([unquote_valid_utf8]).  And [unquote]
    reads every literal the scanner accepts ([unquote_total]). *)

From Stdlib Require Import ZArith Lia ZifyN ZifyNat Ascii String.
From stdpp Require Import base tactics option list strings.
From S2P Require Import Prelude JsonString.

(** [p] is a whole number of sequences: it is valid before whatever
    follows. *)
Definition whole (p : string) : Prop :=
  forall t, valid_utf8_go 0 (p +:+ t) = valid_utf8_go 0 t.

(** [s] and [t] start with the same [k] bytes. *)
Fixpoint agree (k : nat) (s t : string) : Prop :=
  match k with
  | O => True
  | S k' =>
      match s, t with
      | String a s', String b t' => a = b /\ agree k' s' t'
      | _, _ => False
      end
  end.

(** * Laws *)

(** Arithmetic with quotients and remainders. *)
Ltac lia_div := zify; Z.div_mod_to_equations; lia.

Lemma code_byte_of_N n : (n < 256)%N -> code (byte_of_N n) = N.to_nat n.
Proof.
  intros Hn. unfold code, byte_of_N, nat_of_ascii. by rewrite N_ascii_embedding.
Qed.

Lemma in_range_byte lo hi n :
  (n < 256)%N ->
  in_range lo hi (byte_of_N n) = (N.of_nat lo <=? n)%N && (n <=? N.of_nat hi)%N.
Proof.
  intros Hn. unfold in_range. rewrite code_byte_of_N by done.
  f_equal.
  - destruct (Nat.leb_spec lo (N.to_nat n)), (N.leb_spec (N.of_nat lo) n); try done; lia.
  - destruct (Nat.leb_spec (N.to_nat n) hi), (N.leb_spec n (N.of_nat hi)); try done; lia.
Qed.

Lemma in_range_byte_true lo hi n :
  (n < 256)%N -> (N.of_nat lo <= n <= N.of_nat hi)%N -> in_range lo hi (byte_of_N n) = true.
Proof.
  intros Hn [H1 H2]. rewrite in_range_byte by done.
  by rewrite (proj2 (N.leb_le _ _) H1), (proj2 (N.leb_le _ _) H2).
Qed.

Lemma in_range_byte_false lo hi n :
  (n < 256)%N -> (n < N.of_nat lo \/ N.of_nat hi < n)%N -> in_range lo hi (byte_of_N n) = false.
Proof.
  intros Hn H. rewrite in_range_byte by done. apply andb_false_iff.
  destruct H as [H|H]; [left|right]; by apply N.leb_gt.
Qed.

Lemma whole_low c : (code c <? 128) = true -> whole (String c EmptyString).
Proof. intros Hc t. rewrite app_cons, app_nil_l. cbn [valid_utf8_go rune_len]. by rewrite Hc. Qed.

Lemma whole_replacement : whole replacement.
Proof. by intros t. Qed.

(** The sequences of two, three and four bytes. *)
Lemma whole_2 a b :
  in_range 194 223 a = true -> is_cont b = true ->
  whole (String a (String b EmptyString)).
Proof.
  intros Ha Hb t. rewrite !app_cons, app_nil_l. cbn [valid_utf8_go rune_len].
  by rewrite (in_range_high 194 223 a), Ha, Hb by (done || lia).
Qed.

Lemma whole_3 a b c :
  in_range 194 223 a = false -> in_range 224 239 a = true ->
  (if in_range 224 224 a then in_range 160 191 b
   else if in_range 237 237 a then in_range 128 159 b else is_cont b) = true ->
  is_cont c = true ->
  whole (String a (String b (String c EmptyString))).
Proof.
  intros Ha' Ha Hb Hc t. rewrite !app_cons, app_nil_l. cbn [valid_utf8_go rune_len].
  by rewrite (in_range_high 224 239 a), Ha', Ha, Hb, Hc by (done || lia).
Qed.

Lemma whole_4 a b c d :
  in_range 194 223 a = false -> in_range 224 239 a = false ->
  in_range 240 244 a = true ->
  (if in_range 240 240 a then in_range 144 191 b
   else if in_range 244 244 a then in_range 128 143 b else is_cont b) = true ->
  is_cont c = true -> is_cont d = true ->
  whole (String a (String b (String c (String d EmptyString)))).
Proof.
  intros Ha' Ha'' Ha Hb Hc Hd t. rewrite !app_cons, app_nil_l.
  cbn [valid_utf8_go rune_len].
  by rewrite (in_range_high 240 244 a), Ha', Ha'', Ha, Hb, Hc, Hd by (done || lia).
Qed.

Lemma whole_encode_2 r :
  (128 <= r < 2048)%N ->
  whole (String (byte_of_N (192 + r / 64)) (String (byte_of_N (128 + r mod 64)) EmptyString)).
Proof.
  intros Hr. apply whole_2; unfold is_cont; apply in_range_byte_true; lia_div.
Qed.

Lemma whole_encode_3 r :
  (2048 <= r < 65536)%N -> (r < 55296 \/ 57343 < r)%N ->
  whole (String (byte_of_N (224 + r / 4096))
           (String (byte_of_N (128 + (r / 64) mod 64))
              (String (byte_of_N (128 + r mod 64)) EmptyString))).
Proof.
  intros Hr Hs. apply whole_3.
  - apply in_range_byte_false; lia_div.
  - apply in_range_byte_true; lia_div.
  - rewrite !(in_range_byte _ _ (224 + r / 4096)) by lia_div.
    destruct (N.leb_spec (224 + r / 4096) (N.of_nat 224)).
    { rewrite (proj2 (N.leb_le (N.of_nat 224) _)) by lia. cbn [andb].
      apply in_range_byte_true; lia_div. }
    rewrite andb_false_r.
    destruct (N.leb_spec (N.of_nat 237) (224 + r / 4096)),
             (N.leb_spec (224 + r / 4096) (N.of_nat 237)); cbn [andb];
      unfold is_cont; apply in_range_byte_true; lia_div.
  - unfold is_cont. apply in_range_byte_true; lia_div.
Qed.

Lemma whole_encode_4 r :
  (65536 <= r < 1114112)%N ->
  whole (String (byte_of_N (240 + r / 262144))
           (String (byte_of_N (128 + (r / 4096) mod 64))
              (String (byte_of_N (128 + (r / 64) mod 64))
                 (String (byte_of_N (128 + r mod 64)) EmptyString)))).
Proof.
  intros Hr. apply whole_4.
  - apply in_range_byte_false; lia_div.
  - apply in_range_byte_false; lia_div.
  - apply in_range_byte_true; lia_div.
  - rewrite !(in_range_byte _ _ (240 + r / 262144)) by lia_div.
    destruct (N.leb_spec (240 + r / 262144) (N.of_nat 240)).
    { rewrite (proj2 (N.leb_le (N.of_nat 240) _)) by lia. cbn [andb].
      apply in_range_byte_true; lia_div. }
    rewrite andb_false_r.
    destruct (N.leb_spec (N.of_nat 244) (240 + r / 262144)),
             (N.leb_spec (240 + r / 262144) (N.of_nat 244)); cbn [andb];
      unfold is_cont; apply in_range_byte_true; lia_div.
  - unfold is_cont. apply in_range_byte_true; lia_div.
  - unfold is_cont. apply in_range_byte_true; lia_div.
Qed.

(** [utf8.EncodeRune] writes valid UTF-8, whatever the rune. *)
Lemma whole_encode_rune r : whole (encode_rune r).
Proof.
  unfold encode_rune.
  destruct (N.ltb_spec r 128).
  { apply whole_low. rewrite code_byte_of_N by lia. apply Nat.ltb_lt. lia. }
  destruct (N.ltb_spec r 2048); [apply whole_encode_2; lia|].
  destruct (is_surrogate r) eqn:Hs; [apply whole_replacement|].
  destruct (N.ltb_spec r 65536).
  { apply whole_encode_3; [lia|]. unfold is_surrogate in Hs.
    apply andb_false_iff in Hs as [Hs%N.leb_gt|Hs%N.leb_gt]; lia. }
  destruct (N.ltb_spec r 1114112); [apply whole_encode_4; lia|apply whole_replacement].
Qed.

Lemma simple_escape_low e x : simple_escape e = Some x -> (code x <? 128) = true.
Proof. unfold simple_escape. repeat case_bool_decide; by intros [= <-]. Qed.

(** * What [unquote] yields is valid UTF-8 *)

(** The bytes of a sequence already measured are copied. *)
Lemma unquote_go_agree k : forall s t,
  unquote_go k s = Some t -> k <= String.length s -> agree k s t.
Proof.
  induction k as [|k IH]; intros [|c s] t; cbn [unquote_go agree String.length];
    try done; try lia.
  destruct (unquote_go k s) as [t'|] eqn:Hs; [|done]. intros [= <-] Hk.
  split; [done|]. apply IH; [done|lia].
Qed.

(** [rune_len] reads no further than the sequence it measures. *)
Lemma rune_len_le c s n : rune_len (String c s) = S n -> n <= String.length s.
Proof.
  cbn [rune_len]. destruct (code c <? 128); [intros [= <-]; lia|].
  destruct s as [|b [|d [|e s]]]; repeat (case_match; try done);
    intros [= <-]; cbn [String.length]; lia.
Qed.

Lemma rune_len_agree c s t n :
  rune_len (String c s) = S n -> agree n s t -> rune_len (String c t) = S n.
Proof.
  intros Hn. cbn [rune_len] in Hn |- *. destruct (code c <? 128); [done|].
  destruct s as [|b [|d [|e s]]]; repeat (case_match; try done); simplify_eq;
    cbn [agree]; intros; destruct_and?; simplify_eq;
    first [congruence|by repeat match goal with H : _ = _ |- _ => rewrite H end].
Qed.

(** What [unquote_go] makes of an escape: a whole number of sequences,
    and then what it makes of a shorter text. *)
Lemma unquote_go_escape s t :
  unquote_go 0 (String "\" s) = Some t ->
  exists p s' t', t = p +:+ t' /\ whole p /\ unquote_go 0 s' = Some t' /\
                  String.length s' < String.length s.
Proof.
  cbn [unquote_go]. rewrite bool_decide_eq_true_2 by done.
  destruct s as [|e s]; [done|]. case_bool_decide as He.
  2: { destruct (simple_escape e) as [x|] eqn:Hx; [|done]. cbn [mbind option_bind].
       destruct (unquote_go 0 s) as [t'|] eqn:Ht; [|done]. intros [= <-].
       exists (String x EmptyString), s, t'.
       split; [done|split; [by eapply whole_low, simple_escape_low|split; [done|cbn; lia]]]. }
  destruct s as [|h1 [|h2 [|h3 [|h4 s5]]]]; try done.
  destruct (hex4 h1 h2 h3 h4) as [r|]; [|done]. cbn [mbind option_bind].
  assert (Hrep : forall s', String.length s' <= String.length s5 ->
            String.app replacement <$> unquote_go 0 s' = Some t ->
            exists p s' t', t = p +:+ t' /\ whole p /\ unquote_go 0 s' = Some t' /\
              String.length s' < String.length
                (String e (String h1 (String h2 (String h3 (String h4 s5)))))).
  { intros s' Hs'. destruct (unquote_go 0 s') as [t'|] eqn:Ht; [|done]. intros [= <-].
    exists replacement, s', t'.
    split; [done|split; [apply whole_replacement|split; [done|cbn; lia]]]. }
  destruct (is_surrogate r).
  2: { destruct (unquote_go 0 s5) as [t'|] eqn:Ht; [|done]. intros [= <-].
       exists (encode_rune r), s5, t'.
       split; [done|split; [apply whole_encode_rune|split; [done|cbn; lia]]]. }
  destruct s5 as [|b [|u [|l1 [|l2 [|l3 [|l4 s11]]]]]]; try (by apply Hrep).
  destruct (hex4 l1 l2 l3 l4) as [r1|]; [|by apply Hrep].
  destruct (_ && _); [|by apply Hrep].
  destruct (unquote_go 0 s11) as [t'|] eqn:Ht; [|done]. intros [= <-].
  exists (encode_rune (join_surrogates r r1)), s11, t'.
  split; [done|split; [apply whole_encode_rune|split; [done|cbn; lia]]].
Qed.


Lemma unquote_go_valid n : forall s k t,
  String.length s <= n -> unquote_go k s = Some t -> valid_utf8_go k t = true.
Proof.
  induction n as [|n IH]; intros [|c s] k t Hn; cbn [String.length] in Hn; try lia.
  1,2: by destruct k; intros [= <-].
  destruct k as [|k].
  2: { cbn [unquote_go]. destruct (unquote_go k s) as [t'|] eqn:Ht; [|done].
       intros [= <-]. cbn [valid_utf8_go]. apply (IH s); [lia|done]. }
  destruct (decide (c = "\"%char)) as [->|Hc].
  { intros (p & s' & t' & -> & Hp & Ht & Hlen)%unquote_go_escape.
    rewrite Hp. apply (IH s'); [lia|done]. }
  cbn [unquote_go]. rewrite bool_decide_eq_false_2 by done.
  destruct (_ || _); [done|]. destruct (rune_len (String c s)) as [|m] eqn:Hm.
  - destruct (unquote_go 0 s) as [t'|] eqn:Ht; [|done]. intros [= <-].
    rewrite whole_replacement. apply (IH s); [lia|done].
  - destruct (unquote_go m s) as [t'|] eqn:Ht; [|done]. intros [= <-].
    cbn [valid_utf8_go].
    rewrite (rune_len_agree c s t' m Hm)
      by (apply unquote_go_agree; [done|by eapply rune_len_le]).
    apply (IH s); [lia|done].
Qed.

(** A string that [json.Unmarshal] stores is valid UTF-8, whatever the
    bytes of the literal it comes from. *)
Lemma unquote_valid_utf8 raw s : unquote raw = Some s -> valid_utf8 s = true.
Proof. by apply (unquote_go_valid (String.length raw)). Qed.

(** * The decoder reads every literal the scanner accepts *)

Lemma unquote_go_total n : forall s k,
  String.length s <= n -> high_prefix k s = true -> valid_raw s = true ->
  is_Some (unquote_go k s).
Proof.
  induction n as [|n IH]; intros [|c s] k Hn; cbn [String.length] in Hn; try lia.
  1,2: by destruct k.
  destruct k as [|k].
  2: { cbn [high_prefix unquote_go]. intros [Hc%negb_true_iff Hk]%andb_true_iff.
       rewrite valid_raw_high by done. intros Hv.
       destruct (IH s k) as [t Ht]; [lia|done..|]. rewrite Ht. by eexists. }
  intros _. cbn [valid_raw unquote_go]. case_bool_decide as Hc.
  - destruct s as [|e s]; [done|]. case_bool_decide as He.
    + destruct s as [|h1 [|h2 [|h3 [|h4 s5]]]]; try done.
      intros [[r Hr]%bool_decide_eq_true Hv]%andb_true_iff. rewrite Hr.
      cbn [mbind option_bind].
      assert (Hs5 : forall f : string -> string, is_Some (f <$> unquote_go 0 s5)).
      { intros f. destruct (IH s5 0) as [t Ht]; [cbn in *; lia|done..|].
        rewrite Ht. by eexists. }
      destruct (is_surrogate r); [|apply Hs5].
      destruct s5 as [|b [|u [|l1 [|l2 [|l3 [|l4 s11]]]]]]; try apply Hs5.
      destruct (hex4 l1 l2 l3 l4) as [r1|] eqn:Hr1; [|apply Hs5].
      destruct (_ && _) eqn:Hpair; [|apply Hs5].
      apply andb_true_iff in Hpair as [[[->%bool_decide_eq_true ->%bool_decide_eq_true]%andb_true_iff _]%andb_true_iff _].
      rewrite (valid_raw_u _ _ _ _ _ _ Hr1) in Hv.
      destruct (IH s11 0) as [t Ht]; [cbn in *; lia|done..|]. rewrite Ht. by eexists.
    + intros [[x Hx]%bool_decide_eq_true Hv]%andb_true_iff. rewrite Hx.
      cbn [mbind option_bind].
      destruct (IH s 0) as [t Ht]; [cbn in *; lia|done..|]. rewrite Ht. by eexists.
  - destruct (_ || _); [done|]. intros Hv.
    destruct (rune_len (String c s)) as [|m] eqn:Hm.
    + destruct (IH s 0) as [t Ht]; [lia|done..|]. rewrite Ht. by eexists.
    + destruct (IH s m) as [t Ht]; [lia| |done|by rewrite Ht; eexists].
      destruct (code c <? 128) eqn:Hlow; [|by eapply rune_len_high].
      rewrite rune_len_low in Hm by done. by injection Hm as <-.
Qed.

Lemma unquote_total raw : valid_raw raw = true -> is_Some (unquote raw).
Proof. by apply (unquote_go_total (String.length raw)). Qed.
