(* ===== verification/JsonParse.v ===== *)
(** * JsonParse: from bytes to a value

    The grammar the scanner of [encoding/json] accepts ([checkValid]), read
    by recursive descent: insignificant white space, the three literals,
    numbers, strings, arrays and objects, nesting at most [max_depth]
    containers deep, and nothing after the value but white space.

    The recursion is on [fuel].  A call consumes at least one byte per unit
    of fuel, so [json_parse] starts with one more than the length of the
    text. *)

From Stdlib Require Import ZArith Lia Ascii String Decimal.
From stdpp Require Import base tactics option list strings.
From S2P Require Import Prelude Json JsonString.

(** * Bytes with a meaning *)

Definition dquote : ascii := "034"%char.

(** A text in which an apostrophe stands for a double quote: the way the
    examples of this library write JSON. *)
Definition lit (s : string) : string :=
  string_map (fun c => if bool_decide (c = "'"%char) then dquote else c) s.

Definition is_ws (c : ascii) : bool :=
  bool_decide (code c = 32) || bool_decide (code c = 9)
  || bool_decide (code c = 13) || bool_decide (code c = 10).

Fixpoint skip_ws (s : string) : string :=
  match s with
  | String c s' => if is_ws c then skip_ws s' else s
  | EmptyString => s
  end.

(** * Numbers *)

Definition digit_of (c : ascii) : option (uint -> uint) :=
  match code c - 48 with
  | 0 => if is_digit c then Some D0 else None
  | 1 => Some D1 | 2 => Some D2 | 3 => Some D3 | 4 => Some D4 | 5 => Some D5
  | 6 => Some D6 | 7 => Some D7 | 8 => Some D8 | 9 => Some D9
  | _ => None
  end.

(** The longest run of digits at the head of [s]. *)
Fixpoint read_digits (s : string) : uint * string :=
  match s with
  | String c s' =>
      match digit_of c with
      | Some d => let '(u, r) := read_digits s' in (d u, r)
      | None => (Nil, s)
      end
  | EmptyString => (Nil, s)
  end.

(** A run of digits that is not empty. *)
Definition read_digits1 (s : string) : option (uint * string) :=
  match read_digits s with
  | (Nil, _) => None
  | r => Some r
  end.

(** The integer part: [0], or a digit from 1 to 9 and any digits. *)
Definition read_int_part (s : string) : option (uint * string) :=
  match expect "0" s with
  | Some s' => Some (D0 Nil, s')
  | None => read_digits1 s
  end.

Definition read_frac (s : string) : option (uint * string) :=
  match expect "." s with
  | Some s' => read_digits1 s'
  | None => Some (Nil, s)
  end.

Definition read_exp (s : string) : option (option Decimal.int * string) :=
  let digits (sign : uint -> Decimal.int) (s' : string) :=
    '(u, r) ← read_digits1 s'; Some (Some (sign u), r) in
  match expect_either "e" "E" s with
  | Some s' =>
      match expect "+" s', expect "-" s' with
      | Some s'', _ => digits Pos s''
      | None, Some s'' => digits Neg s''
      | None, None => digits Pos s'
      end
  | None => Some (None, s)
  end.

Definition read_number (s : string) : option (decimal * string) :=
  let '(sign, s0) :=
    match expect "-" s with
    | Some s' => (Neg, s')
    | None => (Pos, s)
    end in
  '(i, s1) ← read_int_part s0;
  '(f, s2) ← read_frac s1;
  '(e, s3) ← read_exp s2;
  Some (match e with
        | None => Decimal (sign i) f
        | Some x => DecimalExp (sign i) f x
        end, s3).

(** * Strings *)

(** The bytes up to the first quote that no backslash precedes. *)
Fixpoint read_string (s : string) : option (string * string) :=
  match s with
  | EmptyString => None
  | String c s1 =>
      if bool_decide (c = dquote) then Some (EmptyString, s1)
      else if bool_decide (c = "\"%char) then
        match s1 with
        | String e s2 =>
            '(raw, rest) ← read_string s2; Some (String c (String e raw), rest)
        | EmptyString => None
        end
      else '(raw, rest) ← read_string s1; Some (String c raw, rest)
  end.

Definition read_raw (s : string) : option (string * string) :=
  '(raw, rest) ← read_string s;
  if valid_raw raw then Some (raw, rest) else None.

(** * Values *)

Definition max_depth : nat := 10000.

Definition read_keyword (kw : string) (v : value) (s : string)
  : option (value * string) :=
  r ← strip_prefix kw s; Some (v, r).

Section containers.
Variable pv : string -> option (value * string).

(** The elements of an array, from the first byte of an element to the
    byte after the closing bracket. *)
Fixpoint parse_elems (fuel : nat) (s : string) : option (list value * string) :=
  match fuel with
  | O => None
  | S n =>
      '(v, r) ← pv s;
      match skip_ws r with
      | String c r' =>
          if bool_decide (c = ","%char) then
            '(vs, r'') ← parse_elems n r'; Some (v :: vs, r'')
          else if bool_decide (c = "]"%char) then Some ([v], r')
          else None
      | EmptyString => None
      end
  end.

(** The members of an object, from the white space before a key to the
    byte after the closing brace. *)
Fixpoint parse_members (fuel : nat) (s : string)
  : option (list (string * value) * string) :=
  match fuel with
  | O => None
  | S n =>
      match skip_ws s with
      | String q s1 =>
          if bool_decide (q = dquote) then
            '(k, r1) ← read_raw s1;
            r2 ← expect ":" (skip_ws r1);
            '(v, r3) ← pv r2;
            match skip_ws r3 with
            | String c r4 =>
                if bool_decide (c = ","%char) then
                  '(ms, r5) ← parse_members n r4; Some ((k, v) :: ms, r5)
                else if bool_decide (c = "}"%char) then Some ([(k, v)], r4)
                else None
            | EmptyString => None
            end
          else None
      | EmptyString => None
      end
  end.
End containers.

Fixpoint parse_value (fuel : nat) (d : nat) (s : string) {struct fuel}
  : option (value * string) :=
  match fuel with
  | O => None
  | S n =>
      match skip_ws s with
      | EmptyString => None
      | String c s1 =>
          if bool_decide (c = "{"%char) then
            if max_depth <=? d then None
            else
              match expect "}" (skip_ws s1) with
              | Some s2 => Some (JObject [], s2)
              | None =>
                  '(ms, r) ← parse_members (parse_value n (S d)) n s1;
                  Some (JObject ms, r)
              end
          else if bool_decide (c = "["%char) then
            if max_depth <=? d then None
            else
              match expect "]" (skip_ws s1) with
              | Some s2 => Some (JArray [], s2)
              | None =>
                  '(vs, r) ← parse_elems (parse_value n (S d)) n s1;
                  Some (JArray vs, r)
              end
          else if bool_decide (c = dquote) then
            '(raw, r) ← read_raw s1; Some (JString raw, r)
          else if bool_decide (c = "t"%char) then read_keyword "rue" (JBool true) s1
          else if bool_decide (c = "f"%char) then read_keyword "alse" (JBool false) s1
          else if bool_decide (c = "n"%char) then read_keyword "ull" JNull s1
          else '(x, r) ← read_number (String c s1); Some (JNumber x, r)
      end
  end.

(** [checkValid] followed by the construction of the value: the whole text
    is one value between white space. *)
Definition json_parse (s : string) : option value :=
  '(v, r) ← parse_value (S (String.length s)) 0 s;
  match skip_ws r with
  | EmptyString => Some v
  | String _ _ => None
  end.

(** A parser that leaves less than it got. *)
Definition consumes {A} (p : string -> option (A * string)) : Prop :=
  forall s x r, p s = Some (x, r) -> String.length r < String.length s.

(** * Laws *)

Local Abbreviation len := String.length.

(** * What a reader leaves is shorter than what it got *)

Lemma expect_Some c s r : expect c s = Some r <-> s = String c r.
Proof.
  destruct s as [|d s]; simpl; [done|].
  case_bool_decide; split; try done; [by intros [= <-]; subst|by intros [= <- <-]..].
Qed.

Lemma expect_length c s r : expect c s = Some r -> len s = S (len r).
Proof. by intros ->%expect_Some. Qed.

Lemma expect_ne c d t : c <> d -> expect c (String d t) = None.
Proof. intros. simpl. by rewrite bool_decide_eq_false_2. Qed.

Lemma expect_eq c t : expect c (String c t) = Some t.
Proof. simpl. by rewrite bool_decide_eq_true_2. Qed.

Lemma expect_either_length c1 c2 s r : expect_either c1 c2 s = Some r -> len s = S (len r).
Proof. destruct s; simpl; [done|]. by destruct (_ || _); intros [= <-]. Qed.

Lemma skip_ws_length s : len (skip_ws s) <= len s.
Proof. induction s as [|c s IH]; simpl; [lia|]. destruct (is_ws c); simpl; lia. Qed.

Lemma read_digits_length s u r : read_digits s = (u, r) -> len r <= len s.
Proof.
  revert u r. induction s as [|c s IH]; simpl; intros u r.
  - by intros [= <- <-].
  - destruct (digit_of c); [|by intros [= <- <-]].
    destruct (read_digits s) as [u' r']. intros [= <- <-].
    specialize (IH _ _ eq_refl). lia.
Qed.

Lemma read_digits1_Some s u r :
  read_digits1 s = Some (u, r) <-> read_digits s = (u, r) /\ u <> Nil.
Proof.
  unfold read_digits1. destruct (read_digits s) as [[] r']; split;
    try done; try by intros [[= <- <-] ?]. all: by intros [= <- <-].
Qed.

Lemma read_digits_nonempty s u r :
  read_digits s = (u, r) -> u <> Nil -> len r < len s.
Proof.
  destruct s as [|c s]; simpl; [by intros [= <- <-]|].
  destruct (digit_of c); [|by intros [= <- <-]].
  destruct (read_digits s) as [u' r'] eqn:Hd. apply read_digits_length in Hd.
  intros [= <- <-] _. lia.
Qed.

Lemma read_digits1_length s u r : read_digits1 s = Some (u, r) -> len r < len s.
Proof. intros [? ?]%read_digits1_Some. by eapply read_digits_nonempty. Qed.

Lemma strip_prefix_length p s r : strip_prefix p s = Some r -> len r <= len s.
Proof. intros ->%strip_prefix_Some. rewrite app_length. lia. Qed.

Lemma read_string_length n : forall s raw r,
  len s <= n -> read_string s = Some (raw, r) -> len r < len s.
Proof.
  induction n as [|n IH]; intros [|c s] raw r Hn; simpl in *; try done; try lia.
  repeat case_bool_decide.
  - intros [= <- <-]. lia.
  - destruct s as [|e s]; [done|]. simpl in *.
    destruct (read_string s) as [[raw' r']|] eqn:Hs; [|done]. intros [= <- <-].
    destruct n; [lia|]. apply IH in Hs; lia.
  - destruct (read_string s) as [[raw' r']|] eqn:Hs; [|done]. intros [= <- <-].
    apply IH in Hs; lia.
Qed.

Lemma read_raw_length s raw r : read_raw s = Some (raw, r) -> len r < len s.
Proof.
  unfold read_raw. destruct (read_string s) as [[raw' r']|] eqn:Hs; [simpl|done].
  destruct (valid_raw raw'); [|done]. intros [= <- <-]. by eapply read_string_length.
Qed.

Lemma read_int_part_length s u r : read_int_part s = Some (u, r) -> len r < len s.
Proof.
  unfold read_int_part. destruct (expect "0" s) eqn:He.
  - intros [= <- <-]. apply expect_length in He. lia.
  - apply read_digits1_length.
Qed.

Lemma read_frac_length s u r : read_frac s = Some (u, r) -> len r <= len s.
Proof.
  unfold read_frac. destruct (expect "." s) eqn:He.
  - intros ?%read_digits1_length. apply expect_length in He. lia.
  - by intros [= <- <-].
Qed.

Lemma read_exp_length s e r : read_exp s = Some (e, r) -> len r <= len s.
Proof.
  unfold read_exp.
  assert (Hd : forall (sign : uint -> Decimal.int) t, len t < len s ->
    ('(u, r) ← read_digits1 t; Some (Some (sign u), r)) = Some (e, r) ->
    len r <= len s).
  { intros sign t Ht. destruct (read_digits1 t) as [[u r']|] eqn:Hr; [|done].
    intros [= <- <-]. apply read_digits1_length in Hr. lia. }
  destruct (expect_either _ _ s) as [s'|] eqn:Hs'; [|by intros [= <- <-]].
  apply expect_either_length in Hs'.
  destruct (expect "+" s') eqn:Hp; [apply expect_length in Hp; apply Hd; lia|].
  destruct (expect "-" s') eqn:Hm; [apply expect_length in Hm|]; apply Hd; lia.
Qed.

Lemma read_number_length s x r : read_number s = Some (x, r) -> len r < len s.
Proof.
  unfold read_number.
  destruct (match expect "-" s with Some s' => _ | None => _ end) as [sign s0] eqn:Hs.
  assert (len s0 <= len s).
  { destruct (expect "-" s) eqn:He; simplify_eq; [apply expect_length in He|]; lia. }
  intros Hn. repeat (simplify_option_eq; try match goal with p : _ * _ |- _ => destruct p end).
  repeat match goal with
  | H : read_int_part _ = _ |- _ => apply read_int_part_length in H
  | H : read_frac _ = _ |- _ => apply read_frac_length in H
  | H : read_exp _ = _ |- _ => apply read_exp_length in H
  end. lia.
Qed.

Section container_laws.
Variable pv : string -> option (value * string).
Hypothesis pv_consumes : consumes pv.

Lemma parse_elems_length n : consumes (parse_elems pv n).
Proof.
  induction n as [|n IH]; intros s vs r; simpl; [done|].
  destruct (pv s) as [[v r0]|] eqn:Hv; [simpl|done]. apply pv_consumes in Hv.
  pose proof (skip_ws_length r0).
  destruct (skip_ws r0) as [|c r1]; [done|]. simpl in *.
  repeat case_bool_decide; try done.
  - destruct (parse_elems pv n r1) as [[vs' r2]|] eqn:Hr; [|done].
    intros [= <- <-]. apply IH in Hr. lia.
  - intros [= <- <-]. lia.
Qed.

Lemma parse_members_length n : consumes (parse_members pv n).
Proof.
  induction n as [|n IH]; intros s ms r; simpl; [done|].
  pose proof (skip_ws_length s).
  destruct (skip_ws s) as [|q s1]; [done|]. simpl in *.
  case_bool_decide; [|done].
  destruct (read_raw s1) as [[k r1]|] eqn:Hk; [simpl|done].
  apply read_raw_length in Hk. pose proof (skip_ws_length r1).
  destruct (expect ":" (skip_ws r1)) as [r2|] eqn:Hc; [simpl|done].
  apply expect_length in Hc.
  destruct (pv r2) as [[v r3]|] eqn:Hv; [simpl|done]. apply pv_consumes in Hv.
  pose proof (skip_ws_length r3).
  destruct (skip_ws r3) as [|c r4]; [done|]. simpl in *.
  repeat case_bool_decide; try done.
  - destruct (parse_members pv n r4) as [[ms' r5]|] eqn:Hr; [|done].
    intros [= <- <-]. apply IH in Hr. lia.
  - intros [= <- <-]. lia.
Qed.
End container_laws.

Lemma parse_value_length n d : consumes (parse_value n d).
Proof.
  revert d. induction n as [|n IH]; intros d s v r; cbn [parse_value]; [done|].
  pose proof (skip_ws_length s).
  destruct (skip_ws s) as [|c s1]; [done|]. cbn [String.length] in *.
  pose proof (skip_ws_length s1).
  repeat case_bool_decide.
  - destruct (max_depth <=? d); [done|].
    destruct (expect "}" (skip_ws s1)) eqn:He.
    { intros [= <- <-]. apply expect_length in He. lia. }
    destruct (parse_members _ n s1) as [[ms r']|] eqn:Hm; [|done].
    intros [= <- <-]. apply parse_members_length in Hm; [lia|apply IH].
  - destruct (max_depth <=? d); [done|].
    destruct (expect "]" (skip_ws s1)) eqn:He.
    { intros [= <- <-]. apply expect_length in He. lia. }
    destruct (parse_elems _ n s1) as [[ms r']|] eqn:Hm; [|done].
    intros [= <- <-]. apply parse_elems_length in Hm; [lia|apply IH].
  - destruct (read_raw s1) as [[raw r']|] eqn:Hr; [|done].
    intros [= <- <-]. apply read_raw_length in Hr. lia.
  - unfold read_keyword. destruct (strip_prefix _ s1) eqn:Hp; [|done].
    intros [= <- <-]. apply strip_prefix_length in Hp. lia.
  - unfold read_keyword. destruct (strip_prefix _ s1) eqn:Hp; [|done].
    intros [= <- <-]. apply strip_prefix_length in Hp. lia.
  - unfold read_keyword. destruct (strip_prefix _ s1) eqn:Hp; [|done].
    intros [= <- <-]. apply strip_prefix_length in Hp. lia.
  - destruct (read_number _) as [[x r']|] eqn:Hr; [|done].
    intros [= <- <-]. apply read_number_length in Hr. simpl in *. lia.
Qed.

(** * More fuel changes nothing *)

Section container_fuel.
Variables pv pv' : string -> option (value * string).
Hypothesis pv_consumes : consumes pv.

Lemma parse_elems_fuel n : forall n' s,
  (forall t, len t <= len s -> pv t = pv' t) -> len s < n -> len s < n' ->
  parse_elems pv n s = parse_elems pv' n' s.
Proof.
  induction n as [|n IH]; intros [|n'] s Hpv Hn Hn'; try lia. simpl.
  rewrite <- Hpv by done.
  destruct (pv s) as [[v r0]|] eqn:Hv; [simpl|done]. apply pv_consumes in Hv.
  pose proof (skip_ws_length r0).
  destruct (skip_ws r0) as [|c r1]; [done|]. simpl in *.
  repeat case_bool_decide; try done.
  rewrite (IH n' r1); [done| |lia..]. intros t Ht. apply Hpv. lia.
Qed.

Lemma parse_members_fuel n : forall n' s,
  (forall t, len t <= len s -> pv t = pv' t) -> len s < n -> len s < n' ->
  parse_members pv n s = parse_members pv' n' s.
Proof.
  induction n as [|n IH]; intros [|n'] s Hpv Hn Hn'; try lia. simpl.
  pose proof (skip_ws_length s).
  destruct (skip_ws s) as [|q s1]; [done|]. simpl in *.
  case_bool_decide; [|done].
  destruct (read_raw s1) as [[k r1]|] eqn:Hk; [simpl|done].
  apply read_raw_length in Hk. pose proof (skip_ws_length r1).
  destruct (expect ":" (skip_ws r1)) as [r2|] eqn:Hc; [simpl|done].
  apply expect_length in Hc.
  rewrite <- Hpv by lia.
  destruct (pv r2) as [[v r3]|] eqn:Hv; [simpl|done]. apply pv_consumes in Hv.
  pose proof (skip_ws_length r3).
  destruct (skip_ws r3) as [|c r4]; [done|]. simpl in *.
  repeat case_bool_decide; try done.
  rewrite (IH n' r4); [done| |lia..]. intros t Ht. apply Hpv. lia.
Qed.
End container_fuel.

Lemma parse_value_fuel n : forall n' d s,
  len s < n -> len s < n' -> parse_value n d s = parse_value n' d s.
Proof.
  induction n as [|n IH]; intros [|n'] d s Hn Hn'; try lia. cbn [parse_value].
  pose proof (skip_ws_length s).
  destruct (skip_ws s) as [|c s1]; [done|]. cbn [String.length] in *.
  pose proof (skip_ws_length s1).
  rewrite (parse_members_fuel (parse_value n (S d)) (parse_value n' (S d))
             (parse_value_length _ _) n n' s1), 
          (parse_elems_fuel (parse_value n (S d)) (parse_value n' (S d))
             (parse_value_length _ _) n n' s1);
    [done|try lia..]; intros t Ht; apply IH; lia.
Qed.

(** * The equations of [parse_value] by the first byte *)

Lemma parse_value_array n d s :
  parse_value (S n) d (String "[" s) =
    if max_depth <=? d then None
    else match expect "]" (skip_ws s) with
         | Some s2 => Some (JArray [], s2)
         | None => '(vs, r) ← parse_elems (parse_value n (S d)) n s; Some (JArray vs, r)
         end.
Proof. done. Qed.

Lemma parse_value_object n d s :
  parse_value (S n) d (String "{" s) =
    if max_depth <=? d then None
    else match expect "}" (skip_ws s) with
         | Some s2 => Some (JObject [], s2)
         | None =>
             '(ms, r) ← parse_members (parse_value n (S d)) n s; Some (JObject ms, r)
         end.
Proof. done. Qed.

Lemma parse_value_string n d s :
  parse_value (S n) d (String dquote s) = '(raw, r) ← read_raw s; Some (JString raw, r).
Proof. done. Qed.

Lemma parse_value_number n d c s :
  is_digit c = true \/ c = "-"%char ->
  parse_value (S n) d (String c s) = '(x, r) ← read_number (String c s); Some (JNumber x, r).
Proof.
  intros [Hc| ->]; [|done].
  destruct c as [[] [] [] [] [] [] [] []]; by vm_compute in Hc.
Qed.
