(* ===== verification/JsonPrint.v ===== *)
(** * JsonPrint: from a value to bytes

    The compact text [json.Marshal] writes: no white space, members in the
    order of the value, a string between quotes as it stands in the value
    (already escaped), a number by its decimal literal.

    The scanner reads back what the printer writes ([parse_value_print],
    [json_parse_print]) for the values [wf_value] describes: numbers
    without leading zeros, strings the scanner accepts. *)

From Stdlib Require Import ZArith Lia Ascii String Decimal DecimalString.
From stdpp Require Import base tactics option list strings.
From S2P Require Import Prelude Json JsonString JsonParse.

Definition print_digits (u : uint) : string := NilEmpty.string_of_uint u.

Definition print_int (i : Decimal.int) : string :=
  match i with
  | Pos u => print_digits u
  | Neg u => String "-" (print_digits u)
  end.

Definition print_frac (f : uint) : string :=
  match f with
  | Nil => EmptyString
  | _ => String "." (print_digits f)
  end.

Definition print_number (d : decimal) : string :=
  match d with
  | Decimal i f => print_int i +:+ print_frac f
  | DecimalExp i f e => print_int i +:+ print_frac f +:+ String "e" (print_int e)
  end.

Definition print_string (raw : string) : string :=
  String dquote (raw +:+ String dquote EmptyString).

(** The elements of a list between commas. *)
Fixpoint print_sep (ss : list string) : string :=
  match ss with
  | [] => EmptyString
  | [s] => s
  | s :: ss' => s +:+ String "," (print_sep ss')
  end.

Fixpoint json_print (v : value) : string :=
  match v with
  | JNull => "null"
  | JBool true => "true"
  | JBool false => "false"
  | JNumber d => print_number d
  | JString raw => print_string raw
  | JArray vs => String "[" (print_sep (map json_print vs) +:+ "]")
  | JObject ms =>
      String "{"
        (print_sep (map (fun m => print_string m.1 +:+ String ":" (json_print m.2)) ms)
         +:+ "}")
  end.

(** * Values that print to text that reads back *)

Definition nonzero_head (u : uint) : bool :=
  match u with Nil | D0 _ => false | _ => true end.

(** [0], or digits that do not start with [0]. *)
Definition wf_int_part (u : uint) : bool :=
  match u with D0 Nil => true | _ => nonzero_head u end.

Definition nonempty (u : uint) : bool :=
  match u with Nil => false | _ => true end.

Definition wf_number (d : decimal) : bool :=
  match d with
  | Decimal i _ => wf_int_part (int_digits i)
  | DecimalExp i _ e => wf_int_part (int_digits i) && nonempty (int_digits e)
  end.

Fixpoint wf_value (v : value) : bool :=
  match v with
  | JNull | JBool _ => true
  | JNumber d => wf_number d
  | JString raw => valid_raw raw
  | JArray vs => forallb wf_value vs
  | JObject ms => forallb (fun m => valid_raw m.1 && wf_value m.2) ms
  end.

(** What may follow a number: no digit, no point, no exponent. *)
Definition ends_number (rest : string) : bool :=
  match rest with
  | EmptyString => true
  | String c _ =>
      negb (is_digit c || bool_decide (c = "."%char) || bool_decide (c = "e"%char)
            || bool_decide (c = "E"%char))
  end.

(** What follows a value inside a text: nothing, or a comma, or the end of
    a container. *)
Definition ends_value (rest : string) : bool :=
  match rest with
  | EmptyString => true
  | String c _ =>
      bool_decide (c = ","%char) || bool_decide (c = "]"%char)
      || bool_decide (c = "}"%char)
  end.

Definition no_digit (rest : string) : bool :=
  match rest with
  | EmptyString => true
  | String c _ => negb (is_digit c)
  end.

(** The first byte of a printed value: no white space, and not the end of
    a container. *)
Definition starts_value (s : string) : Prop :=
  exists c t, s = String c t /\ is_ws c = false /\
              c <> "]"%char /\ c <> "}"%char /\ c <> ","%char.

(** The text of a member. *)
Definition print_member (m : string * value) : string :=
  print_string m.1 +:+ String ":" (json_print m.2).

(** [pv] reads back the print of [v] from every text no longer than
    [bound]. *)
Definition reads_back (pv : string -> option (value * string))
    (bound : nat) (v : value) : Prop :=
  forall rest, ends_value rest = true ->
               String.length (json_print v +:+ rest) <= bound ->
               pv (json_print v +:+ rest) = Some (v, rest).

(** The scanner reads [v] back from its print, whatever follows and at
    whatever depth, given the fuel for the text. *)
Definition reads_value (v : value) : Prop :=
  forall n d rest,
    wf_value v = true -> ends_value rest = true ->
    value_depth v + d <= max_depth ->
    String.length (json_print v +:+ rest) < n ->
    parse_value n d (json_print v +:+ rest) = Some (v, rest).

(** * Laws *)

Local Abbreviation len := String.length.

(** Lengths of concatenations, everywhere. *)
Ltac len_norm :=
  repeat first [rewrite app_length in * | progress cbn [String.length] in *].

(** * Numbers and strings *)

Lemma digit_of_None c : is_digit c = false -> digit_of c = None.
Proof. destruct c as [[] [] [] [] [] [] [] []]; by vm_compute. Qed.

Lemma read_digits_print u rest :
  no_digit rest = true -> read_digits (print_digits u +:+ rest) = (u, rest).
Proof.
  intros Hr. unfold print_digits.
  induction u; simpl; rewrite ?app_cons; simpl; rewrite ?IHu; try done.
  destruct rest as [|c rest]; [done|]. simpl in *.
  by rewrite digit_of_None by by destruct (is_digit c).
Qed.

Lemma print_digits_head u rest :
  nonempty u = true ->
  exists c t, print_digits u +:+ rest = String c t /\ is_digit c = true /\
              (nonzero_head u = true -> c <> "0"%char).
Proof.
  destruct u; try done; intros _; unfold print_digits; simpl; rewrite app_cons;
    by eexists _, _.
Qed.

Lemma read_digits1_print u rest :
  nonempty u = true -> no_digit rest = true ->
  read_digits1 (print_digits u +:+ rest) = Some (u, rest).
Proof.
  intros Hu Hr. apply read_digits1_Some.
  split; [by apply read_digits_print|by destruct u].
Qed.

Lemma expect_digit c c' t : is_digit c' = true -> is_digit c = false ->
  expect c (String c' t) = None.
Proof. intros H1 H2. simpl. case_bool_decide; [congruence|done]. Qed.

Lemma read_int_part_print u rest :
  wf_int_part u = true -> no_digit rest = true ->
  read_int_part (print_digits u +:+ rest) = Some (u, rest).
Proof.
  intros Hu Hr. unfold read_int_part.
  destruct (decide (u = D0 Nil)) as [->|Hne]; [done|].
  assert (Hh : nonzero_head u = true) by (by destruct u as [|[]| | | | | | | | |]).
  destruct (print_digits_head u rest) as (c & t & Ht & Hc & Hz);
    [by destruct u|].
  rewrite Ht. simpl. rewrite bool_decide_eq_false_2 by (intros <-; by apply Hz).
  rewrite <- Ht. apply read_digits1_print; [by destruct u|done].
Qed.

Lemma ends_number_cons c t :
  ends_number (String c t) = true ->
  is_digit c = false /\ c <> "."%char /\ c <> "e"%char /\ c <> "E"%char.
Proof.
  simpl. intros H. repeat case_bool_decide; subst; try by vm_compute in H.
  by destruct (is_digit c).
Qed.

Lemma ends_number_no_digit rest : ends_number rest = true -> no_digit rest = true.
Proof.
  destruct rest as [|c ?]; [done|]. intros (Hc & _)%ends_number_cons. simpl.
  by rewrite Hc.
Qed.

Lemma read_frac_print f rest :
  no_digit rest = true -> expect "." rest = None ->
  read_frac (print_frac f +:+ rest) = Some (f, rest).
Proof.
  intros Hr Hp. unfold read_frac. destruct (decide (f = Nil)) as [->|Hf].
  - by rewrite app_nil_l, Hp.
  - assert (print_frac f = String "." (print_digits f)) as -> by (by destruct f).
    rewrite app_cons, expect_eq. apply read_digits1_print; [by destruct f|done].
Qed.

Lemma ends_number_no_point rest : ends_number rest = true -> expect "." rest = None.
Proof.
  destruct rest as [|c ?]; [done|]. intros (_ & ? & _)%ends_number_cons.
  by apply expect_ne.
Qed.

Lemma read_exp_none rest : ends_number rest = true -> read_exp rest = Some (None, rest).
Proof.
  destruct rest as [|c rest]; [done|]. intros (_ & _ & ? & ?)%ends_number_cons.
  unfold read_exp. simpl. by rewrite !bool_decide_eq_false_2.
Qed.

Lemma read_exp_print e rest :
  nonempty (int_digits e) = true -> ends_number rest = true ->
  read_exp (String "e" (print_int e +:+ rest)) = Some (Some e, rest).
Proof.
  intros He Hr%ends_number_no_digit. unfold read_exp. simpl.
  destruct e as [u|u]; simpl in *.
  - destruct (print_digits_head u rest He) as (c & t & Ht & Hc & _).
    rewrite Ht, !expect_digit by done. rewrite <- Ht.
    by rewrite read_digits1_print.
  - by rewrite read_digits1_print.
Qed.

(** What follows the integer part of a printed number is no digit. *)
Lemma no_digit_tail f e rest :
  ends_number rest = true ->
  no_digit (print_frac f +:+ from_option (fun x => String "e" (print_int x)) "" e +:+ rest)
  = true.
Proof.
  intros Hr. destruct f; try done. rewrite app_nil_l.
  destruct e; [done|]. by apply ends_number_no_digit.
Qed.

Lemma read_number_print d rest :
  wf_number d = true -> ends_number rest = true ->
  read_number (print_number d +:+ rest) = Some (d, rest).
Proof.
  intros Hd Hr. unfold read_number.
  assert (Hsign : forall i tail,
    wf_int_part (int_digits i) = true -> no_digit tail = true ->
    match expect "-" (print_int i +:+ tail) with
    | Some s' => (Neg, s')
    | None => (Pos, print_int i +:+ tail)
    end = ((if is_neg i then Neg else Pos), print_digits (int_digits i) +:+ tail)
    /\ (if is_neg i then Neg else Pos) (int_digits i) = i).
  { intros [u|u] tail Hu Ht; simpl; [|done].
    destruct (print_digits_head u tail) as (c & t & -> & Hc & _);
      [by destruct u as [|[]| | | | | | | | |]|].
    by rewrite expect_digit. }
  destruct d as [i f|i f e]; simpl in Hd.
  - destruct (Hsign i (print_frac f +:+ rest) Hd (no_digit_tail f None rest Hr))
      as [Hs Hi].
    unfold print_number. rewrite app_assoc', Hs.
    rewrite read_int_part_print by (done || apply (no_digit_tail f None rest Hr)).
    simpl. rewrite read_frac_print
      by (by apply ends_number_no_digit || by apply ends_number_no_point). simpl.
    rewrite read_exp_none by done. simpl. by rewrite Hi.
  - apply andb_true_iff in Hd as [Hd He].
    destruct (Hsign i (print_frac f +:+ String "e" (print_int e) +:+ rest) Hd
                (no_digit_tail f (Some e) rest Hr)) as [Hs Hi].
    unfold print_number. rewrite !app_assoc', Hs.
    rewrite read_int_part_print by (done || apply (no_digit_tail f (Some e) rest Hr)).
    simpl. rewrite app_cons, read_frac_print by done. simpl.
    rewrite read_exp_print by done. simpl. by rewrite Hi.
Qed.

(** * Strings *)

(** A hexadecimal digit is neither a quote nor a backslash. *)
Lemma hex_val_plain h :
  is_Some (hex_val h) -> h <> dquote /\ h <> "\"%char.
Proof. destruct h as [[] [] [] [] [] [] [] []]; by vm_compute; intros []. Qed.

Lemma hex4_plain a b c d :
  is_Some (hex4 a b c d) ->
  Forall (fun h => h <> dquote /\ h <> "\"%char) [a; b; c; d].
Proof.
  unfold hex4. intros [x Hx]. repeat constructor; apply hex_val_plain;
    by repeat (simplify_option_eq; try case_match).
Qed.

Lemma read_string_plain c s :
  c <> dquote -> c <> "\"%char ->
  read_string (String c s) = '(raw, rest) ← read_string s; Some (String c raw, rest).
Proof. intros. simpl. by rewrite !bool_decide_eq_false_2. Qed.

Lemma read_string_escape e s :
  read_string (String "\" (String e s))
  = '(raw, rest) ← read_string s; Some (String "\" (String e raw), rest).
Proof. done. Qed.

(** The scanner stops at the quote that ends a valid string. *)
Lemma read_string_valid n : forall raw rest,
  String.length raw <= n -> valid_raw raw = true ->
  read_string (raw +:+ String dquote rest) = Some (raw, rest).
Proof.
  induction n as [|n IH]; intros [|c raw] rest Hn Hv; simpl in Hn; try lia;
    try by rewrite app_nil_l.
  rewrite app_cons. simpl in Hv. case_bool_decide as Hc.
  - subst c. destruct raw as [|e raw]; [done|]. rewrite app_cons, read_string_escape.
    case_bool_decide as He.
    + destruct raw as [|h1 [|h2 [|h3 [|h4 raw]]]]; try done.
      apply andb_true_iff in Hv as [Hh%bool_decide_eq_true Hv].
      apply hex4_plain in Hh.
      rewrite !Forall_cons in Hh. destruct Hh as ([] & [] & [] & [] & _).
      rewrite !app_cons, !read_string_plain by done.
      rewrite IH by (simpl in *; done || lia). done.
    + apply andb_true_iff in Hv as [_ Hv].
      rewrite IH by (simpl in *; done || lia). done.
  - destruct (_ || _) eqn:Hq; [done|]. apply orb_false_iff in Hq as [Hq _].
    apply bool_decide_eq_false in Hq.
    rewrite read_string_plain, IH by (done || lia). done.
Qed.

Lemma read_raw_valid raw rest :
  valid_raw raw = true -> read_raw (raw +:+ String dquote rest) = Some (raw, rest).
Proof.
  intros Hv. unfold read_raw. rewrite (read_string_valid _ raw rest (le_n _) Hv).
  simpl. by rewrite Hv.
Qed.

(** * Values *)

Lemma starts_value_skip_ws s : starts_value s -> skip_ws s = s.
Proof. intros (c & t & -> & Hc & _). simpl. by rewrite Hc. Qed.

Lemma ends_value_skip_ws s : ends_value s = true -> skip_ws s = s.
Proof.
  destruct s as [|c s]; [done|]. simpl. intros Hc.
  repeat case_bool_decide; subst; done.
Qed.

Lemma digit_starts_value c t : is_digit c = true -> starts_value (String c t).
Proof.
  intros Hc. exists c, t. split; [done|].
  destruct c as [[] [] [] [] [] [] [] []]; by vm_compute in Hc.
Qed.

Lemma json_print_starts v rest :
  wf_value v = true -> starts_value (json_print v +:+ rest).
Proof.
  destruct v as [|[]|d|raw|vs|ms]; simpl; intros Hv; unfold print_string;
    try (eexists _, _; by rewrite app_cons).
  assert (Hi : forall i tail, wf_int_part (int_digits i) = true ->
            starts_value (print_int i +:+ tail)).
  { intros [u|u] tail Hu; simpl; [|by eexists _, _].
    destruct (print_digits_head u tail) as (c & t & -> & Hc & _);
      [by destruct u as [|[]| | | | | | | | |]|].
    by apply digit_starts_value. }
  destruct d as [i f|i f e]; unfold print_number; rewrite ?app_assoc'.
  - by apply Hi.
  - apply andb_true_iff in Hv as [Hv _]. by apply Hi.
Qed.

Lemma print_sep_cons s s' ss :
  print_sep (s :: s' :: ss) = s +:+ String "," (print_sep (s' :: ss)).
Proof. done. Qed.

Lemma print_member_app k v tail :
  print_member (k, v) +:+ tail
  = String dquote (k +:+ String dquote (String ":" (json_print v +:+ tail))).
Proof.
  unfold print_member, print_string. simpl.
  by rewrite !app_cons, !app_assoc', !app_cons, app_nil_l.
Qed.

Section container_round_trip.
Variable pv : string -> option (value * string).

Lemma parse_elems_print vs : forall n rest,
  vs <> [] ->
  Forall (reads_back pv (len (print_sep (map json_print vs) +:+ String "]" rest))) vs ->
  len (print_sep (map json_print vs) +:+ String "]" rest) < n ->
  parse_elems pv n (print_sep (map json_print vs) +:+ String "]" rest) = Some (vs, rest).
Proof.
  induction vs as [|v vs IH]; intros n rest Hne Hvs Hn; [done|].
  destruct n as [|n]; [lia|]. apply Forall_cons in Hvs as [Hv Hvs].
  cbn [parse_elems]. destruct vs as [|v' vs].
  { simpl in *. by rewrite Hv. }
  cbn [map] in *. rewrite print_sep_cons in *.
  set (items := print_sep (json_print v' :: map json_print vs)) in *.
  assert (He : (json_print v +:+ String "," items) +:+ String "]" rest
               = json_print v +:+ String "," (items +:+ String "]" rest))
    by (by rewrite app_assoc', app_cons).
  rewrite He in Hv, Hvs, Hn |- *. rewrite Hv by done. simpl.
  rewrite app_length in Hn, Hvs. simpl in Hn, Hvs.
  rewrite (IH n rest); [done|done| |lia].
  eapply Forall_impl; [exact Hvs|]. intros x Hx rest' Hr Hl. apply Hx; [done|lia].
Qed.

Lemma parse_members_print ms : forall n rest,
  ms <> [] ->
  Forall (fun m => valid_raw m.1 = true /\
            reads_back pv (len (print_sep (map print_member ms) +:+ String "}" rest)) m.2)
         ms ->
  len (print_sep (map print_member ms) +:+ String "}" rest) < n ->
  parse_members pv n (print_sep (map print_member ms) +:+ String "}" rest)
  = Some (ms, rest).
Proof.
  induction ms as [|[k v] ms IH]; intros n rest Hne Hms Hn; [done|].
  destruct n as [|n]; [lia|]. apply Forall_cons in Hms as [[Hk Hv] Hms].
  cbn [parse_members]. simpl in Hk, Hv. destruct ms as [|m' ms].
  { cbn [map print_sep] in *. rewrite print_member_app in *.
    simpl. rewrite read_raw_valid by done. simpl.
    rewrite Hv; [done|done|]. len_norm. lia. }
  cbn [map] in *. rewrite print_sep_cons in *.
  set (items := print_sep (print_member m' :: map print_member ms)) in *.
  assert (He : (print_member (k, v) +:+ String "," items) +:+ String "}" rest
               = print_member (k, v) +:+ String "," (items +:+ String "}" rest))
    by (by rewrite app_assoc', app_cons).
  rewrite He in Hv, Hms, Hn |- *. rewrite print_member_app in *.
  simpl. rewrite read_raw_valid by done. simpl.
  rewrite Hv; [simpl|done|len_norm; lia].
  rewrite (IH n rest); [done|done| |len_norm; lia].
  eapply Forall_impl; [exact Hms|]. intros x [? Hx]. split; [done|].
  intros rest' Hr Hl. apply Hx; [done|]. len_norm. lia.
Qed.

End container_round_trip.

Lemma print_number_head d rest :
  wf_number d = true ->
  exists c t, print_number d +:+ rest = String c t /\
              (is_digit c = true \/ c = "-"%char).
Proof.
  intros Hd.
  assert (Hi : forall i tail, wf_int_part (int_digits i) = true ->
            exists c t, print_int i +:+ tail = String c t /\
                        (is_digit c = true \/ c = "-"%char)).
  { intros [u|u] tail Hu; simpl; [|by eexists _, _; eauto].
    destruct (print_digits_head u tail) as (c & t & -> & Hc & _);
      [by destruct u as [|[]| | | | | | | | |]|eauto]. }
  destruct d as [i f|i f e]; unfold print_number; rewrite ?app_assoc'.
  - by apply Hi.
  - apply andb_true_iff in Hd as [Hd _]. by apply Hi.
Qed.

Lemma ends_value_ends_number rest : ends_value rest = true -> ends_number rest = true.
Proof.
  destruct rest as [|c rest]; [done|]. simpl. intros Hc.
  repeat case_bool_decide; subst; done.
Qed.

Lemma value_depth_elem v vs :
  v ∈ vs -> value_depth v <= foldr (fun v n => Nat.max (value_depth v) n) 0 vs.
Proof. induction 1; simpl; lia. Qed.

Lemma value_depth_member (m : string * value) ms :
  m ∈ ms ->
  value_depth m.2 <= foldr (fun (m : string * value) n => Nat.max (value_depth m.2) n) 0 ms.
Proof. induction 1; simpl; lia. Qed.

Lemma json_print_array vs rest :
  json_print (JArray vs) +:+ rest
  = String "[" (print_sep (map json_print vs) +:+ String "]" rest).
Proof. simpl. by rewrite app_cons, app_assoc', app_cons, app_nil_l. Qed.

Lemma json_print_object ms rest :
  json_print (JObject ms) +:+ rest
  = String "{" (print_sep (map print_member ms) +:+ String "}" rest).
Proof. simpl. by rewrite app_cons, app_assoc', app_cons, app_nil_l. Qed.

Lemma print_sep_starts {A} (f : A -> string) x xs rest :
  starts_value (f x +:+ String "," (print_sep (map f xs) +:+ rest)) ->
  starts_value (f x +:+ rest) ->
  starts_value (print_sep (map f (x :: xs)) +:+ rest).
Proof.
  intros H1 H2. destruct xs as [|x' xs]; [done|].
  cbn [map]. rewrite print_sep_cons. by rewrite app_assoc', app_cons.
Qed.

(** An array reads back when its elements do. *)
Lemma array_reads vs : Forall reads_value vs -> reads_value (JArray vs).
Proof.
  intros IH [|n] d rest Hwf Hr Hd Hn; [simpl in Hn; lia|].
  rewrite json_print_array in *. rewrite parse_value_array.
  rewrite (proj2 (Nat.leb_gt _ _)) by (simpl in Hd; lia).
  destruct vs as [|v vs]; [done|].
  simpl in Hwf. apply andb_true_iff in Hwf as [Hv Hvs].
  cbn [String.length] in Hn. apply Nat.succ_lt_mono in Hn.
  assert (Hs : starts_value (print_sep (map json_print (v :: vs)) +:+ String "]" rest)).
  { apply print_sep_starts; by apply json_print_starts. }
  rewrite (starts_value_skip_ws _ Hs).
  destruct Hs as (c & t & Hs & _ & Hc & _). rewrite Hs, expect_ne by done.
  rewrite <- Hs. rewrite parse_elems_print; [done|done| |done].
  apply Forall_forall. intros x Hx rest' Hr' Hl.
  rewrite Forall_forall in IH. apply IH; [done| |done| |lia].
  - apply elem_of_cons in Hx as [->|Hx]; [done|].
    rewrite forallb_forall in Hvs. apply Hvs. by apply list_elem_of_In.
  - apply value_depth_elem in Hx. cbn [value_depth foldr] in Hd, Hx. lia.
Qed.

(** An object reads back when the values of its members do. *)
Lemma object_reads ms :
  Forall (fun m : string * value => reads_value m.2) ms -> reads_value (JObject ms).
Proof.
  intros IH [|n] d rest Hwf Hr Hd Hn; [simpl in Hn; lia|].
  rewrite json_print_object in *. rewrite parse_value_object.
  rewrite (proj2 (Nat.leb_gt _ _)) by (simpl in Hd; lia).
  destruct ms as [|[k v] ms]; [done|].
  simpl in Hwf. apply andb_true_iff in Hwf as [[Hk Hv]%andb_true_iff Hms].
  cbn [String.length] in Hn. apply Nat.succ_lt_mono in Hn.
  assert (Hs : starts_value (print_sep (map print_member ((k, v) :: ms)) +:+ String "}" rest)).
  { apply print_sep_starts; rewrite print_member_app; by eexists _, _. }
  rewrite (starts_value_skip_ws _ Hs).
  destruct Hs as (c & t & Hs & _ & _ & Hc & _). rewrite Hs, expect_ne by done.
  rewrite <- Hs. rewrite parse_members_print; [done|done| |done].
  apply Forall_forall. intros x Hx.
  assert (Hwx : valid_raw x.1 = true /\ wf_value x.2 = true).
  { apply elem_of_cons in Hx as [->|Hx]; [done|].
    rewrite forallb_forall in Hms. apply andb_true_iff, Hms. by apply list_elem_of_In. }
  split; [apply Hwx|]. intros rest' Hr' Hl.
  rewrite Forall_forall in IH. apply IH; [done|apply Hwx|done| |lia].
  apply value_depth_member in Hx. cbn [value_depth foldr] in Hd, Hx. lia.
Qed.

(** The parser reads back what the printer writes. *)
Lemma parse_value_print v : reads_value v.
Proof.
  induction v as [|b|x|raw|vs IH|ms IH] using value_ind';
    [| | | |by apply array_reads|by apply object_reads];
    intros [|n] d rest Hwf Hr Hd Hn; try (simpl in Hn; lia).
  - simpl. unfold read_keyword. by rewrite (strip_prefix_app "ull").
  - destruct b; simpl; unfold read_keyword;
      [by rewrite (strip_prefix_app "rue")|by rewrite (strip_prefix_app "alse")].
  - destruct (print_number_head x rest Hwf) as (c & t & Ht & Hc).
    simpl json_print. rewrite Ht, parse_value_number by done. rewrite <- Ht.
    by rewrite read_number_print by (done || by apply ends_value_ends_number).
  - simpl json_print. unfold print_string. rewrite app_cons, app_assoc', app_cons.
    rewrite app_nil_l, parse_value_string. by rewrite read_raw_valid.
Qed.

(** [json.Unmarshal] of what [json.Marshal] wrote is the value, whatever
    white space follows it. *)
Theorem json_parse_print v :
  wf_value v = true -> value_depth v <= max_depth ->
  json_parse (json_print v) = Some v.
Proof.
  intros Hwf Hd. unfold json_parse.
  rewrite <- (app_nil_r (json_print v)) at 2.
  rewrite parse_value_print; [done|done|done|lia|rewrite app_nil_r; lia].
Qed.

(** Printing is injective on well-formed values. *)
Corollary json_print_inj v w :
  wf_value v = true -> wf_value w = true ->
  value_depth v <= max_depth -> value_depth w <= max_depth ->
  json_print v = json_print w -> v = w.
Proof.
  intros Hv Hw Dv Dw E. apply (f_equal json_parse) in E.
  rewrite !json_parse_print in E by done. by injection E.
Qed.
