(* ===== verification/JsonWf.v ===== *)
(** * JsonWf: what the scanner returns

    The values [json_parse] returns are the well-formed ones: numbers whose
    integer part has no leading zero and whose exponent has a digit, strings
    the scanner accepts, containers nested no deeper than [max_depth]
    ([parse_value_scanned], [json_parse_scanned]).  They are the values
    whose compact text reads back ([json_parse_print] of JsonPrint), so
    printing after scanning is a normal form ([json_parse_print_parse]):
    this is what lets a [json.RawMessage] be kept as the value of its
    bytes. *)

From Stdlib Require Import ZArith Lia Ascii String Decimal.
From stdpp Require Import base tactics option list strings.
From S2P Require Import Prelude Json JsonString JsonParse JsonPrint.

(** A value as the scanner yields it below [d] containers: it prints to a
    text that reads back, and it nests no deeper than the scanner allows. *)
Definition scanned (d : nat) (v : value) : Prop :=
  wf_value v = true /\ value_depth v + d <= max_depth.

(** * Laws *)

Lemma digit_of_nonzero c d u :
  digit_of c = Some d -> c <> "0"%char -> nonzero_head (d u) = true.
Proof. destruct c as [[] [] [] [] [] [] [] []]; vm_compute; by intros [= <-]. Qed.

Lemma read_digits1_head c s u r :
  read_digits1 (String c s) = Some (u, r) -> c <> "0"%char -> nonzero_head u = true.
Proof.
  intros [Hd Hu]%read_digits1_Some Hc. cbn [read_digits] in Hd.
  destruct (digit_of c) as [d|] eqn:Hdc; [|by simplify_eq].
  destruct (read_digits s) as [u' r']. simplify_eq. by eapply digit_of_nonzero.
Qed.

Lemma read_digits1_nonempty s u r : read_digits1 s = Some (u, r) -> nonempty u = true.
Proof. intros [_ Hu]%read_digits1_Some. by destruct u. Qed.

Lemma read_int_part_wf s u r : read_int_part s = Some (u, r) -> wf_int_part u = true.
Proof.
  unfold read_int_part. destruct s as [|c s]; [done|]. cbn [expect].
  case_bool_decide as Hc; [by intros [= <- <-]|].
  intros Hd%read_digits1_head; [|done]. by destruct u as [|[]| | | | | | | | |].
Qed.

Lemma read_exp_wf s e r :
  read_exp s = Some (Some e, r) -> nonempty (int_digits e) = true.
Proof.
  unfold read_exp. destruct (expect_either _ _ s) as [s'|]; [|done].
  repeat case_match; intros Hd;
    (destruct (read_digits1 _) as [[u r']|] eqn:Hu; [|done]);
    simplify_eq/=; by eapply read_digits1_nonempty.
Qed.

Lemma read_number_wf s x r : read_number s = Some (x, r) -> wf_number x = true.
Proof.
  unfold read_number.
  destruct (match expect "-" s with Some s' => _ | None => _ end) as [sign s0] eqn:Hs.
  assert (Hsign : forall u, int_digits (sign u) = u).
  { by destruct (expect "-" s); simplify_eq. }
  destruct (read_int_part s0) as [[i s1]|] eqn:Hi; [|done]. cbn [mbind option_bind].
  destruct (read_frac s1) as [[f s2]|]; [|done]. cbn [mbind option_bind].
  destruct (read_exp s2) as [[[e|] s3]|] eqn:He; [| |done]; intros [= <- <-];
    cbn [wf_number]; rewrite Hsign, (read_int_part_wf _ _ _ Hi); [|done].
  by rewrite (read_exp_wf _ _ _ He).
Qed.

Lemma read_raw_wf s raw r : read_raw s = Some (raw, r) -> valid_raw raw = true.
Proof.
  unfold read_raw. destruct (read_string s) as [[raw' r']|]; [simpl|done].
  destruct (valid_raw raw') eqn:Hv; [|done]. by intros [= <- <-].
Qed.

Section containers_scanned.
Variable pv : string -> option (value * string).
Variable d : nat.
Hypothesis pv_scanned : forall s v r, pv s = Some (v, r) -> scanned d v.

Lemma parse_elems_scanned n : forall s vs r,
  parse_elems pv n s = Some (vs, r) -> Forall (scanned d) vs.
Proof.
  induction n as [|n IH]; intros s vs r; simpl; [done|].
  destruct (pv s) as [[v r0]|] eqn:Hv; [simpl|done]. apply pv_scanned in Hv.
  destruct (skip_ws r0) as [|c r1]; [done|].
  repeat case_bool_decide; try done.
  - destruct (parse_elems pv n r1) as [[vs' r2]|] eqn:Hr; [|done].
    intros [= <- <-]. apply List.Forall_cons; eauto.
  - intros [= <- <-]. by apply List.Forall_cons; [|apply List.Forall_nil].
Qed.

Lemma parse_members_scanned n : forall s ms r,
  parse_members pv n s = Some (ms, r) ->
  Forall (fun m : string * value => valid_raw m.1 = true /\ scanned d m.2) ms.
Proof.
  induction n as [|n IH]; intros s ms r; simpl; [done|].
  destruct (skip_ws s) as [|q s1]; [done|]. case_bool_decide; [|done].
  destruct (read_raw s1) as [[k r1]|] eqn:Hk; [simpl|done]. apply read_raw_wf in Hk.
  destruct (expect ":" (skip_ws r1)) as [r2|]; [simpl|done].
  destruct (pv r2) as [[v r3]|] eqn:Hv; [simpl|done]. apply pv_scanned in Hv.
  destruct (skip_ws r3) as [|c r4]; [done|].
  repeat case_bool_decide; try done.
  - destruct (parse_members pv n r4) as [[ms' r5]|] eqn:Hr; [|done].
    intros [= <- <-]. apply List.Forall_cons; eauto.
  - intros [= <- <-]. by apply List.Forall_cons; [|apply List.Forall_nil].
Qed.
End containers_scanned.


Lemma scanned_array d vs :
  d < max_depth -> Forall (scanned (S d)) vs -> scanned d (JArray vs).
Proof.
  intros Hd Hvs. unfold scanned. cbn [wf_value value_depth].
  induction Hvs as [|v vs [Hv Hdv] _ [IHw IHd]]; cbn [forallb foldr]; [split; [done|lia]|].
  rewrite Hv, IHw. split; [done|]. lia.
Qed.

Lemma scanned_object d ms :
  d < max_depth ->
  Forall (fun m : string * value => valid_raw m.1 = true /\ scanned (S d) m.2) ms ->
  scanned d (JObject ms).
Proof.
  intros Hd Hms. unfold scanned. cbn [wf_value value_depth].
  induction Hms as [|m ms (Hk & Hv & Hdv) _ [IHw IHd]]; cbn [forallb foldr];
    [split; [done|lia]|].
  rewrite Hk, Hv, IHw. split; [done|]. lia.
Qed.

Lemma scanned_scalar d v :
  d <= max_depth -> wf_value v = true -> value_depth v = 0 -> scanned d v.
Proof. intros Hd Hv Hz. split; [done|]. rewrite Hz. lia. Qed.

(** What the scanner returns is well formed and no deeper than it
    allows. *)
Lemma parse_value_scanned n : forall d s v r,
  d <= max_depth -> parse_value n d s = Some (v, r) -> scanned d v.
Proof.
  induction n as [|n IH]; intros d s v r Hd; cbn [parse_value]; [done|].
  destruct (skip_ws s) as [|c s1]; [done|].
  assert (Hin : (max_depth <=? d) = false -> forall t v' r',
            parse_value n (S d) t = Some (v', r') -> scanned (S d) v').
  { intros Hlt%Nat.leb_gt t v' r'. apply IH. lia. }
  repeat case_bool_decide.
  - destruct (max_depth <=? d) eqn:Hlt; [done|]. specialize (Hin eq_refl).
    apply Nat.leb_gt in Hlt.
    destruct (expect "}" (skip_ws s1)); [intros [= <- <-]; by apply scanned_object|].
    destruct (parse_members _ n s1) as [[ms r']|] eqn:Hm; [|done]. intros [= <- <-].
    eapply scanned_object, parse_members_scanned; done.
  - destruct (max_depth <=? d) eqn:Hlt; [done|]. specialize (Hin eq_refl).
    apply Nat.leb_gt in Hlt.
    destruct (expect "]" (skip_ws s1)); [intros [= <- <-]; by apply scanned_array|].
    destruct (parse_elems _ n s1) as [[vs r']|] eqn:Hm; [|done]. intros [= <- <-].
    eapply scanned_array, parse_elems_scanned; done.
  - destruct (read_raw s1) as [[raw r']|] eqn:Hr; [|done]. intros [= <- <-].
    apply scanned_scalar; [done|by eapply read_raw_wf|done].
  - unfold read_keyword. destruct (strip_prefix _ s1); [|done].
    intros [= <- <-]. by apply scanned_scalar.
  - unfold read_keyword. destruct (strip_prefix _ s1); [|done].
    intros [= <- <-]. by apply scanned_scalar.
  - unfold read_keyword. destruct (strip_prefix _ s1); [|done].
    intros [= <- <-]. by apply scanned_scalar.
  - destruct (read_number _) as [[x r']|] eqn:Hr; [|done]. intros [= <- <-].
    apply scanned_scalar; [done|by eapply read_number_wf|done].
Qed.

(** A text that [json.Unmarshal] accepts holds a well-formed value. *)
Lemma json_parse_scanned s v : json_parse s = Some v -> scanned 0 v.
Proof.
  unfold json_parse.
  destruct (parse_value _ 0 s) as [[v' r]|] eqn:Hp; [simpl|done].
  destruct (skip_ws r); [|done]. intros [= <-].
  eapply parse_value_scanned; [|done]. lia.
Qed.

(** The compact text of a value the scanner returned reads back as that
    value: printing after scanning is a normal form. *)
Lemma json_parse_print_parse s v :
  json_parse s = Some v -> json_parse (json_print v) = Some v.
Proof.
  intros [Hw Hd]%json_parse_scanned. apply json_parse_print; [done|lia].
Qed.
