(* ===== verification/Codec.v ===== *)
(** * Codec: what [encoding/json] does with a Go type

    [json.Unmarshal] checks the text, then stores the value it denotes into
    the target, which already holds a Go value: a [null] leaves a string, a
    number, a boolean or a struct as it was and clears a pointer, a slice or
    a map; any other value of the wrong kind is an [UnmarshalTypeError].  So
    a decoder is a function of the value and of the target's content
    ([decode]), and [json.Unmarshal] into [var x T] is [decode] on the zero
    value.

    The decoder of Go goes on after a type error and reports the first one
    at the end; [decode] stops at the first one.  The client only tests the
    error against [nil] and wraps it, so it cannot tell the difference.

    [json.Marshal] is [encode] followed by [json_print].  [Decode] is the
    stream decoder [json.Decoder.Decode] on a stream that holds the
    text: it reads one value and leaves what follows it.

    The keys of an object are matched to the fields of a struct exactly
    or, failing that, without regard to case; the last section shows that
    a struct whose field names stay apart after folding is decoded the same
    from objects whose keys differ by their case only. *)

From Stdlib Require Import ZArith Lia Ascii String Decimal DecimalZ.
From stdpp Require Import base tactics option list strings gmap sorting.
From S2P Require Import Prelude Json JsonString JsonParse JsonPrint.

(** * Errors of the package *)

Inductive json_error : Type :=
| SyntaxError
      (* *json.SyntaxError: the text is not JSON, or is empty *)
| UnmarshalTypeError (k : kind) (ty : string)
      (* *json.UnmarshalTypeError: a value of kind [k] for the Go type [ty] *)
| UnmarshalerError (msg : string)
      (* the error of a type's own UnmarshalJSON *)
| UnsupportedTypeError (ty : string).
      (* *json.UnsupportedTypeError: a channel, a function, a complex number *)

#[export] Instance json_error_eq_dec : EqDecision json_error.
Proof. solve_decision. Defined.

(** * The two interfaces *)

Class Unmarshaler (A : Type) : Type := {
  zero : A;
  decode : value -> A -> result json_error A
}.
Arguments zero A {_}.

Class Marshaler (A : Type) : Type := {
  encode : A -> result json_error value;
  is_empty_value : A -> bool
}.

(** [json.Unmarshal(data, &target)]. *)
Definition Unmarshal {A} `{Unmarshaler A} (data : string) (target : A)
  : result json_error A :=
  match json_parse data with
  | None => Err SyntaxError
  | Some v => decode v target
  end.

(** [json.NewDecoder(r).Decode(&target)] on a stream that holds [data]:
    the first value of the stream is read to its end and decoded, and what
    follows it stays in the stream.  A stream that ends before the value
    does is an error ([io.EOF] or [io.ErrUnexpectedEOF] in Go, the
    [SyntaxError] here). *)
Definition Decode {A} `{Unmarshaler A} (data : string) (target : A)
  : result json_error A :=
  match parse_value (S (String.length data)) 0 data with
  | None => Err SyntaxError
  | Some (v, _) => decode v target
  end.

(** [json.Marshal(x)]. *)
Definition Marshal {A} `{Marshaler A} (x : A) : result json_error string :=
  v ← encode x; Ok (json_print v).

(** * Go's nilable containers *)

Inductive slice (A : Type) : Type :=
| SliceNil
| Slice (elems : list A).
Arguments SliceNil {A}.
Arguments Slice {A} elems.

Definition elems {A} (s : slice A) : list A :=
  match s with SliceNil => [] | Slice l => l end.

Definition len {A} (s : slice A) : nat := length (elems s).

Inductive gomap (V : Type) : Type :=
| MapNil
| Map (m : gmap string V).
Arguments MapNil {V}.
Arguments Map {V} m.

Definition entries {V} (m : gomap V) : gmap string V :=
  match m with MapNil => ∅ | Map g => g end.

(** [json.RawMessage]: the bytes of one value, kept for a later
    [json.Unmarshal]; [RawNil] is the nil slice of a member that was absent.
    The bytes are represented by the value they denote. *)
Inductive RawMessage : Type :=
| RawNil
| Raw (v : value).

(** [json.Unmarshal(raw, &target)] for the bytes of a [json.RawMessage]:
    the empty text is no JSON. *)
Definition Unmarshal_raw {A} `{Unmarshaler A} (raw : RawMessage) (target : A)
  : result json_error A :=
  match raw with
  | RawNil => Err SyntaxError
  | Raw v => decode v target
  end.

(** * Scalars *)

Definition type_error {A} (v : value) (ty : string) : result json_error A :=
  Err (UnmarshalTypeError (kind_of v) ty).

Definition decode_string (v : value) (old : string) : result json_error string :=
  match v with
  | JNull => Ok old
  | JString raw => of_option SyntaxError (unquote raw)
  | _ => type_error v "string"
  end.

Definition decode_int (v : value) (old : Z) : result json_error Z :=
  match v with
  | JNull => Ok old
  | JNumber d => of_option (UnmarshalTypeError KNumber "int") (int_of_decimal d)
  | _ => type_error v "int"
  end.

Definition decode_float64 (v : value) (old : float64) : result json_error float64 :=
  match v with
  | JNull => Ok old
  | JNumber d => of_option (UnmarshalTypeError KNumber "float64") (float64_of_decimal d)
  | _ => type_error v "float64"
  end.

Definition decode_bool (v : value) (old : bool) : result json_error bool :=
  match v with
  | JNull => Ok old
  | JBool b => Ok b
  | _ => type_error v "bool"
  end.

#[export] Instance string_Unmarshaler : Unmarshaler string :=
  {| zero := EmptyString; decode := decode_string |}.
#[export] Instance int_Unmarshaler : Unmarshaler Z :=
  {| zero := 0%Z; decode := decode_int |}.
#[export] Instance float64_Unmarshaler : Unmarshaler float64 :=
  {| zero := float64_zero; decode := decode_float64 |}.
#[export] Instance bool_Unmarshaler : Unmarshaler bool :=
  {| zero := false; decode := decode_bool |}.

#[export] Instance RawMessage_Unmarshaler : Unmarshaler RawMessage :=
  {| zero := RawNil; decode v _ := Ok (Raw v) |}.

#[export] Instance RawMessage_Marshaler : Marshaler RawMessage :=
  {| encode r := Ok (match r with RawNil => JNull | Raw v => v end);
     is_empty_value r := match r with RawNil => true | Raw _ => false end |}.
#[export] Instance string_Marshaler : Marshaler string :=
  {| encode s := Ok (JString (quote s));
     is_empty_value s := bool_decide (s = EmptyString) |}.
#[export] Instance int_Marshaler : Marshaler Z :=
  {| encode z := Ok (JNumber (Decimal (Z.to_int z) Nil));
     is_empty_value z := bool_decide (z = 0%Z) |}.
#[export] Instance bool_Marshaler : Marshaler bool :=
  {| encode b := Ok (JBool b); is_empty_value b := negb b |}.

(** * Pointers, slices and maps *)

Section containers.
Context {A : Type} `{Unmarshaler A}.

(** A [null] makes the pointer nil; another value fills what it points to,
    allocated first when the pointer is nil. *)
Definition decode_ptr (v : value) (old : option A) : result json_error (option A) :=
  match v with
  | JNull => Ok None
  | _ => Some <$> decode v (default (zero A) old)
  end.

(** Element [i] is decoded into what the slice held at [i], and into a zero
    value past its length. *)
Fixpoint decode_elems (vs : list value) (old : list A) : result json_error (list A) :=
  match vs with
  | [] => Ok []
  | v :: vs' =>
      x ← decode v (default (zero A) (head old));
      xs ← decode_elems vs' (tail old);
      Ok (x :: xs)
  end.

Definition decode_slice (ty : string) (v : value) (old : slice A)
  : result json_error (slice A) :=
  match v with
  | JNull => Ok SliceNil
  | JArray vs => Slice <$> decode_elems vs (elems old)
  | _ => type_error v ty
  end.

(** A member is decoded into a zero value and stored under its key; the
    entries the map already had stay. *)
Fixpoint decode_entries (ms : list (string * value)) (m : gmap string A)
  : result json_error (gmap string A) :=
  match ms with
  | [] => Ok m
  | (k, v) :: ms' =>
      key ← of_option SyntaxError (unquote k);
      x ← decode v (zero A);
      decode_entries ms' (<[key := x]> m)
  end.

Definition decode_map (ty : string) (v : value) (old : gomap A)
  : result json_error (gomap A) :=
  match v with
  | JNull => Ok MapNil
  | JObject ms => Map <$> decode_entries ms (entries old)
  | _ => type_error v ty
  end.
End containers.

#[export] Instance ptr_Unmarshaler {A} `{Unmarshaler A} : Unmarshaler (option A) :=
  {| zero := None; decode := decode_ptr |}.
#[export] Instance slice_Unmarshaler {A} `{Unmarshaler A} : Unmarshaler (slice A) :=
  {| zero := SliceNil; decode := decode_slice "slice" |}.
#[export] Instance map_Unmarshaler {A} `{Unmarshaler A} : Unmarshaler (gomap A) :=
  {| zero := MapNil; decode := decode_map "map" |}.

Section container_encoders.
Context {A : Type} `{Marshaler A}.

Definition encode_ptr (p : option A) : result json_error value :=
  match p with
  | None => Ok JNull
  | Some x => encode x
  end.

Definition encode_slice (s : slice A) : result json_error value :=
  match s with
  | SliceNil => Ok JNull
  | Slice l => JArray <$> mapM encode l
  end.

(** The keys of a map are written in increasing order of their bytes. *)
Definition sorted_entries (m : gmap string A) : list (string * A) :=
  merge_sort (fun x y => String.le x.1 y.1) (map_to_list m).

Definition encode_map (m : gomap A) : result json_error value :=
  match m with
  | MapNil => Ok JNull
  | Map g =>
      JObject <$> mapM (fun kv => v ← encode kv.2; Ok (quote kv.1, v))
                       (sorted_entries g)
  end.
End container_encoders.

Definition is_nil {A} (p : option A) : bool :=
  match p with None => true | Some _ => false end.

#[export] Instance ptr_Marshaler {A} `{Marshaler A} : Marshaler (option A) :=
  {| encode := encode_ptr; is_empty_value := is_nil |}.
#[export] Instance slice_Marshaler {A} `{Marshaler A} : Marshaler (slice A) :=
  {| encode := encode_slice; is_empty_value s := bool_decide (len s = 0) |}.
#[export] Instance map_Marshaler {A} `{Marshaler A} : Marshaler (gomap A) :=
  {| encode := encode_map; is_empty_value m := bool_decide (size (entries m) = 0) |}.

(** * Structs

    A struct type is described by its fields in the order of the source:
    the name its tag gives, and what storing a value into it does to the
    struct.  A member of the object fills the field whose name is its key,
    or else the first field whose name equals the key after folding; a
    member that matches no field is skipped. *)

Record field (S : Type) : Type := Field {
  field_name : string;
  field_set : value -> S -> result json_error S
}.
Arguments Field {S} _ _.
Arguments field_name {S} _.
Arguments field_set {S} _ _ _.

(** The setter of a field of type [A] read by [get] and written by [set]. *)
Definition setter {S A} `{Unmarshaler A} (get : S -> A) (set : A -> S -> S)
  : value -> S -> result json_error S :=
  fun v s => x ← decode v (get s); Ok (set x s).

Definition find_field {S} (fs : list (field S)) (key : string) : option (field S) :=
  match List.find (fun f => bool_decide (field_name f = key)) fs with
  | Some f => Some f
  | None => List.find (fun f => name_matches (field_name f) key) fs
  end.

Fixpoint decode_members {S} (fs : list (field S)) (ms : list (string * value)) (s : S)
  : result json_error S :=
  match ms with
  | [] => Ok s
  | (k, v) :: ms' =>
      key ← of_option SyntaxError (unquote k);
      match find_field fs key with
      | None => decode_members fs ms' s
      | Some f => s' ← field_set f v s; decode_members fs ms' s'
      end
  end.

Definition decode_struct {S} (ty : string) (fs : list (field S)) (v : value) (s : S)
  : result json_error S :=
  match v with
  | JNull => Ok s
  | JObject ms => decode_members fs ms s
  | _ => type_error v ty
  end.

(** A field on the way out: its name, whether the tag says [omitempty], and
    the encoding of its content. *)
Record out_field (S : Type) : Type := OutField {
  out_name : string;
  out_omitempty : bool;
  out_empty : S -> bool;
  out_value : S -> result json_error value
}.
Arguments OutField {S} _ _ _ _.
Arguments out_name {S} _.
Arguments out_omitempty {S} _.
Arguments out_empty {S} _ _.
Arguments out_value {S} _ _.

Definition getter {S A} `{Marshaler A} (name : string) (omitempty : bool)
    (get : S -> A) : out_field S :=
  OutField name omitempty (fun s => is_empty_value (get s)) (fun s => encode (get s)).

Definition encode_field {S} (s : S) (f : out_field S)
  : result json_error (option (string * value)) :=
  if out_omitempty f && out_empty f s then Ok None
  else v ← out_value f s; Ok (Some (quote (out_name f), v)).

Definition encode_struct {S} (fs : list (out_field S)) (s : S)
  : result json_error value :=
  ms ← mapM (encode_field s) fs; Ok (JObject (omap id ms)).

(** * Keys that differ by their case *)

(** Two keys that name the same field: the literals of two strings that
    are equal after folding. *)
Definition same_key (k k' : string) : Prop :=
  exists key key', unquote k = Some key /\ unquote k' = Some key' /\
                   fold_name key = fold_name key'.

(** The same members under keys that name the same fields. *)
Definition same_members (ms ms' : list (string * value)) : Prop :=
  Forall2 (fun m m' : string * value => same_key m.1 m'.1 /\ m.2 = m'.2) ms ms'.

(** No two fields have names that are equal after folding. *)
Definition folds_apart {S} (fs : list (field S)) : Prop :=
  NoDup ((fun f => fold_name (field_name f)) <$> fs).

(** * Encoders that never fail *)

(** A type whose encoder never fails. *)
Class Total (A : Type) `{Marshaler A} : Prop :=
  encode_total : forall x : A, is_ok (encode x) = true.
Arguments Total A {_}.

(** * Laws *)

Lemma mapM_total {A B} (f : A -> result json_error B) (l : list A) :
  (forall x, is_ok (f x) = true) -> is_ok (mapM f l) = true.
Proof.
  intros Hf. induction l as [|x l IH]; [done|]. simpl.
  specialize (Hf x). destruct (f x); [simpl|done]. by destruct (mapM f l).
Qed.

#[export] Instance string_Total : Total string.
Proof. done. Qed.
#[export] Instance int_Total : Total Z.
Proof. done. Qed.
#[export] Instance bool_Total : Total bool.
Proof. done. Qed.
#[export] Instance RawMessage_Total : Total RawMessage.
Proof. done. Qed.

Section container_totality.
Context {A : Type} `{Total A}.

#[export] Instance ptr_Total : Total (option A).
Proof. intros [x|]; [apply (encode_total (A:=A))|done]. Qed.

#[export] Instance slice_Total : Total (slice A).
Proof.
  intros [|l]; [done|]. simpl.
  pose proof (mapM_total encode l (encode_total (A:=A))). by destruct (mapM encode l).
Qed.

#[export] Instance map_Total : Total (gomap A).
Proof.
  intros [|g]; [done|]. simpl.
  match goal with |- context [mapM ?f ?l] =>
    assert (Hm : is_ok (mapM f l) = true); [|by destruct (mapM f l)] end.
  apply mapM_total. intros [k x]. simpl.
  pose proof (encode_total (A:=A) x). by destruct (encode x).
Qed.
End container_totality.

(** A struct whose fields never fail to encode never fails to encode. *)
Lemma encode_struct_total {S} (fs : list (out_field S)) :
  Forall (fun f => forall s, is_ok (out_value f s) = true) fs ->
  forall s, is_ok (encode_struct fs s) = true.
Proof.
  intros Hfs s. unfold encode_struct.
  assert (Hm : is_ok (mapM (encode_field s) fs) = true); [|by destruct (mapM _ fs)].
  induction Hfs as [|f fs Hf _ IH]; [done|]. simpl.
  assert (Hf' : is_ok (encode_field s f) = true).
  { unfold encode_field. destruct (_ && _); [done|].
    specialize (Hf s). by destruct (out_value f s). }
  destruct (encode_field s f); [simpl|done]. by destruct (mapM _ fs).
Qed.

Lemma getter_total {S A} `{Total A} name omit (get : S -> A) s :
  is_ok (out_value (getter name omit get) s) = true.
Proof. apply encode_total. Qed.

Lemma Marshal_total {A} `{Total A} (x : A) : is_ok (Marshal x) = true.
Proof. unfold Marshal. pose proof (encode_total x). by destruct (encode x). Qed.

(** What [json.Unmarshal] reads from a text, the decoder of a stream that
    holds the text reads too. *)
Lemma Decode_Unmarshal {A} `{Unmarshaler A} (data : string) (target x : A) :
  Unmarshal data target = Ok x -> Decode data target = Ok x.
Proof.
  unfold Unmarshal, Decode, json_parse.
  destruct (parse_value _ 0 data) as [[v r]|]; [simpl|done]. by destruct (skip_ws r).
Qed.

(** [json.Unmarshal] of a printed value decodes the value. *)
Lemma Unmarshal_json_print {A} `{Unmarshaler A} (v : value) (target : A) :
  wf_value v = true -> value_depth v <= max_depth ->
  Unmarshal (json_print v) target = decode v target.
Proof. intros Hv Hd. unfold Unmarshal. by rewrite json_parse_print. Qed.

(** * The decoder does not depend on the fuel of the scanner *)

(** C40. [json.Unmarshal] always returns, and what it returns is no artefact
    of the bound on the recursion of the scanner: with any fuel above the
    length of the text, the scanner reads the same value and leaves the same
    rest, so the result is the one [Unmarshal] computes with the fuel it
    takes. *)
Theorem Unmarshal_fuel {A} `{Unmarshaler A} (n : nat) (data : string) (target : A) :
  String.length data < n ->
  Unmarshal data target =
    match parse_value n 0 data with
    | Some (v, r) =>
        match skip_ws r with
        | EmptyString => decode v target
        | String _ _ => Err SyntaxError
        end
    | None => Err SyntaxError
    end.
Proof.
  intros Hn. unfold Unmarshal, json_parse.
  rewrite (parse_value_fuel (S (String.length data)) n) by lia.
  destruct (parse_value n 0 data) as [[v r]|]; [simpl|done]. by destruct (skip_ws r).
Qed.

Lemma Unmarshal_fuel_witness :
  Unmarshal "[1, [2, 3]] " RawNil
  = match parse_value 100 0 "[1, [2, 3]] " with
    | Some (v, r) =>
        match skip_ws r with
        | EmptyString => decode v RawNil
        | String _ _ => Err SyntaxError
        end
    | None => Err SyntaxError
    end.
Proof. apply (Unmarshal_fuel 100). simpl. lia. Defined.

(** * Integers stay within 64 bits *)

(** An integer that [json.Unmarshal] stores is within 64 bits, and [null]
    leaves the target as it was. *)
Lemma Unmarshal_int_range (text : string) (old z : Z) :
  int_range old -> Unmarshal text old = Ok z -> int_range z.
Proof.
  intros Hold. unfold Unmarshal. destruct (json_parse text) as [v|]; [|done].
  destruct v; try done; cbn [decode int_Unmarshaler decode_int].
  - by intros [= <-].
  - intros Hz. inv_bind. eauto with postal.
Qed.

(** * The decoder of a struct folds the keys *)

Section fold.
Context {S : Type} (fs : list (field S)).
Hypothesis apart : folds_apart fs.

(** With names apart after folding, a key finds the field whose name it
    matches after folding, whether or not it is the name itself. *)
Lemma find_field_folded key :
  find_field fs key = List.find (fun f => name_matches (field_name f) key) fs.
Proof.
  unfold find_field. destruct (List.find (fun f => bool_decide _) fs) as [f|] eqn:Hf; [|done].
  apply find_some in Hf as [Hin Hname%bool_decide_eq_true]. subst key. symmetry.
  unfold folds_apart in apart. clear -Hin apart.
  induction fs as [|g fs' IH]; [done|]. cbn [List.find]. unfold name_matches at 1.
  cbn [fmap list_fmap] in apart. apply NoDup_cons in apart as [Hg Hnd].
  case_bool_decide as Hfold.
  - destruct Hin as [->|Hin]; [done|]. destruct Hg. rewrite <- Hfold.
    apply list_elem_of_In in Hin. by apply (list_elem_of_fmap_2 (fun f => fold_name (field_name f))).
  - destruct Hin as [->|Hin]; [done|]. by apply IH.
Qed.

Lemma find_field_fold key key' :
  fold_name key = fold_name key' -> find_field fs key = find_field fs key'.
Proof.
  intros Hk. rewrite !find_field_folded. unfold name_matches. by rewrite Hk.
Qed.

(** Decoding does not depend on the case of the keys. *)
Lemma decode_members_fold ms ms' :
  same_members ms ms' -> forall s, decode_members fs ms s = decode_members fs ms' s.
Proof.
  induction 1 as [|[k v] [k' v'] ms ms' [(key & key' & Hk & Hk' & Hf) Hv] _ IH];
    intros s; cbn [decode_members]; [done|].
  cbn [fst snd] in *. subst v'. rewrite Hk, Hk'. cbn [of_option mbind result_bind].
  rewrite (find_field_fold key key' Hf).
  destruct (find_field fs key') as [f|]; [|done].
  destruct (field_set f v s); [cbn [mbind result_bind]; apply IH|done].
Qed.
End fold.
