(* ===== verification/RoundTrip.v ===== *)
(** * RoundTrip: what is written is what is read

    A type is [Faithful] when the decoder reads back, into a zero value,
    every sound value from what the encoder wrote for it, and the value
    written is one the printer and the scanner agree on.  Strings of valid
    UTF-8, integers of 64 bits, booleans, slices and maps are faithful; a
    struct is, when its fields are ([struct_round_trip]).  The fields of a
    struct are given with their types ([wire]): the tables of [Codec] for
    both directions are made from them ([wire_in], [wire_out]).

    A field marked [omitempty] that holds an empty value is not written and
    is read as the zero value: an empty slice or map that is not nil does
    not survive in such a field, and [struct_sound] says so. *)

From Stdlib Require Import ZArith Lia Ascii String Decimal DecimalFacts DecimalPos DecimalZ.
From stdpp Require Import base tactics option list strings gmap sorting.
From S2P Require Import Prelude Json JsonString JsonParse JsonPrint Codec.

(** What is asked of a value for it to survive the wire, and how deep the
    text of a value of the type nests. *)
Class Wired (A : Type) : Type := {
  sound : A -> Prop;
  depth : nat
}.
Arguments depth A {_}.

(** A type whose sound values come back from the text written for them. *)
Class Faithful (A : Type) `{Marshaler A} `{Unmarshaler A} `{Wired A} : Prop := {
  round_trip : forall (x : A) v, sound x -> encode x = Ok v -> decode v (zero A) = Ok x;
  encode_wf : forall (x : A) v, sound x -> encode x = Ok v -> wf_value v = true;
  encode_depth : forall (x : A) v, encode x = Ok v -> value_depth v <= depth A
}.
Arguments Faithful A {_ _ _}.

#[export] Instance string_Wired : Wired string :=
  {| sound s := valid_utf8 s = true; depth := 0 |}.
#[export] Instance int_Wired : Wired Z :=
  {| sound := int_range; depth := 0 |}.
#[export] Instance bool_Wired : Wired bool :=
  {| sound _ := True; depth := 0 |}.
#[export] Instance slice_Wired {A} `{Wired A} : Wired (slice A) :=
  {| sound s := Forall sound (elems s); depth := S (depth A) |}.
#[export] Instance map_Wired {A} `{Wired A} : Wired (gomap A) :=
  {| sound m := map_Forall (fun k x => valid_utf8 k = true /\ sound x) (entries m);
     depth := S (depth A) |}.

(** * Structs *)

(** A field of a struct with the type of its content: its tag, and how the
    content is read and written. *)
Record wire (S : Type) : Type := Wire {
  wire_type : Type;
  wire_Marshaler : Marshaler wire_type;
  wire_Unmarshaler : Unmarshaler wire_type;
  wire_Wired : Wired wire_type;
  wire_name : string;
  wire_omitempty : bool;
  wire_get : S -> wire_type;
  wire_set : wire_type -> S -> S
}.
Arguments Wire {S wire_type _ _ _} _ _ _ _.
Arguments wire_type {S} _.
Arguments wire_name {S} _.
Arguments wire_omitempty {S} _.
Arguments wire_get {S} _ _.
Arguments wire_set {S} _ _ _.
#[export] Existing Instances wire_Marshaler wire_Unmarshaler wire_Wired.

Section wires.
Context {S : Type}.

Definition wire_in (w : wire S) : field S :=
  Field (wire_name w) (setter (wire_get w) (wire_set w)).

Definition wire_out (w : wire S) : out_field S :=
  getter (wire_name w) (wire_omitempty w) (wire_get w).

(** The field is left out of the text. *)
Definition omitted (s : S) (w : wire S) : bool :=
  wire_omitempty w && is_empty_value (wire_get w s).

(** Every field is sound, and a field left out holds what the zero value
    [z] holds. *)
Definition struct_sound (ws : list (wire S)) (z s : S) : Prop :=
  Forall (fun w => sound (wire_get w s) /\
                   (omitted s w = true -> wire_get w s = wire_get w z)) ws.

Definition struct_depth (ws : list (wire S)) : nat :=
  Datatypes.S (foldr (fun w n => Nat.max (depth (wire_type w)) n) 0 ws).

(** The fields of a struct are independent cells named apart, and the
    struct is no more than its fields. *)
Record lawful (ws : list (wire S)) (z : S) : Prop := {
  names_apart : NoDup (wire_name <$> ws);
  names_valid : Forall (fun w => valid_utf8 (wire_name w) = true) ws;
  fields_faithful : Forall (fun w => Faithful (wire_type w)) ws;
  zero_fields : Forall (fun w => wire_get w z = zero (wire_type w)) ws;
  get_set : forall w x s, w ∈ ws -> wire_get w (wire_set w x s) = x;
  get_set_other : forall w w' x s, w ∈ ws -> w' ∈ ws -> wire_name w <> wire_name w' ->
                  wire_get w (wire_set w' x s) = wire_get w s;
  fields_ext : forall s s', (forall w, w ∈ ws -> wire_get w s = wire_get w s') -> s = s'
}.
End wires.

(** * Laws *)

(** ** Numbers *)

Lemma to_uint_nonzero_head p : nonzero_head (Pos.to_uint p) = true.
Proof.
  pose proof (DecimalPos.Unsigned.to_of (Pos.to_uint p)) as Hn.
  rewrite DecimalPos.Unsigned.of_to in Hn. cbn [N.to_uint] in Hn.
  pose proof (DecimalPos.Unsigned.to_uint_nonzero p) as Hz.
  destruct (Pos.to_uint p) as [|u| | | | | | | | |]; try done.
  exfalso. rewrite unorm_D0 in Hn. unfold unorm in Hn.
  destruct (nzhead u) as [|u0| | | | | | | | |] eqn:Hu; try done.
  by destruct (nzhead_nonzero u u0).
Qed.

Lemma wf_number_to_int z : wf_number (Decimal (Z.to_int z) Nil) = true.
Proof.
  destruct z as [|p|p]; [done|simpl..];
    pose proof (to_uint_nonzero_head p); by destruct (Pos.to_uint p) as [|[]| | | | | | | | |].
Qed.

#[export] Instance int_Faithful : Faithful Z.
Proof.
  split; intros x v.
  - intros Hx [= <-]. cbn [decode int_Unmarshaler decode_int].
    by rewrite int_of_decimal_to_int.
  - intros _ [= <-]. apply wf_number_to_int.
  - by intros [= <-].
Qed.

#[export] Instance bool_Faithful : Faithful bool.
Proof. split; intros x v; by repeat intros [= <-] || intro. Qed.

#[export] Instance string_Faithful : Faithful string.
Proof.
  split; intros x v.
  - intros Hx [= <-]. cbn [decode string_Unmarshaler decode_string].
    by rewrite unquote_quote_valid.
  - intros _ [= <-]. apply valid_raw_quote.
  - by intros [= <-].
Qed.

(** C32. A string survives the wire exactly when it is valid UTF-8: what is
    read back from the text written for another string has U+FFFD where
    the string had a byte of no sequence. *)
Theorem string_survives_iff (s text : string) :
  Marshal s = Ok text -> (Unmarshal text (zero string) = Ok s <-> sound s).
Proof.
  intros (v & [= <-] & [= <-])%bind_Ok_inv.
  change (print_string (quote s)) with (json_print (JString (quote s))).
  rewrite Unmarshal_json_print; [|apply valid_raw_quote|apply Nat.le_0_l].
  cbn [decode string_Unmarshaler decode_string sound string_Wired].
  rewrite <- unquote_quote_iff. by destruct (unquote (quote s)); split; intros [= ->].
Qed.

Lemma string_survives_iff_witness :
  Unmarshal (lit "'café'") (zero string) = Ok "café"%string <-> 
  sound "café"%string.
Proof. by apply string_survives_iff. Defined.

(** ** Slices *)

Section slices.
Context {A : Type} `{Faithful A}.

Lemma mapM_Ok_cons {B} (f : A -> result json_error B) x l ys :
  mapM f (x :: l) = Ok ys <->
  exists y ys', f x = Ok y /\ mapM f l = Ok ys' /\ ys = y :: ys'.
Proof.
  cbn [mapM]. split.
  - intros Hm. inv_bind. eauto.
  - intros (y & ys' & -> & Hl & ->). simpl. by rewrite Hl.
Qed.

Lemma decode_elems_encode l : forall vs,
  Forall sound l -> mapM encode l = Ok vs -> decode_elems vs [] = Ok l.
Proof.
  induction l as [|x l IH]; intros vs Hl Hm; [by injection Hm as <-|].
  apply mapM_Ok_cons in Hm as (v & vs' & Hv & Hm & ->).
  apply Forall_cons in Hl as [Hx Hl]. cbn [decode_elems head tail default].
  by rewrite (round_trip x v), (IH vs').
Qed.

Lemma encode_elems_wf l : forall vs,
  Forall sound l -> mapM encode l = Ok vs -> forallb wf_value vs = true.
Proof.
  induction l as [|x l IH]; intros vs Hl Hm; [by injection Hm as <-|].
  apply mapM_Ok_cons in Hm as (v & vs' & Hv & Hm & ->).
  apply Forall_cons in Hl as [Hx Hl]. cbn [forallb].
  by rewrite (encode_wf x v), (IH vs').
Qed.

Lemma encode_elems_depth l : forall vs,
  mapM encode l = Ok vs ->
  foldr (fun v n => Nat.max (value_depth v) n) 0 vs <= depth A.
Proof.
  induction l as [|x l IH]; intros vs Hm; [injection Hm as <-; simpl; lia|].
  apply mapM_Ok_cons in Hm as (v & vs' & Hv & Hm & ->).
  cbn [foldr]. pose proof (encode_depth x v Hv). pose proof (IH vs' Hm). lia.
Qed.

#[export] Instance slice_Faithful : Faithful (slice A).
Proof.
  split; intros [|l] v; cbn [encode slice_Marshaler encode_slice];
    try (by repeat intros [= <-] || intro).
  - intros Hl (vs & Hm & ->)%fmap_Ok_inv.
    cbn [decode slice_Unmarshaler decode_slice zero elems].
    by rewrite (decode_elems_encode l vs).
  - intros Hl (vs & Hm & ->)%fmap_Ok_inv. by apply (encode_elems_wf l).
  - intros [= <-]. simpl. lia.
  - intros (vs & Hm & ->)%fmap_Ok_inv. cbn [value_depth depth slice_Wired].
    pose proof (encode_elems_depth l vs Hm). lia.
Qed.
End slices.

(** ** Maps *)

Section maps.
Context {A : Type} `{Faithful A}.

Abbreviation enc :=
  (fun kv : string * A => v ← encode kv.2; Ok (quote kv.1, v)).
Abbreviation ins := (fun (m : gmap string A) (kv : string * A) => <[kv.1 := kv.2]> m).
Abbreviation sound_entry := (fun kv : string * A => valid_utf8 kv.1 = true /\ sound kv.2).

Lemma foldl_insert (l : list (string * A)) : forall m,
  foldl ins m l = list_to_map (reverse l) ∪ m.
Proof.
  induction l as [|[k x] l IH]; intros m; [by rewrite reverse_nil, list_to_map_nil, (left_id_L ∅ (∪))|].
  cbn [foldl]. rewrite IH, reverse_cons, list_to_map_app.
  rewrite list_to_map_cons, list_to_map_nil. cbn [fst snd].
  by rewrite <- (assoc_L (∪)), <- insert_union_l, (left_id_L ∅ (∪)).
Qed.

Lemma sorted_entries_map (g : gmap string A) :
  foldl ins ∅ (sorted_entries g) = g.
Proof.
  rewrite foldl_insert, (right_id_L ∅ (∪)).
  rewrite <- (list_to_map_to_list g) at 2. apply list_to_map_proper.
  - unfold sorted_entries. rewrite reverse_Permutation, merge_sort_Permutation.
    apply NoDup_fst_map_to_list.
  - rewrite reverse_Permutation. apply merge_sort_Permutation.
Qed.

Lemma sorted_entries_sound (g : gmap string A) :
  map_Forall (fun k x => valid_utf8 k = true /\ sound x) g ->
  Forall sound_entry (sorted_entries g).
Proof.
  intros Hg. unfold sorted_entries. rewrite merge_sort_Permutation.
  apply map_Forall_to_list in Hg. eapply Forall_impl; [exact Hg|]. by intros [k x].
Qed.

Lemma decode_entries_encode l : forall ms m,
  Forall sound_entry l -> mapM enc l = Ok ms ->
  decode_entries ms m = Ok (foldl ins m l).
Proof.
  induction l as [|[k x] l IH]; intros ms m Hl Hm; [by injection Hm as <-|].
  cbn [mapM] in Hm. inv_bind. apply Forall_cons in Hl as [[Hk Hx] Hl].
  cbn [decode_entries foldl fst snd] in *.
  rewrite unquote_quote_valid by done. cbn [of_option mbind result_bind].
  erewrite round_trip by done. by apply IH.
Qed.

Lemma encode_entries_wf l : forall ms,
  Forall sound_entry l -> mapM enc l = Ok ms ->
  forallb (fun m => valid_raw m.1 && wf_value m.2) ms = true.
Proof.
  induction l as [|[k x] l IH]; intros ms Hl Hm; [by injection Hm as <-|].
  cbn [mapM] in Hm. inv_bind. apply Forall_cons in Hl as [[Hk Hx] Hl].
  cbn [forallb fst snd] in *. rewrite valid_raw_quote. erewrite encode_wf by done.
  by erewrite IH.
Qed.

Lemma encode_entries_depth l : forall ms,
  mapM enc l = Ok ms ->
  foldr (fun (m : string * value) n => Nat.max (value_depth m.2) n) 0 ms <= depth A.
Proof.
  induction l as [|[k x] l IH]; intros ms Hm; [injection Hm as <-; simpl; lia|].
  cbn [mapM] in Hm. inv_bind. cbn [foldr fst snd] in *.
  match goal with Hv : encode x = Ok ?v |- _ => pose proof (encode_depth x v Hv) end.
  match goal with Hl : mapM _ l = Ok ?ms' |- _ => pose proof (IH ms' Hl) end. lia.
Qed.

#[export] Instance map_Faithful : Faithful (gomap A).
Proof.
  split; intros [|g] v; cbn [encode map_Marshaler encode_map];
    try (by repeat intros [= <-] || intro).
  - intros Hg%sorted_entries_sound (ms & Hm & ->)%fmap_Ok_inv.
    cbn [decode map_Unmarshaler decode_map zero entries].
    by rewrite (decode_entries_encode (sorted_entries g) ms ∅), sorted_entries_map.
  - intros Hg%sorted_entries_sound (ms & Hm & ->)%fmap_Ok_inv.
    by apply (encode_entries_wf (sorted_entries g)).
  - intros [= <-]. simpl. lia.
  - intros (ms & Hm & ->)%fmap_Ok_inv. cbn [value_depth depth map_Wired].
    pose proof (encode_entries_depth (sorted_entries g) ms Hm). lia.
Qed.
End maps.

(** ** Structs *)

Section struct_laws.
Context {S : Type} (ws : list (wire S)) (z : S) (L : lawful ws z) (s : S).

Lemma encode_wire (w : wire S) :
  encode_field s (wire_out w)
  = if omitted s w then Ok None
    else v ← encode (wire_get w s); Ok (Some (quote (wire_name w), v)).
Proof. done. Qed.

(** The exact lookup of a name finds the field that bears it. *)
Lemma find_wire (w : wire S) :
  w ∈ ws -> find_field (wire_in <$> ws) (wire_name w) = Some (wire_in w).
Proof.
  intros Hw. unfold find_field.
  assert (Hfind : List.find (fun f => bool_decide (field_name f = wire_name w))
                    (wire_in <$> ws) = Some (wire_in w)); [|by rewrite Hfind].
  pose proof (names_apart ws z L) as Hnd. clear L.
  induction ws as [|w0 ws' IH]; [by apply elem_of_nil in Hw|].
  apply NoDup_cons in Hnd as [Hw0 Hnd]. cbn [fmap list_fmap List.find wire_in field_name].
  case_bool_decide as Hn.
  - apply elem_of_cons in Hw as [->|Hw]; [done|].
    destruct Hw0. rewrite Hn. by apply list_elem_of_fmap_2.
  - apply elem_of_cons in Hw as [->|Hw]; [done|]. by apply IH.
Qed.

(** One member written for a field fills that field and no other. *)
Lemma decode_member (w : wire S) v ms cur :
  w ∈ ws -> sound (wire_get w s) -> encode (wire_get w s) = Ok v ->
  wire_get w cur = wire_get w z ->
  decode_members (wire_in <$> ws) ((quote (wire_name w), v) :: ms) cur
  = decode_members (wire_in <$> ws) ms (wire_set w (wire_get w s) cur).
Proof.
  intros Hw Hs Hv Hcur. cbn [decode_members].
  pose proof (names_valid ws z L) as Hn. rewrite Forall_forall in Hn.
  pose proof (fields_faithful ws z L) as Hf. rewrite Forall_forall in Hf.
  pose proof (zero_fields ws z L) as Hz. rewrite Forall_forall in Hz.
  rewrite unquote_quote_valid by auto. cbn [of_option mbind result_bind].
  rewrite find_wire by done. cbn [wire_in field_set]. unfold setter.
  rewrite Hcur, Hz by done.
  by rewrite (@round_trip _ _ _ _ (Hf w Hw) (wire_get w s) v).
Qed.
(** The members written for the fields [todo] fill them with what [s]
    holds and leave the other fields as they were. *)
Lemma decode_wires todo : forall os cur,
  todo ⊆ ws -> NoDup (wire_name <$> todo) -> struct_sound todo z s ->
  (forall w, w ∈ todo -> wire_get w cur = wire_get w z) ->
  mapM (encode_field s) (wire_out <$> todo) = Ok os ->
  exists final,
    decode_members (wire_in <$> ws) (omap id os) cur = Ok final /\
    (forall w, w ∈ todo -> wire_get w final = wire_get w s) /\
    (forall w, w ∈ ws -> wire_name w ∉ wire_name <$> todo ->
               wire_get w final = wire_get w cur).
Proof.
  induction todo as [|w todo IH]; intros os cur Hin Hnd Hs Hcur Hm.
  { injection Hm as <-. exists cur. split; [done|]. split; [by intros w ?%elem_of_nil|done]. }
  cbn [fmap list_fmap mapM] in Hm, Hnd. rewrite encode_wire in Hm.
  apply NoDup_cons in Hnd as [Hw Hnd]. apply Forall_cons in Hs as [[Hsw Hom] Hs].
  assert (Hws : w ∈ ws) by (apply Hin; left).
  assert (Hin' : todo ⊆ ws) by (intros w' ?; apply Hin; by right).
  assert (Hother : forall w', w' ∈ todo -> wire_name w' <> wire_name w).
  { intros w' Hw' Hn. apply Hw. rewrite <- Hn. by apply list_elem_of_fmap_2. }
  destruct (omitted s w) eqn:Ho.
  - rewrite bind_Ok in Hm. apply bind_Ok_inv in Hm as (os' & Hm & Hos).
    injection Hos as <-. cbn [omap list_omap id].
    destruct (IH os' cur) as (final & Hd & Hdone & Hrest); auto.
    { intros w' Hw'. apply Hcur. by right. }
    exists final. split; [done|]. split.
    + intros w' [->|Hw']%elem_of_cons; [|by apply Hdone].
      rewrite Hrest, Hcur, Hom by (done || left). done.
    + intros w' Hw' Hn. apply Hrest; [done|]. intros ?. apply Hn. by right.
  - apply bind_Ok_inv in Hm as (o & (v & Hv & [= <-])%bind_Ok_inv & Hm).
    apply bind_Ok_inv in Hm as (os' & Hm & Hos). injection Hos as <-. cbn [omap list_omap id].
    rewrite (decode_member w) by (done || apply Hcur; left).
    destruct (IH os' (wire_set w (wire_get w s) cur)) as (final & Hd & Hdone & Hrest);
      auto.
    { intros w' Hw'. rewrite (get_set_other ws z L) by auto. apply Hcur. by right. }
    exists final. split; [done|]. split.
    + intros w' [->|Hw']%elem_of_cons; [|by apply Hdone].
      by rewrite Hrest, (get_set ws z L).
    + intros w' Hw' Hn. rewrite Hrest; [|done|intros ?; apply Hn; by right].
      apply (get_set_other ws z L); [done..|]. intros Heq. apply Hn. rewrite Heq. left.
Qed.
(** What [decode_struct] reads into the zero value from what
    [encode_struct] wrote for [s] is [s]. *)
Lemma struct_round_trip ty v :
  struct_sound ws z s -> encode_struct (wire_out <$> ws) s = Ok v ->
  decode_struct ty (wire_in <$> ws) v z = Ok s.
Proof.
  intros Hs (os & Hm & [= <-])%bind_Ok_inv. cbn [decode_struct].
  destruct (decode_wires ws os z) as (final & -> & Hdone & _);
    [done|apply (names_apart ws z L)|done|done|done|].
  f_equal. by apply (fields_ext ws z L).
Qed.

Lemma encode_wires_wf todo : forall os,
  todo ⊆ ws -> struct_sound todo z s ->
  mapM (encode_field s) (wire_out <$> todo) = Ok os ->
  forallb (fun m => valid_raw m.1 && wf_value m.2) (omap id os) = true.
Proof.
  pose proof (fields_faithful ws z L) as Hf. rewrite Forall_forall in Hf.
  induction todo as [|w todo IH]; intros os Hin Hs Hm; [by injection Hm as <-|].
  cbn [fmap list_fmap mapM] in Hm. rewrite encode_wire in Hm.
  apply Forall_cons in Hs as [[Hsw _] Hs].
  assert (Hin' : todo ⊆ ws) by (intros w' ?; apply Hin; by right).
  destruct (omitted s w).
  - rewrite bind_Ok in Hm. apply bind_Ok_inv in Hm as (os' & Hm & Hos).
    injection Hos as <-. cbn [omap list_omap id]. by apply IH.
  - apply bind_Ok_inv in Hm as (o & (v & Hv & [= <-])%bind_Ok_inv & Hm).
    apply bind_Ok_inv in Hm as (os' & Hm & Hos). injection Hos as <-.
    cbn [omap list_omap id forallb fst snd]. rewrite valid_raw_quote, (IH os') by done.
    rewrite (@encode_wf _ _ _ _ (Hf w (Hin w ltac:(left))) (wire_get w s) v) by done. done.
Qed.

Lemma struct_wf v :
  struct_sound ws z s -> encode_struct (wire_out <$> ws) s = Ok v -> wf_value v = true.
Proof.
  intros Hs (os & Hm & [= <-])%bind_Ok_inv. by apply (encode_wires_wf ws).
Qed.

Lemma encode_wires_depth todo : forall os,
  todo ⊆ ws -> mapM (encode_field s) (wire_out <$> todo) = Ok os ->
  foldr (fun (m : string * value) n => Nat.max (value_depth m.2) n) 0 (omap id os)
  <= foldr (fun w n => Nat.max (depth (wire_type w)) n) 0 todo.
Proof.
  pose proof (fields_faithful ws z L) as Hf. rewrite Forall_forall in Hf.
  induction todo as [|w todo IH]; intros os Hin Hm; [by injection Hm as <-|].
  cbn [fmap list_fmap mapM] in Hm. rewrite encode_wire in Hm.
  assert (Hin' : todo ⊆ ws) by (intros w' ?; apply Hin; by right).
  destruct (omitted s w).
  - rewrite bind_Ok in Hm. apply bind_Ok_inv in Hm as (os' & Hm & Hos).
    injection Hos as <-. cbn [omap list_omap id foldr]. specialize (IH os' Hin' Hm). lia.
  - apply bind_Ok_inv in Hm as (o & (v & Hv & [= <-])%bind_Ok_inv & Hm).
    apply bind_Ok_inv in Hm as (os' & Hm & Hos). injection Hos as <-.
    cbn [omap list_omap id foldr fst snd]. specialize (IH os' Hin' Hm).
    pose proof (@encode_depth _ _ _ _ (Hf w (Hin w ltac:(left))) (wire_get w s) v Hv). lia.
Qed.

Lemma struct_depth_bound v :
  encode_struct (wire_out <$> ws) s = Ok v -> value_depth v <= struct_depth ws.
Proof.
  intros (os & Hm & [= <-])%bind_Ok_inv. cbn [value_depth]. unfold struct_depth.
  pose proof (encode_wires_depth ws os (reflexivity ws) Hm). lia.
Qed.
End struct_laws.

(** A struct whose codec is made of the wires [ws] is faithful when they
    are lawful. *)
Lemma struct_faithful {S} `{Marshaler S} `{Unmarshaler S} `{Wired S}
    (ws : list (wire S)) (ty : string) :
  lawful ws (zero S) ->
  (forall s : S, encode s = encode_struct (wire_out <$> ws) s) ->
  (forall v (s : S), decode v s = decode_struct ty (wire_in <$> ws) v s) ->
  (forall s : S, sound s -> struct_sound ws (zero S) s) ->
  depth S = struct_depth ws ->
  Faithful S.
Proof.
  intros L He Hd Hs Hdepth. split; intros x v.
  - rewrite He, Hd. intros Hx%Hs. by apply struct_round_trip.
  - rewrite He. intros Hx%Hs. by apply (struct_wf ws (zero S)).
  - rewrite He, Hdepth. by apply (struct_depth_bound ws (zero S)).
Qed.

(** Membership in a list given by its elements, case by case. *)
Ltac each_wire H :=
  repeat (apply elem_of_cons in H as [->|H]); [..|by apply elem_of_nil in H].

(** A property of every element of a list given by its elements. *)
Ltac forall_wires tac :=
  repeat (apply List.Forall_cons; [cbn; tac|]); apply List.Forall_nil.

(** The laws of the wires of a record: every obligation is a computation
    on the table. *)
Ltac struct_lawful :=
  split;
  [ by apply (bool_decide_unpack _)
  | forall_wires done
  | forall_wires ltac:(apply _)
  | forall_wires done
  | intros w x s Hw; each_wire Hw; done
  | intros w w' x s Hw Hw' Hn; each_wire Hw; each_wire Hw'; done
  | intros s s' Hws;
    assert (Hf : Forall (fun w => wire_get w s = wire_get w s') _)
      by (apply Forall_forall; exact Hws);
    repeat (apply Forall_cons in Hf as [? Hf]);
    destruct s, s'; simpl in *; congruence ].

(** ** [json.Unmarshal] of what [json.Marshal] wrote *)

Lemma Unmarshal_encoded {A} `{Faithful A} (x : A) (v : value) :
  sound x -> depth A <= max_depth -> encode x = Ok v ->
  Unmarshal (json_print v) (zero A) = Ok x.
Proof.
  intros Hx Hd Hv. rewrite Unmarshal_json_print.
  - by apply round_trip.
  - by apply (encode_wf x).
  - pose proof (encode_depth x v Hv). lia.
Qed.

(** A sound value of a type that always encodes has a text, and the text
    reads back as the value. *)
Lemma survives {A} `{Faithful A} `{!Total A} (x : A) :
  sound x -> depth A <= max_depth ->
  exists text, Marshal x = Ok text /\ Unmarshal text (zero A) = Ok x.
Proof.
  intros Hx Hd. pose proof (encode_total x) as Hv. unfold Marshal.
  destruct (encode x) as [v|] eqn:He; [|done].
  exists (json_print v). split; [done|]. by apply Unmarshal_encoded.
Qed.

(** C24. A sound value of a faithful type survives the wire: the text
    [json.Marshal] writes for it is JSON that [json.Unmarshal] reads back,
    into a zero value, as the value itself. *)
Theorem Unmarshal_Marshal {A} `{Faithful A} (x : A) (text : string) :
  sound x -> depth A <= max_depth ->
  Marshal x = Ok text -> Unmarshal text (zero A) = Ok x.
Proof. intros Hx Hd (v & Hv & [= <-])%bind_Ok_inv. by apply Unmarshal_encoded. Qed.

Lemma Unmarshal_Marshal_witness :
  Unmarshal (lit "['a@example.com','b@example.com']") (zero (slice string))
  = Ok (Slice ["a@example.com"; "b@example.com"]%string).
Proof.
  apply (Unmarshal_Marshal (Slice ["a@example.com"; "b@example.com"]%string)).
  - by repeat constructor.
  - by apply Nat.leb_le.
  - done.
Defined.
