(* ===== verification/Base64.v ===== *)
(** * Base64: [encoding/base64], the standard encoding

    [EncodeToString] is [base64.StdEncoding.EncodeToString], which the raw
    example calls on the message it sends; [DecodeString] is the decoder a
    server applies to the [data] of a raw request, on a text without line
    breaks.  Decoding gives back what was encoded, and the text is ASCII. *)

From Stdlib Require Import ZArith Lia Ascii String ZifyNat.
From stdpp Require Import base tactics option list strings.
From S2P Require Import Prelude JsonString.

(** The character of a group of six bits, in the standard alphabet. *)
Definition sextet_char (n : nat) : ascii :=
  if n <? 26 then byte_of (65 + n)
  else if n <? 52 then byte_of (71 + n)
  else if n <? 62 then byte_of (n - 4)
  else if n =? 62 then "+"%char
  else "/"%char.

Definition char_sextet (c : ascii) : option nat :=
  if is_upper c then Some (code c - 65)
  else if is_lower c then Some (code c - 71)
  else if is_digit c then Some (code c + 4)
  else if bool_decide (c = "+"%char) then Some 62
  else if bool_decide (c = "/"%char) then Some 63
  else None.

Definition pad : ascii := "="%char.

(** [base64.StdEncoding.EncodeToString]: three bytes make four
    characters; one or two bytes left over make two or three, padded. *)
Fixpoint EncodeToString (src : string) : string :=
  match src with
  | EmptyString => EmptyString
  | String a EmptyString =>
      let x := code a in
      String (sextet_char (x / 4)) (String (sextet_char (x mod 4 * 16))
        (String pad (String pad EmptyString)))
  | String a (String b EmptyString) =>
      let x := code a in
      let y := code b in
      String (sextet_char (x / 4)) (String (sextet_char (x mod 4 * 16 + y / 16))
        (String (sextet_char (y mod 16 * 4)) (String pad EmptyString)))
  | String a (String b (String c rest)) =>
      let x := code a in
      let y := code b in
      let z := code c in
      String (sextet_char (x / 4)) (String (sextet_char (x mod 4 * 16 + y / 16))
        (String (sextet_char (y mod 16 * 4 + z / 64)) (String (sextet_char (z mod 64))
           (EncodeToString rest))))
  end.

(** [base64.StdEncoding.DecodeString] on a text without line breaks:
    groups of four characters, padding in the last group only. *)
Fixpoint DecodeString (s : string) : option string :=
  match s with
  | EmptyString => Some EmptyString
  | String a (String b (String c (String d rest))) =>
      x ← char_sextet a; y ← char_sextet b;
      if bool_decide (d = pad) then
        if bool_decide (rest = EmptyString) then
          if bool_decide (c = pad)
          then Some (String (byte_of (x * 4 + y / 16)) EmptyString)
          else z ← char_sextet c;
               Some (String (byte_of (x * 4 + y / 16))
                       (String (byte_of (y mod 16 * 16 + z / 4)) EmptyString))
        else None
      else
        z ← char_sextet c; w ← char_sextet d; r ← DecodeString rest;
        Some (String (byte_of (x * 4 + y / 16))
                (String (byte_of (y mod 16 * 16 + z / 4))
                   (String (byte_of (z mod 4 * 64 + w)) r)))
  | _ => None
  end.

(** Every byte is ASCII. *)
Fixpoint all_ascii (s : string) : bool :=
  match s with
  | EmptyString => true
  | String c s' => (code c <? 128) && all_ascii s'
  end.

(** * Laws *)

Lemma char_sextet_char n : n < 64 -> char_sextet (sextet_char n) = Some n.
Proof.
  intros Hn. do 64 (destruct n as [|n]; [done|]). lia.
Qed.

Lemma sextet_char_not_pad n : n < 64 -> sextet_char n <> pad.
Proof.
  intros Hn. do 64 (destruct n as [|n]; [done|]). lia.
Qed.

Lemma code_lt c : code c < 256.
Proof. apply nat_ascii_bounded. Qed.

Lemma byte_of_code c : byte_of (code c) = c.
Proof. apply ascii_nat_embedding. Qed.

(** Division and remainder by a constant, for [lia]. *)
Ltac lia_div := zify; Z.div_mod_to_equations; lia.

(** The three bytes of a group from its four sextets. *)
Lemma group_bytes x y z :
  x < 256 -> y < 256 -> z < 256 ->
  x / 4 * 4 + (x mod 4 * 16 + y / 16) / 16 = x /\
  (x mod 4 * 16 + y / 16) mod 16 * 16 + (y mod 16 * 4 + z / 64) / 4 = y /\
  (y mod 16 * 4 + z / 64) mod 4 * 64 + z mod 64 = z.
Proof. lia_div. Qed.

Lemma group_sextets x y z :
  x < 256 -> y < 256 -> z < 256 ->
  x / 4 < 64 /\ x mod 4 * 16 + y / 16 < 64 /\ y mod 16 * 4 + z / 64 < 64 /\ z mod 64 < 64.
Proof. lia_div. Qed.

(** Three results about [s], about one byte before [s] and about two. *)
Lemma string_ind3 (P : string -> Prop) :
  P EmptyString -> (forall a, P (String a EmptyString)) ->
  (forall a b, P (String a (String b EmptyString))) ->
  (forall a b c s, P s -> P (String a (String b (String c s)))) ->
  forall s, P s.
Proof.
  intros H0 H1 H2 H3 s.
  assert (Hs : P s /\ (forall a, P (String a s)) /\ (forall a b, P (String a (String b s))));
    [|by destruct Hs].
  induction s as [|c s (IH0 & IH1 & IH2)]; repeat split; auto.
Qed.

Ltac sextets a b c :=
  pose proof (group_sextets (code a) (code b) (code c) (code_lt a) (code_lt b) (code_lt c))
    as (? & ? & ? & ?);
  pose proof (group_bytes (code a) (code b) (code c) (code_lt a) (code_lt b) (code_lt c))
    as (? & ? & ?).

(** The last group, of one byte and of two. *)
Lemma last_bytes x y :
  x < 256 -> y < 256 ->
  x mod 4 * 16 < 64 /\ y mod 16 * 4 < 64 /\
  x / 4 * 4 + x mod 4 * 16 / 16 = x /\
  (x mod 4 * 16 + y / 16) mod 16 * 16 + y mod 16 * 4 / 4 = y.
Proof. intros. repeat split; lia_div. Qed.

Ltac rewrite_bytes :=
  repeat match goal with H : _ = code _ |- _ => rewrite H; clear H end;
  rewrite ?byte_of_code.

(** Decoding what was encoded gives the bytes back. *)
Lemma DecodeString_EncodeToString s : DecodeString (EncodeToString s) = Some s.
Proof.
  induction s as [|a|a b|a b c s IH] using string_ind3; [done|..];
    cbn [EncodeToString DecodeString].
  - pose proof (last_bytes (code a) (code a) (code_lt a) (code_lt a)) as (? & _ & ? & _).
    sextets a a a. rewrite !char_sextet_char by lia. cbn [mbind option_bind].
    rewrite !bool_decide_eq_true_2 by done. by rewrite_bytes.
  - pose proof (last_bytes (code a) (code b) (code_lt a) (code_lt b)) as (_ & ? & _ & ?).
    sextets a b b. rewrite !char_sextet_char by lia. cbn [mbind option_bind].
    rewrite !bool_decide_eq_true_2 by done.
    rewrite bool_decide_eq_false_2 by (by apply sextet_char_not_pad).
    by rewrite_bytes.
  - sextets a b c. rewrite !char_sextet_char by lia. cbn [mbind option_bind].
    rewrite bool_decide_eq_false_2 by (by apply sextet_char_not_pad).
    rewrite IH. cbn [mbind option_bind]. by rewrite_bytes.
Qed.

(** The text has four characters for every three bytes, the last group
    padded. *)
Lemma EncodeToString_length s :
  String.length (EncodeToString s) = 4 * ((String.length s + 2) / 3).
Proof.
  induction s as [|a|a b|a b c s IH] using string_ind3; [done..|].
  cbn [EncodeToString String.length]. rewrite IH. lia_div.
Qed.

(** ASCII is valid UTF-8. *)
Lemma all_ascii_valid_utf8 s : all_ascii s = true -> valid_utf8 s = true.
Proof.
  unfold valid_utf8. induction s as [|c s IH]; [done|].
  intros [Hc Hs]%andb_true_iff. cbn [valid_utf8_go]. rewrite rune_len_low by done. auto.
Qed.

Lemma sextet_char_ascii n : n < 64 -> (code (sextet_char n) <? 128) = true.
Proof. intros Hn. do 64 (destruct n as [|n]; [done|]). lia. Qed.

(** The text of [EncodeToString] is ASCII, so a string field that holds it
    is read by the server as it was written. *)
Lemma EncodeToString_ascii s : all_ascii (EncodeToString s) = true.
Proof.
  induction s as [|a|a b|a b c s IH] using string_ind3; [done|..];
    cbn [EncodeToString all_ascii].
  - pose proof (last_bytes (code a) (code a) (code_lt a) (code_lt a)) as (? & _).
    sextets a a a. by rewrite !sextet_char_ascii by lia.
  - pose proof (last_bytes (code a) (code b) (code_lt a) (code_lt b)) as (_ & ? & _).
    sextets a b b. by rewrite !sextet_char_ascii by lia.
  - sextets a b c. by rewrite !sextet_char_ascii, IH by lia.
Qed.

Lemma EncodeToString_valid_utf8 s : valid_utf8 (EncodeToString s) = true.
Proof. apply all_ascii_valid_utf8, EncodeToString_ascii. Qed.
