(* ===== verification/GoTime.v ===== *)
(** * GoTime: [time.Time] as the decoder sees it

    [models.Delivery] has one field of type [time.Time], which decodes
    itself ([Time.UnmarshalJSON]): [null] changes nothing, any text that is
    not a JSON string is an error, and the bytes between the quotes, escapes
    unprocessed, are handed to the RFC 3339 parser of package [time].

    That parser belongs to the Go library.  The development takes it as the
    interface [TimeParser] and proves what it proves for every instance.
    [strict_rfc3339] is the instance used to run examples: the profile
    [YYYY-MM-DDTHH:MM:SS[.fraction](Z|+HH:MM|-HH:MM)] with every field in
    range, which is what the fast path of Go's parser accepts.  Go's general
    parser accepts a few texts more (an hour of one digit, a comma before the
    fraction); on those the two differ. *)

From Stdlib Require Import ZArith Lia Ascii String.
From stdpp Require Import base tactics option list strings.
From S2P Require Import Prelude Json Codec.

Class TimeParser : Type := {
  Time : Type;
  Time_zero : Time;
  parse_time : string -> option Time
}.

(** [Time.UnmarshalJSON]. *)
Definition decode_time `{TimeParser} (v : value) (old : Time) : result json_error Time :=
  match v with
  | JNull => Ok old
  | JString raw =>
      of_option (UnmarshalerError "parsing time") (parse_time raw)
  | _ => Err (UnmarshalerError "Time.UnmarshalJSON: input is not a JSON string")
  end.

#[export] Instance Time_Unmarshaler `{TimeParser} : Unmarshaler Time :=
  {| zero := Time_zero; decode := decode_time |}.

(** * The strict profile *)

Record civil : Type := mkCivil {
  civil_year : nat;
  civil_month : nat;
  civil_day : nat;
  civil_hour : nat;
  civil_min : nat;
  civil_sec : nat;
  civil_nsec : N;
  civil_offset : Z          (* seconds east of UTC *)
}.

Definition is_leap (y : nat) : bool :=
  (y mod 4 =? 0) && (negb (y mod 100 =? 0) || (y mod 400 =? 0)).

Definition days_in (month year : nat) : nat :=
  match month with
  | 2 => if is_leap year then 29 else 28
  | 4 | 6 | 9 | 11 => 30
  | _ => 31
  end.

Definition digit_val (c : ascii) : option nat :=
  if is_digit c then Some (code c - 48) else None.

(** [n] digits at the head of [s]: their value and what follows. *)
Fixpoint read_uint (n : nat) (acc : nat) (s : string) : option (nat * string) :=
  match n with
  | O => Some (acc, s)
  | S n' =>
      match s with
      | String c s' => d ← digit_val c; read_uint n' (acc * 10 + d) s'
      | EmptyString => None
      end
  end.

Definition in_bounds (lo hi x : nat) : option nat :=
  if (lo <=? x) && (x <=? hi) then Some x else None.

(** The digits of a fraction, as nanoseconds: the first nine count. *)
Fixpoint read_fraction (scale : N) (acc : N) (s : string) : N * string :=
  match s with
  | String c s' =>
      match digit_val c with
      | Some d => read_fraction (scale / 10)%N (acc + N.of_nat d * scale)%N s'
      | None => (acc, s)
      end
  | EmptyString => (acc, s)
  end.

Definition read_nsec (s : string) : N * string :=
  match s with
  | String "." (String c s') =>
      if is_digit c then read_fraction 100000000%N 0%N (String c s') else (0%N, s)
  | _ => (0%N, s)
  end.

Definition read_zone (s : string) : option Z :=
  match s with
  | String "Z" EmptyString => Some 0%Z
  | String sign s1 =>
      '(hr, s2) ← read_uint 2 0 s1;
      hr ← in_bounds 0 23 hr;
      s3 ← expect ":" s2;
      '(mm, s4) ← read_uint 2 0 s3;
      mm ← in_bounds 0 59 mm;
      let off := Z.of_nat ((hr * 60 + mm) * 60) in
      if bool_decide (s4 = EmptyString) then
        if bool_decide (sign = "+"%char) then Some off
        else if bool_decide (sign = "-"%char) then Some (- off)%Z
        else None
      else None
  | EmptyString => None
  end.

Definition parse_strict (s : string) : option civil :=
  '(year, s) ← read_uint 4 0 s;
  s ← expect "-" s;
  '(month, s) ← read_uint 2 0 s;
  month ← in_bounds 1 12 month;
  s ← expect "-" s;
  '(day, s) ← read_uint 2 0 s;
  day ← in_bounds 1 (days_in month year) day;
  s ← expect "T" s;
  '(hour, s) ← read_uint 2 0 s;
  hour ← in_bounds 0 23 hour;
  s ← expect ":" s;
  '(minute, s) ← read_uint 2 0 s;
  minute ← in_bounds 0 59 minute;
  s ← expect ":" s;
  '(sec, s) ← read_uint 2 0 s;
  sec ← in_bounds 0 59 sec;
  let '(nsec, s) := read_nsec s in
  off ← read_zone s;
  Some (mkCivil year month day hour minute sec nsec off).

(** The zero [time.Time]: January 1 of year 1, 00:00:00 UTC. *)
Definition strict_rfc3339 : TimeParser :=
  {| Time := civil;
     Time_zero := mkCivil 1 1 1 0 0 0 0%N 0%Z;
     parse_time := parse_strict |}.

(** * Laws *)

Lemma in_bounds_Some lo hi x y : in_bounds lo hi x = Some y -> y = x /\ lo <= x <= hi.
Proof.
  unfold in_bounds. case_match; [|done]. intros [= <-].
  apply andb_true_iff in H as [?%Nat.leb_le ?%Nat.leb_le]. lia.
Qed.

(** Every field of a time that [parse_strict] accepts is in range. *)
Lemma parse_strict_range s t :
  parse_strict s = Some t ->
  1 <= civil_month t <= 12 /\
  1 <= civil_day t <= days_in (civil_month t) (civil_year t) /\
  civil_hour t <= 23 /\ civil_min t <= 59 /\ civil_sec t <= 59.
Proof.
  unfold parse_strict. intros H.
  repeat (simplify_option_eq;
          repeat match goal with
                 | p : _ * _ |- _ => destruct p
                 | H : in_bounds _ _ _ = Some _ |- _ =>
                     apply in_bounds_Some in H as [-> ?]
                 end).
  destruct (read_nsec _). simplify_option_eq. simpl. lia.
Qed.
