(* ===== verification/Typed.v ===== *)
(** * Typed: the invariant of what the decoder stores

    Every Go type the client decodes into has an invariant that
    [json.Unmarshal] establishes: an [int] is within 64 bits, a string is
    valid UTF-8 (invalid bytes of the text were replaced by U+FFFD), a
    [float64] is a number, a [json.RawMessage] holds the text of a value,
    and a pointer, slice, map or struct holds values with the invariant of
    their type.  [Typed] is the class of such types: the invariant holds of
    the zero value and the decoder keeps it, for the values the scanner
    returns.  The invariant of a struct is kept field by field
    ([decode_struct_keeps]). *)

From Stdlib Require Import ZArith Lia Ascii String Decimal.
From stdpp Require Import base tactics option list strings gmap.
From S2P Require Import Prelude Json JsonString Utf8 JsonParse JsonPrint JsonWf Codec RoundTrip GoTime.

(** A value of the text of a reply: what the scanner returned at the top. *)
Abbreviation parsed := (scanned 0).

(** A type with the invariant of its values: it holds of the zero value,
    and the decoder keeps it. *)
Class Typed (A : Type) `{Unmarshaler A} : Type := {
  typed : A -> Prop;
  typed_zero : typed (zero A);
  typed_decode : forall v old new,
    parsed v -> typed old -> decode v old = Ok new -> typed new
}.
Arguments Typed A {_}.

(** A [float64] that is a number. *)
Definition finite (f : float64) : Prop :=
  match f with SpecFloat.S754_infinity _ | SpecFloat.S754_nan => False | _ => True end.

(** The bytes of a [json.RawMessage] are the text of a value. *)
Definition raw_typed (r : RawMessage) : Prop :=
  match r with RawNil => True | Raw v => parsed v end.

Definition ptr_typed {A} (P : A -> Prop) (p : option A) : Prop :=
  match p with None => True | Some x => P x end.

(** A field keeps the invariant [P] of its struct. *)
Definition keeps {S} (P : S -> Prop) (f : field S) : Prop :=
  forall v s s', parsed v -> P s -> field_set f v s = Ok s' -> P s'.

(** * Laws *)

Lemma parsed_elems vs : parsed (JArray vs) -> Forall parsed vs.
Proof.
  intros [Hw Hd]. cbn [wf_value value_depth] in Hw, Hd. apply Forall_forall.
  intros v Hv. split.
  - by eapply forallb_forall, list_elem_of_In, Hv.
  - pose proof (value_depth_elem v vs Hv). lia.
Qed.

Lemma parsed_members ms :
  parsed (JObject ms) ->
  Forall (fun m : string * value => valid_raw m.1 = true /\ parsed m.2) ms.
Proof.
  intros [Hw Hd]. cbn [wf_value value_depth] in Hw, Hd. apply Forall_forall.
  intros m Hm. pose proof (proj1 (forallb_forall _ _) Hw m) as Hwm.
  apply andb_true_iff in Hwm as [Hk Hv]; [|by apply list_elem_of_In].
  split; [done|split; [done|]]. pose proof (value_depth_member m ms Hm). lia.
Qed.

#[export, refine] Instance string_Typed : Typed string :=
  {| typed s := valid_utf8 s = true |}.
Proof.
  - done.
  - intros [] old new _ Hold; simpl; try done; [by intros [= <-]|].
    intros Hs. inv_bind. by eapply unquote_valid_utf8.
Defined.

#[export, refine] Instance int_Typed : Typed Z := {| typed := int_range |}.
Proof.
  - done.
  - intros [] old new _ Hold; simpl; try done; [by intros [= <-]|].
    intros Hs. inv_bind. eauto with postal.
Defined.

#[export, refine] Instance float64_Typed : Typed float64 := {| typed := finite |}.
Proof.
  - done.
  - intros [] old new _ Hold; simpl; try done; [by intros [= <-]|].
    intros Hs. inv_bind. by eapply float64_of_decimal_finite.
Defined.

#[export, refine] Instance bool_Typed : Typed bool := {| typed _ := True |}.
Proof. all: done. Defined.

#[export, refine] Instance RawMessage_Typed : Typed RawMessage := {| typed := raw_typed |}.
Proof.
  - done.
  - intros v old new Hv _ [= <-]. done.
Defined.

#[export, refine] Instance Time_Typed `{TimeParser} : Typed Time := {| typed _ := True |}.
Proof. all: done. Defined.

Section containers.
Context {A : Type} `{Typed A}.

Lemma default_typed (o : option A) : ptr_typed typed o -> typed (default (zero A) o).
Proof. destruct o; [done|]. intros _. apply typed_zero. Qed.

Lemma decode_elems_typed vs : forall old xs,
  Forall parsed vs -> Forall typed old -> decode_elems vs old = Ok xs -> Forall typed xs.
Proof.
  induction vs as [|v vs IH]; intros old xs Hvs Hold; cbn [decode_elems].
  { by intros [= <-]. }
  apply Forall_cons in Hvs as [Hv Hvs]. intros Hd. inv_bind.
  apply List.Forall_cons.
  - eapply typed_decode; [done| |done]. apply default_typed.
    destruct Hold; [done|]. done.
  - eapply IH; [done| |done]. by destruct Hold.
Qed.

Lemma decode_entries_typed ms : forall m m',
  Forall (fun kv : string * value => valid_raw kv.1 = true /\ parsed kv.2) ms ->
  map_Forall (fun k x => valid_utf8 k = true /\ typed x) m ->
  decode_entries ms m = Ok m' ->
  map_Forall (fun k x => valid_utf8 k = true /\ typed x) m'.
Proof.
  induction ms as [|[k v] ms IH]; intros m m' Hms Hm; cbn [decode_entries].
  { by intros [= <-]. }
  apply Forall_cons in Hms as [[_ Hv] Hms]. intros Hd. inv_bind.
  eapply IH; [done| |done]. apply map_Forall_insert_2; [|done]. split.
  - by eapply unquote_valid_utf8.
  - eapply typed_decode; [done|apply typed_zero|done].
Qed.

#[export, refine] Instance ptr_Typed : Typed (option A) := {| typed := ptr_typed typed |}.
Proof.
  - done.
  - intros v old new Hv Hold. cbn [decode ptr_Unmarshaler decode_ptr].
    destruct v; cbn [decode_ptr]; try (by intros [= <-]); intros Hd; inv_bind; subst;
      (eapply typed_decode; [done|by apply default_typed|done]).
Defined.

#[export, refine] Instance slice_Typed : Typed (slice A) :=
  {| typed s := Forall typed (elems s) |}.
Proof.
  - by apply List.Forall_nil.
  - intros v old new Hv Hold. cbn [decode slice_Unmarshaler decode_slice].
    destruct v; cbn [decode_slice type_error]; try done;
      [by intros [= <-]; apply List.Forall_nil|].
    intros Hd. inv_bind. subst. eapply decode_elems_typed; [by apply parsed_elems|done..].
Defined.

#[export, refine] Instance map_Typed : Typed (gomap A) :=
  {| typed m := map_Forall (fun k x => valid_utf8 k = true /\ typed x) (entries m) |}.
Proof.
  - apply map_Forall_empty.
  - intros v old new Hv Hold. cbn [decode map_Unmarshaler decode_map].
    destruct v; cbn [decode_map type_error]; try done;
      [by intros [= <-]; apply map_Forall_empty|].
    intros Hd. inv_bind. subst. eapply decode_entries_typed; [by apply parsed_members|done..].
Defined.
End containers.

(** * Structs *)

Lemma find_field_In {S} (fs : list (field S)) key f :
  find_field fs key = Some f -> f ∈ fs.
Proof.
  unfold find_field. intros Hf. apply list_elem_of_In.
  destruct (List.find _ fs) as [g|] eqn:Hg; simplify_eq; by eapply find_some.
Qed.

Section structs.
Context {S : Type} (P : S -> Prop) (fs : list (field S)).
Hypothesis fields_keep : Forall (keeps P) fs.

(** The invariant of a struct is kept member by member. *)
Lemma decode_members_keeps ms : forall s s',
  Forall (fun m : string * value => valid_raw m.1 = true /\ parsed m.2) ms ->
  P s -> decode_members fs ms s = Ok s' -> P s'.
Proof.
  induction ms as [|[k v] ms IH]; intros s s' Hms Hs; cbn [decode_members].
  { by intros [= <-]. }
  apply Forall_cons in Hms as [[_ Hv] Hms]. intros Hd. inv_bind.
  destruct (find_field fs _) as [f|] eqn:Hf; [|by eapply IH].
  inv_bind. eapply IH; [done| |done].
  eapply (proj1 (Forall_forall _ _) fields_keep f); [by eapply find_field_In|done..].
Qed.

Lemma decode_struct_keeps ty v s s' :
  parsed v -> P s -> decode_struct ty fs v s = Ok s' -> P s'.
Proof.
  intros Hv Hs. destruct v; cbn [decode_struct type_error]; try done.
  - by intros [= <-].
  - apply decode_members_keeps; [by apply parsed_members|done].
Qed.
End structs.

(** A field of type [A] keeps an invariant that asks of it what [A] asks,
    and that the other fields do not depend on. *)
Lemma setter_keeps {S A} `{Typed A} (P : S -> Prop) name (get : S -> A) set :
  (forall s, P s -> typed (get s)) ->
  (forall x s, typed x -> P s -> P (set x s)) ->
  keeps P (Field name (setter get set)).
Proof.
  intros Hget Hset v s s' Hv Hs. cbn [field_set]. unfold setter. intros Hd. inv_bind.
  subst. eapply Hset, Hs. eapply typed_decode; [done|by apply Hget|done].
Qed.

(** The fields of a struct keep the invariant [P], a conjunction of the
    invariants of their types. *)
Ltac fields_keep P :=
  unfold wire_in;
  cbn [fmap list_fmap wire_type wire_Unmarshaler wire_name wire_get wire_set];
  repeat (apply List.Forall_cons;
          [apply setter_keeps; unfold P; cbn; unfold ptr_typed; intros; destruct_and?;
           repeat (split; [assumption|]); first [assumption|by repeat case_match]|]);
  apply List.Forall_nil.

(** * What [json.Unmarshal] stores *)

Lemma Unmarshal_typed {A} `{Typed A} (text : string) (old x : A) :
  typed old -> Unmarshal text old = Ok x -> typed x.
Proof.
  intros Hold. unfold Unmarshal. destruct (json_parse text) as [v|] eqn:Hp; [|done].
  apply typed_decode; [by apply json_parse_scanned in Hp|done].
Qed.

Lemma Unmarshal_raw_typed {A} `{Typed A} (raw : RawMessage) (old x : A) :
  raw_typed raw -> typed old -> Unmarshal_raw raw old = Ok x -> typed x.
Proof. destruct raw as [|v]; [done|]. apply typed_decode. Qed.
