(* ===== verification/Models.v ===== *)
(** * Models: package [models]

    One record per struct of src/models/message.go and of the send requests
    (src/README.md from line 861), its fields in the order of the source.
    For each struct, the table of its fields by their [json] tags is its
    decoder ([Unmarshaler]); the table with the [omitempty] marks is its
    encoder ([Marshaler]).  For [Attachment], the two requests and the send
    response both tables are made from one table of typed fields
    ([Attachment_wires] and the like), and the struct is proved [Faithful]:
    a valid value is read back as it was written.  [Delivery] has no
    encoder: the client only receives it, and writing a [float64] or a
    [time.Time] is not modelled. *)

From Stdlib Require Import ZArith Lia Ascii String.
From stdpp Require Import base tactics option list strings gmap.
From S2P Require Import Prelude Json JsonString Codec RoundTrip GoTime Typed.

(** The status of a message: no field is declared yet. *)
Record MessageStatus : Type := mkMessageStatus {}.

Definition MessageStatus_fields : list (field MessageStatus) := [].

#[export] Instance MessageStatus_Unmarshaler : Unmarshaler MessageStatus :=
  {| zero := mkMessageStatus;
     decode := decode_struct "MessageStatus" MessageStatus_fields |}.

Definition MessageStatus_out_fields : list (out_field MessageStatus) := [].

#[export] Instance MessageStatus_Marshaler : Marshaler MessageStatus :=
  {| encode := encode_struct MessageStatus_out_fields; is_empty_value _ := false |}.

(** The details of a message: no field is declared yet. *)
Record MessageDetails : Type := mkMessageDetails {}.

Definition MessageDetails_fields : list (field MessageDetails) := [].

#[export] Instance MessageDetails_Unmarshaler : Unmarshaler MessageDetails :=
  {| zero := mkMessageDetails;
     decode := decode_struct "MessageDetails" MessageDetails_fields |}.

Definition MessageDetails_out_fields : list (out_field MessageDetails) := [].

#[export] Instance MessageDetails_Marshaler : Marshaler MessageDetails :=
  {| encode := encode_struct MessageDetails_out_fields; is_empty_value _ := false |}.

(** An attachment of a message. *)
Record Attachment : Type := mkAttachment {
  Attachment_Name : string;
  Attachment_ContentType : string;
  Attachment_Data : string;
  Attachment_Size : Z
}.

Definition Attachment_wires : list (wire Attachment) := [
  Wire "name" false Attachment_Name (fun x s =>
    mkAttachment x (Attachment_ContentType s) (Attachment_Data s) (Attachment_Size s));
  Wire "content_type" false Attachment_ContentType (fun x s =>
    mkAttachment (Attachment_Name s) x (Attachment_Data s) (Attachment_Size s));
  Wire "data" false Attachment_Data (fun x s =>
    mkAttachment (Attachment_Name s) (Attachment_ContentType s) x (Attachment_Size s));
  Wire "size" false Attachment_Size (fun x s =>
    mkAttachment (Attachment_Name s) (Attachment_ContentType s) (Attachment_Data s) x)
].

Definition Attachment_fields : list (field Attachment) := wire_in <$> Attachment_wires.

#[export] Instance Attachment_Unmarshaler : Unmarshaler Attachment :=
  {| zero :=
       mkAttachment (zero string) (zero string) (zero string) (zero Z);
     decode := decode_struct "Attachment" Attachment_fields |}.

Definition Attachment_out_fields : list (out_field Attachment) :=
  wire_out <$> Attachment_wires.

#[export] Instance Attachment_Marshaler : Marshaler Attachment :=
  {| encode := encode_struct Attachment_out_fields; is_empty_value _ := false |}.

#[export] Instance Attachment_Wired : Wired Attachment :=
  {| sound := struct_sound Attachment_wires (zero Attachment);
     depth := struct_depth Attachment_wires |}.

(** A message as the server describes it. *)
Record Message : Type := mkMessage {
  Message_ID : Z;
  Message_Token : string;
  Message_Status : option MessageStatus;
  Message_Details : option MessageDetails;
  Message_Inspection : RawMessage;
  Message_PlainBody : string;
  Message_HTMLBody : string;
  Message_Attachments : slice Attachment;
  Message_Headers : gomap string;
  Message_RawMessage : string
}.

Definition Message_fields : list (field Message) := [
  Field "id" (setter Message_ID (fun x s =>
    mkMessage x (Message_Token s) (Message_Status s) (Message_Details s)
    (Message_Inspection s) (Message_PlainBody s) (Message_HTMLBody s)
    (Message_Attachments s) (Message_Headers s) (Message_RawMessage s)));
  Field "token" (setter Message_Token (fun x s =>
    mkMessage (Message_ID s) x (Message_Status s) (Message_Details s)
    (Message_Inspection s) (Message_PlainBody s) (Message_HTMLBody s)
    (Message_Attachments s) (Message_Headers s) (Message_RawMessage s)));
  Field "status" (setter Message_Status (fun x s =>
    mkMessage (Message_ID s) (Message_Token s) x (Message_Details s)
    (Message_Inspection s) (Message_PlainBody s) (Message_HTMLBody s)
    (Message_Attachments s) (Message_Headers s) (Message_RawMessage s)));
  Field "details" (setter Message_Details (fun x s =>
    mkMessage (Message_ID s) (Message_Token s) (Message_Status s) x
    (Message_Inspection s) (Message_PlainBody s) (Message_HTMLBody s)
    (Message_Attachments s) (Message_Headers s) (Message_RawMessage s)));
  Field "inspection" (setter Message_Inspection (fun x s =>
    mkMessage (Message_ID s) (Message_Token s) (Message_Status s) (Message_Details s) x
    (Message_PlainBody s) (Message_HTMLBody s) (Message_Attachments s)
    (Message_Headers s) (Message_RawMessage s)));
  Field "plain_body" (setter Message_PlainBody (fun x s =>
    mkMessage (Message_ID s) (Message_Token s) (Message_Status s) (Message_Details s)
    (Message_Inspection s) x (Message_HTMLBody s) (Message_Attachments s)
    (Message_Headers s) (Message_RawMessage s)));
  Field "html_body" (setter Message_HTMLBody (fun x s =>
    mkMessage (Message_ID s) (Message_Token s) (Message_Status s) (Message_Details s)
    (Message_Inspection s) (Message_PlainBody s) x (Message_Attachments s)
    (Message_Headers s) (Message_RawMessage s)));
  Field "attachments" (setter Message_Attachments (fun x s =>
    mkMessage (Message_ID s) (Message_Token s) (Message_Status s) (Message_Details s)
    (Message_Inspection s) (Message_PlainBody s) (Message_HTMLBody s) x
    (Message_Headers s) (Message_RawMessage s)));
  Field "headers" (setter Message_Headers (fun x s =>
    mkMessage (Message_ID s) (Message_Token s) (Message_Status s) (Message_Details s)
    (Message_Inspection s) (Message_PlainBody s) (Message_HTMLBody s)
    (Message_Attachments s) x (Message_RawMessage s)));
  Field "raw_message" (setter Message_RawMessage (fun x s =>
    mkMessage (Message_ID s) (Message_Token s) (Message_Status s) (Message_Details s)
    (Message_Inspection s) (Message_PlainBody s) (Message_HTMLBody s)
    (Message_Attachments s) (Message_Headers s) x))
].

#[export] Instance Message_Unmarshaler : Unmarshaler Message :=
  {| zero :=
       mkMessage (zero Z) (zero string) (zero (option MessageStatus))
       (zero (option MessageDetails)) (zero RawMessage) (zero string) (zero string)
       (zero (slice Attachment)) (zero (gomap string)) (zero string);
     decode := decode_struct "Message" Message_fields |}.

Definition Message_out_fields : list (out_field Message) := [
  getter "id" false Message_ID;
  getter "token" false Message_Token;
  getter "status" true Message_Status;
  getter "details" true Message_Details;
  getter "inspection" true Message_Inspection;
  getter "plain_body" true Message_PlainBody;
  getter "html_body" true Message_HTMLBody;
  getter "attachments" true Message_Attachments;
  getter "headers" true Message_Headers;
  getter "raw_message" true Message_RawMessage
].

#[export] Instance Message_Marshaler : Marshaler Message :=
  {| encode := encode_struct Message_out_fields; is_empty_value _ := false |}.

(** One delivery attempt.  Its time stamp is a [time.Time], so the type and its
    decoder take the time parser of the library as a parameter. *)
Section Delivery.
Context `{TimeParser}.

Record Delivery : Type := mkDelivery {
  Delivery_ID : Z;
  Delivery_Status : string;
  Delivery_Details : string;
  Delivery_Output : string;
  Delivery_SentWithSSL : bool;
  Delivery_LogID : Z;
  Delivery_Time : float64;
  Delivery_Timestamp : Time
}.

Definition Delivery_fields : list (field Delivery) := [
  Field "id" (setter Delivery_ID (fun x s =>
    mkDelivery x (Delivery_Status s) (Delivery_Details s) (Delivery_Output s)
    (Delivery_SentWithSSL s) (Delivery_LogID s) (Delivery_Time s)
    (Delivery_Timestamp s)));
  Field "status" (setter Delivery_Status (fun x s =>
    mkDelivery (Delivery_ID s) x (Delivery_Details s) (Delivery_Output s)
    (Delivery_SentWithSSL s) (Delivery_LogID s) (Delivery_Time s)
    (Delivery_Timestamp s)));
  Field "details" (setter Delivery_Details (fun x s =>
    mkDelivery (Delivery_ID s) (Delivery_Status s) x (Delivery_Output s)
    (Delivery_SentWithSSL s) (Delivery_LogID s) (Delivery_Time s)
    (Delivery_Timestamp s)));
  Field "output" (setter Delivery_Output (fun x s =>
    mkDelivery (Delivery_ID s) (Delivery_Status s) (Delivery_Details s) x
    (Delivery_SentWithSSL s) (Delivery_LogID s) (Delivery_Time s)
    (Delivery_Timestamp s)));
  Field "sent_with_ssl" (setter Delivery_SentWithSSL (fun x s =>
    mkDelivery (Delivery_ID s) (Delivery_Status s) (Delivery_Details s)
    (Delivery_Output s) x (Delivery_LogID s) (Delivery_Time s) (Delivery_Timestamp s)));
  Field "log_id" (setter Delivery_LogID (fun x s =>
    mkDelivery (Delivery_ID s) (Delivery_Status s) (Delivery_Details s)
    (Delivery_Output s) (Delivery_SentWithSSL s) x (Delivery_Time s)
    (Delivery_Timestamp s)));
  Field "time" (setter Delivery_Time (fun x s =>
    mkDelivery (Delivery_ID s) (Delivery_Status s) (Delivery_Details s)
    (Delivery_Output s) (Delivery_SentWithSSL s) (Delivery_LogID s) x
    (Delivery_Timestamp s)));
  Field "timestamp" (setter Delivery_Timestamp (fun x s =>
    mkDelivery (Delivery_ID s) (Delivery_Status s) (Delivery_Details s)
    (Delivery_Output s) (Delivery_SentWithSSL s) (Delivery_LogID s) (Delivery_Time s) x))
].

#[export] Instance Delivery_Unmarshaler : Unmarshaler Delivery :=
  {| zero :=
       mkDelivery (zero Z) (zero string) (zero string) (zero string) (zero bool)
       (zero Z) (zero float64) (zero Time);
     decode := decode_struct "Delivery" Delivery_fields |}.

End Delivery.

Arguments Delivery {_}.
Arguments mkDelivery {_}.

(** The request of [SendMessage]. *)
Record SendMessageRequest : Type := mkSendMessageRequest {
  SendMessageRequest_To : slice string;
  SendMessageRequest_CC : slice string;
  SendMessageRequest_BCC : slice string;
  SendMessageRequest_From : string;
  SendMessageRequest_Sender : string;
  SendMessageRequest_Subject : string;
  SendMessageRequest_Tag : string;
  SendMessageRequest_ReplyTo : string;
  SendMessageRequest_PlainBody : string;
  SendMessageRequest_HTMLBody : string;
  SendMessageRequest_Attachments : slice Attachment;
  SendMessageRequest_Headers : gomap string;
  SendMessageRequest_Bounce : bool
}.

Definition SendMessageRequest_wires : list (wire SendMessageRequest) := [
  Wire "to" false SendMessageRequest_To (fun x s =>
    mkSendMessageRequest x (SendMessageRequest_CC s) (SendMessageRequest_BCC s)
    (SendMessageRequest_From s) (SendMessageRequest_Sender s)
    (SendMessageRequest_Subject s) (SendMessageRequest_Tag s)
    (SendMessageRequest_ReplyTo s) (SendMessageRequest_PlainBody s)
    (SendMessageRequest_HTMLBody s) (SendMessageRequest_Attachments s)
    (SendMessageRequest_Headers s) (SendMessageRequest_Bounce s));
  Wire "cc" true SendMessageRequest_CC (fun x s =>
    mkSendMessageRequest (SendMessageRequest_To s) x (SendMessageRequest_BCC s)
    (SendMessageRequest_From s) (SendMessageRequest_Sender s)
    (SendMessageRequest_Subject s) (SendMessageRequest_Tag s)
    (SendMessageRequest_ReplyTo s) (SendMessageRequest_PlainBody s)
    (SendMessageRequest_HTMLBody s) (SendMessageRequest_Attachments s)
    (SendMessageRequest_Headers s) (SendMessageRequest_Bounce s));
  Wire "bcc" true SendMessageRequest_BCC (fun x s =>
    mkSendMessageRequest (SendMessageRequest_To s) (SendMessageRequest_CC s) x
    (SendMessageRequest_From s) (SendMessageRequest_Sender s)
    (SendMessageRequest_Subject s) (SendMessageRequest_Tag s)
    (SendMessageRequest_ReplyTo s) (SendMessageRequest_PlainBody s)
    (SendMessageRequest_HTMLBody s) (SendMessageRequest_Attachments s)
    (SendMessageRequest_Headers s) (SendMessageRequest_Bounce s));
  Wire "from" false SendMessageRequest_From (fun x s =>
    mkSendMessageRequest (SendMessageRequest_To s) (SendMessageRequest_CC s)
    (SendMessageRequest_BCC s) x (SendMessageRequest_Sender s)
    (SendMessageRequest_Subject s) (SendMessageRequest_Tag s)
    (SendMessageRequest_ReplyTo s) (SendMessageRequest_PlainBody s)
    (SendMessageRequest_HTMLBody s) (SendMessageRequest_Attachments s)
    (SendMessageRequest_Headers s) (SendMessageRequest_Bounce s));
  Wire "sender" true SendMessageRequest_Sender (fun x s =>
    mkSendMessageRequest (SendMessageRequest_To s) (SendMessageRequest_CC s)
    (SendMessageRequest_BCC s) (SendMessageRequest_From s) x
    (SendMessageRequest_Subject s) (SendMessageRequest_Tag s)
    (SendMessageRequest_ReplyTo s) (SendMessageRequest_PlainBody s)
    (SendMessageRequest_HTMLBody s) (SendMessageRequest_Attachments s)
    (SendMessageRequest_Headers s) (SendMessageRequest_Bounce s));
  Wire "subject" false SendMessageRequest_Subject (fun x s =>
    mkSendMessageRequest (SendMessageRequest_To s) (SendMessageRequest_CC s)
    (SendMessageRequest_BCC s) (SendMessageRequest_From s)
    (SendMessageRequest_Sender s) x (SendMessageRequest_Tag s)
    (SendMessageRequest_ReplyTo s) (SendMessageRequest_PlainBody s)
    (SendMessageRequest_HTMLBody s) (SendMessageRequest_Attachments s)
    (SendMessageRequest_Headers s) (SendMessageRequest_Bounce s));
  Wire "tag" true SendMessageRequest_Tag (fun x s =>
    mkSendMessageRequest (SendMessageRequest_To s) (SendMessageRequest_CC s)
    (SendMessageRequest_BCC s) (SendMessageRequest_From s)
    (SendMessageRequest_Sender s) (SendMessageRequest_Subject s) x
    (SendMessageRequest_ReplyTo s) (SendMessageRequest_PlainBody s)
    (SendMessageRequest_HTMLBody s) (SendMessageRequest_Attachments s)
    (SendMessageRequest_Headers s) (SendMessageRequest_Bounce s));
  Wire "reply_to" true SendMessageRequest_ReplyTo (fun x s =>
    mkSendMessageRequest (SendMessageRequest_To s) (SendMessageRequest_CC s)
    (SendMessageRequest_BCC s) (SendMessageRequest_From s)
    (SendMessageRequest_Sender s) (SendMessageRequest_Subject s)
    (SendMessageRequest_Tag s) x (SendMessageRequest_PlainBody s)
    (SendMessageRequest_HTMLBody s) (SendMessageRequest_Attachments s)
    (SendMessageRequest_Headers s) (SendMessageRequest_Bounce s));
  Wire "plain_body" true SendMessageRequest_PlainBody (fun x s =>
    mkSendMessageRequest (SendMessageRequest_To s) (SendMessageRequest_CC s)
    (SendMessageRequest_BCC s) (SendMessageRequest_From s)
    (SendMessageRequest_Sender s) (SendMessageRequest_Subject s)
    (SendMessageRequest_Tag s) (SendMessageRequest_ReplyTo s) x
    (SendMessageRequest_HTMLBody s) (SendMessageRequest_Attachments s)
    (SendMessageRequest_Headers s) (SendMessageRequest_Bounce s));
  Wire "html_body" true SendMessageRequest_HTMLBody (fun x s =>
    mkSendMessageRequest (SendMessageRequest_To s) (SendMessageRequest_CC s)
    (SendMessageRequest_BCC s) (SendMessageRequest_From s)
    (SendMessageRequest_Sender s) (SendMessageRequest_Subject s)
    (SendMessageRequest_Tag s) (SendMessageRequest_ReplyTo s)
    (SendMessageRequest_PlainBody s) x (SendMessageRequest_Attachments s)
    (SendMessageRequest_Headers s) (SendMessageRequest_Bounce s));
  Wire "attachments" true SendMessageRequest_Attachments (fun x s =>
    mkSendMessageRequest (SendMessageRequest_To s) (SendMessageRequest_CC s)
    (SendMessageRequest_BCC s) (SendMessageRequest_From s)
    (SendMessageRequest_Sender s) (SendMessageRequest_Subject s)
    (SendMessageRequest_Tag s) (SendMessageRequest_ReplyTo s)
    (SendMessageRequest_PlainBody s) (SendMessageRequest_HTMLBody s) x
    (SendMessageRequest_Headers s) (SendMessageRequest_Bounce s));
  Wire "headers" true SendMessageRequest_Headers (fun x s =>
    mkSendMessageRequest (SendMessageRequest_To s) (SendMessageRequest_CC s)
    (SendMessageRequest_BCC s) (SendMessageRequest_From s)
    (SendMessageRequest_Sender s) (SendMessageRequest_Subject s)
    (SendMessageRequest_Tag s) (SendMessageRequest_ReplyTo s)
    (SendMessageRequest_PlainBody s) (SendMessageRequest_HTMLBody s)
    (SendMessageRequest_Attachments s) x (SendMessageRequest_Bounce s));
  Wire "bounce" true SendMessageRequest_Bounce (fun x s =>
    mkSendMessageRequest (SendMessageRequest_To s) (SendMessageRequest_CC s)
    (SendMessageRequest_BCC s) (SendMessageRequest_From s)
    (SendMessageRequest_Sender s) (SendMessageRequest_Subject s)
    (SendMessageRequest_Tag s) (SendMessageRequest_ReplyTo s)
    (SendMessageRequest_PlainBody s) (SendMessageRequest_HTMLBody s)
    (SendMessageRequest_Attachments s) (SendMessageRequest_Headers s) x)
].

Definition SendMessageRequest_fields : list (field SendMessageRequest) := wire_in <$> SendMessageRequest_wires.

#[export] Instance SendMessageRequest_Unmarshaler : Unmarshaler SendMessageRequest :=
  {| zero :=
       mkSendMessageRequest (zero (slice string)) (zero (slice string))
       (zero (slice string)) (zero string) (zero string) (zero string) (zero string)
       (zero string) (zero string) (zero string) (zero (slice Attachment))
       (zero (gomap string)) (zero bool);
     decode := decode_struct "SendMessageRequest" SendMessageRequest_fields |}.

Definition SendMessageRequest_out_fields : list (out_field SendMessageRequest) :=
  wire_out <$> SendMessageRequest_wires.

#[export] Instance SendMessageRequest_Marshaler : Marshaler SendMessageRequest :=
  {| encode := encode_struct SendMessageRequest_out_fields; is_empty_value _ := false |}.

#[export] Instance SendMessageRequest_Wired : Wired SendMessageRequest :=
  {| sound := struct_sound SendMessageRequest_wires (zero SendMessageRequest);
     depth := struct_depth SendMessageRequest_wires |}.

(** The request of [SendRaw]. *)
Record SendRawRequest : Type := mkSendRawRequest {
  SendRawRequest_MailFrom : string;
  SendRawRequest_RcptTo : slice string;
  SendRawRequest_Data : string;
  SendRawRequest_Bounce : bool
}.

Definition SendRawRequest_wires : list (wire SendRawRequest) := [
  Wire "mail_from" false SendRawRequest_MailFrom (fun x s =>
    mkSendRawRequest x (SendRawRequest_RcptTo s) (SendRawRequest_Data s)
    (SendRawRequest_Bounce s));
  Wire "rcpt_to" false SendRawRequest_RcptTo (fun x s =>
    mkSendRawRequest (SendRawRequest_MailFrom s) x (SendRawRequest_Data s)
    (SendRawRequest_Bounce s));
  Wire "data" false SendRawRequest_Data (fun x s =>
    mkSendRawRequest (SendRawRequest_MailFrom s) (SendRawRequest_RcptTo s) x
    (SendRawRequest_Bounce s));
  Wire "bounce" true SendRawRequest_Bounce (fun x s =>
    mkSendRawRequest (SendRawRequest_MailFrom s) (SendRawRequest_RcptTo s)
    (SendRawRequest_Data s) x)
].

Definition SendRawRequest_fields : list (field SendRawRequest) := wire_in <$> SendRawRequest_wires.

#[export] Instance SendRawRequest_Unmarshaler : Unmarshaler SendRawRequest :=
  {| zero :=
       mkSendRawRequest (zero string) (zero (slice string)) (zero string) (zero bool);
     decode := decode_struct "SendRawRequest" SendRawRequest_fields |}.

Definition SendRawRequest_out_fields : list (out_field SendRawRequest) :=
  wire_out <$> SendRawRequest_wires.

#[export] Instance SendRawRequest_Marshaler : Marshaler SendRawRequest :=
  {| encode := encode_struct SendRawRequest_out_fields; is_empty_value _ := false |}.

#[export] Instance SendRawRequest_Wired : Wired SendRawRequest :=
  {| sound := struct_sound SendRawRequest_wires (zero SendRawRequest);
     depth := struct_depth SendRawRequest_wires |}.

(** What both send operations answer. *)
Record SendMessageResponse : Type := mkSendMessageResponse {
  SendMessageResponse_MessageID : Z;
  SendMessageResponse_Token : string
}.

Definition SendMessageResponse_wires : list (wire SendMessageResponse) := [
  Wire "message_id" false SendMessageResponse_MessageID (fun x s =>
    mkSendMessageResponse x (SendMessageResponse_Token s));
  Wire "token" false SendMessageResponse_Token (fun x s =>
    mkSendMessageResponse (SendMessageResponse_MessageID s) x)
].

Definition SendMessageResponse_fields : list (field SendMessageResponse) := wire_in <$> SendMessageResponse_wires.

#[export] Instance SendMessageResponse_Unmarshaler : Unmarshaler SendMessageResponse :=
  {| zero :=
       mkSendMessageResponse (zero Z) (zero string);
     decode := decode_struct "SendMessageResponse" SendMessageResponse_fields |}.

Definition SendMessageResponse_out_fields : list (out_field SendMessageResponse) :=
  wire_out <$> SendMessageResponse_wires.

#[export] Instance SendMessageResponse_Marshaler : Marshaler SendMessageResponse :=
  {| encode := encode_struct SendMessageResponse_out_fields; is_empty_value _ := false |}.

#[export] Instance SendMessageResponse_Wired : Wired SendMessageResponse :=
  {| sound := struct_sound SendMessageResponse_wires (zero SendMessageResponse);
     depth := struct_depth SendMessageResponse_wires |}.

(** * Requests that survive the wire

    The conditions under which a request is read back as it was written. *)

(** A slice or a map under [omitempty]: nil, or not empty. *)
Definition kept_or_nil {A} (s : slice A) : Prop := s <> Slice [].
Definition kept_or_nil_map {A} (m : gomap A) : Prop := m <> Map ∅.

(** The strings of the request are valid UTF-8, the size of an attachment
    is an [int], and no list or map that the tag lets out when empty is
    empty without being nil. *)
Definition SendMessageRequest_valid (r : SendMessageRequest) : Prop :=
  sound (SendMessageRequest_To r) /\
  sound (SendMessageRequest_CC r) /\ kept_or_nil (SendMessageRequest_CC r) /\
  sound (SendMessageRequest_BCC r) /\ kept_or_nil (SendMessageRequest_BCC r) /\
  sound (SendMessageRequest_From r) /\ sound (SendMessageRequest_Sender r) /\
  sound (SendMessageRequest_Subject r) /\ sound (SendMessageRequest_Tag r) /\
  sound (SendMessageRequest_ReplyTo r) /\ sound (SendMessageRequest_PlainBody r) /\
  sound (SendMessageRequest_HTMLBody r) /\
  sound (SendMessageRequest_Attachments r) /\
  kept_or_nil (SendMessageRequest_Attachments r) /\
  sound (SendMessageRequest_Headers r) /\ kept_or_nil_map (SendMessageRequest_Headers r).

Definition SendRawRequest_valid (r : SendRawRequest) : Prop :=
  sound (SendRawRequest_MailFrom r) /\ sound (SendRawRequest_RcptTo r) /\
  sound (SendRawRequest_Data r).

Definition SendMessageResponse_valid (r : SendMessageResponse) : Prop :=
  sound (SendMessageResponse_MessageID r) /\ sound (SendMessageResponse_Token r).

(** * What the decoder stores

    The invariant of each struct that is decoded from a reply: its
    integers are within 64 bits, its strings are valid UTF-8, its numbers
    are finite, and what it keeps undecoded is the text of a value. *)

Definition Attachment_typed (a : Attachment) : Prop :=
  valid_utf8 (Attachment_Name a) = true /\ valid_utf8 (Attachment_ContentType a) = true /\
  valid_utf8 (Attachment_Data a) = true /\ int_range (Attachment_Size a).

Definition Message_typed (m : Message) : Prop :=
  int_range (Message_ID m) /\ valid_utf8 (Message_Token m) = true /\
  raw_typed (Message_Inspection m) /\
  valid_utf8 (Message_PlainBody m) = true /\ valid_utf8 (Message_HTMLBody m) = true /\
  Forall Attachment_typed (elems (Message_Attachments m)) /\
  map_Forall (fun k x => valid_utf8 k = true /\ valid_utf8 x = true)
    (entries (Message_Headers m)) /\
  valid_utf8 (Message_RawMessage m) = true.

Definition Delivery_typed `{TimeParser} (d : Delivery) : Prop :=
  int_range (Delivery_ID d) /\ valid_utf8 (Delivery_Status d) = true /\
  valid_utf8 (Delivery_Details d) = true /\ valid_utf8 (Delivery_Output d) = true /\
  int_range (Delivery_LogID d) /\ finite (Delivery_Time d).

Definition SendMessageResponse_typed (r : SendMessageResponse) : Prop :=
  int_range (SendMessageResponse_MessageID r) /\
  valid_utf8 (SendMessageResponse_Token r) = true.

(** * The requests always encode

    No field of a request has a type that [json.Marshal] refuses. *)

(** Totality of a struct from the totality of the types of its fields. *)
Ltac struct_total fs :=
  intros s; apply (encode_struct_total fs);
  repeat constructor; intros; apply getter_total.

#[export] Instance Attachment_Total : Total Attachment.
Proof. struct_total Attachment_out_fields. Qed.
#[export] Instance SendMessageRequest_Total : Total SendMessageRequest.
Proof. struct_total SendMessageRequest_out_fields. Qed.
#[export] Instance SendRawRequest_Total : Total SendRawRequest.
Proof. struct_total SendRawRequest_out_fields. Qed.

(** * The requests survive the wire *)

Lemma Attachment_lawful : lawful Attachment_wires (zero Attachment).
Proof. struct_lawful. Qed.

#[export] Instance Attachment_Faithful : Faithful Attachment.
Proof. by apply (struct_faithful Attachment_wires "Attachment" Attachment_lawful). Qed.

Lemma SendRawRequest_lawful : lawful SendRawRequest_wires (zero SendRawRequest).
Proof. struct_lawful. Qed.

#[export] Instance SendRawRequest_Faithful : Faithful SendRawRequest.
Proof.
  by apply (struct_faithful SendRawRequest_wires "SendRawRequest" SendRawRequest_lawful).
Qed.

Lemma SendMessageResponse_lawful :
  lawful SendMessageResponse_wires (zero SendMessageResponse).
Proof. struct_lawful. Qed.

#[export] Instance SendMessageResponse_Faithful : Faithful SendMessageResponse.
Proof.
  by apply (struct_faithful SendMessageResponse_wires "SendMessageResponse" SendMessageResponse_lawful).
Qed.

Lemma SendMessageRequest_lawful :
  lawful SendMessageRequest_wires (zero SendMessageRequest).
Proof. struct_lawful. Qed.

#[export] Instance SendMessageRequest_Faithful : Faithful SendMessageRequest.
Proof.
  by apply (struct_faithful SendMessageRequest_wires "SendMessageRequest" SendMessageRequest_lawful).
Qed.

#[export] Instance SendMessageResponse_Total : Total SendMessageResponse.
Proof. struct_total SendMessageResponse_out_fields. Qed.

(** ** Validity is soundness *)

Lemma empty_slice {A} (s : slice A) :
  kept_or_nil s -> bool_decide (len s = 0) = true -> s = SliceNil.
Proof. intros Hs Hl%bool_decide_eq_true. by destruct s as [|[]]. Qed.

Lemma empty_map {A} (m : gomap A) :
  kept_or_nil_map m -> bool_decide (size (entries m) = 0) = true -> m = MapNil.
Proof.
  intros Hm Hl%bool_decide_eq_true. destruct m as [|g]; [done|].
  apply map_size_empty_inv in Hl. simpl in Hl. by subst.
Qed.

Lemma empty_string (s : string) : bool_decide (s = EmptyString) = true -> s = EmptyString.
Proof. apply bool_decide_eq_true. Qed.

Lemma empty_bool (b : bool) : negb b = true -> b = false.
Proof. by destruct b. Qed.

#[export] Hint Resolve empty_slice empty_map empty_string empty_bool : postal.

Lemma SendRawRequest_valid_sound r : SendRawRequest_valid r -> sound r.
Proof.
  intros (? & ? & ?). forall_wires ltac:(split; [done|first [done|by auto with postal]]).
Qed.

Lemma SendMessageResponse_valid_sound r : SendMessageResponse_valid r -> sound r.
Proof.
  intros (? & ?). forall_wires ltac:(split; [done|first [done|by auto with postal]]).
Qed.

Lemma SendMessageRequest_valid_sound r : SendMessageRequest_valid r -> sound r.
Proof.
  intros (?&?&?&?&?&?&?&?&?&?&?&?&?&?&?&?).
  forall_wires ltac:(split; [done|first [done|by auto with postal]]).
Qed.

(** C25. A valid request of [SendMessage] survives the wire: [json.Marshal]
    writes a text for it, and what [json.Unmarshal] reads from that text
    into an empty request is the request, field by field. *)
Theorem SendMessageRequest_survives (req : SendMessageRequest) :
  SendMessageRequest_valid req ->
  exists text, Marshal req = Ok text /\
               Unmarshal text (zero SendMessageRequest) = Ok req.
Proof.
  intros Hr%SendMessageRequest_valid_sound. apply survives; [done|by apply Nat.leb_le].
Qed.

Lemma SendMessageRequest_survives_witness :
  exists text,
    Marshal (mkSendMessageRequest (Slice ["recipient@example.com"]) SliceNil SliceNil
               "test@example.com" "" "Test Subject" "" "" "Test Body" ""
               (Slice [mkAttachment "a.txt" "text/plain" "aGk=" 2]) MapNil true)
    = Ok text /\
    Unmarshal text (zero SendMessageRequest)
    = Ok (mkSendMessageRequest (Slice ["recipient@example.com"]) SliceNil SliceNil
            "test@example.com" "" "Test Subject" "" "" "Test Body" ""
            (Slice [mkAttachment "a.txt" "text/plain" "aGk=" 2]) MapNil true).
Proof.
  apply SendMessageRequest_survives.
  repeat split; try done; by repeat constructor.
Defined.

(** C26. A valid request of [SendRaw] survives the wire: the text written
    for it reads back, into an empty request, as the request. *)
Theorem SendRawRequest_survives (req : SendRawRequest) :
  SendRawRequest_valid req ->
  exists text, Marshal req = Ok text /\ Unmarshal text (zero SendRawRequest) = Ok req.
Proof.
  intros Hr%SendRawRequest_valid_sound. apply survives; [done|by apply Nat.leb_le].
Qed.

Lemma SendRawRequest_survives_witness :
  exists text,
    Marshal (mkSendRawRequest "test@example.com" (Slice ["recipient@example.com"])
               "U3ViamVjdDogVGVzdA==" false) = Ok text /\
    Unmarshal text (zero SendRawRequest)
    = Ok (mkSendRawRequest "test@example.com" (Slice ["recipient@example.com"])
            "U3ViamVjdDogVGVzdA==" false).
Proof. apply SendRawRequest_survives. repeat split; by repeat constructor. Defined.

(** What the server answers to a send operation survives the wire. *)
Lemma SendMessageResponse_survives (resp : SendMessageResponse) :
  SendMessageResponse_valid resp ->
  exists text, Marshal resp = Ok text /\
               Unmarshal text (zero SendMessageResponse) = Ok resp.
Proof.
  intros Hr%SendMessageResponse_valid_sound. apply survives; [done|by apply Nat.leb_le].
Qed.

(** * The decoder keeps the invariants *)

#[export, refine] Instance MessageStatus_Typed : Typed MessageStatus := {| typed _ := True |}.
Proof. all: done. Defined.

#[export, refine] Instance MessageDetails_Typed : Typed MessageDetails := {| typed _ := True |}.
Proof. all: done. Defined.

#[export, refine] Instance Attachment_Typed : Typed Attachment :=
  {| typed := Attachment_typed |}.
Proof.
  - by repeat split.
  - intros v old new. apply decode_struct_keeps.
    unfold Attachment_fields, Attachment_wires. fields_keep Attachment_typed.
Defined.

#[export, refine] Instance Message_Typed : Typed Message := {| typed := Message_typed |}.
Proof.
  - repeat split; try done; by apply List.Forall_nil.
  - intros v old new. apply decode_struct_keeps.
    unfold Message_fields. fields_keep Message_typed.
Defined.

#[export, refine] Instance Delivery_Typed `{TimeParser} : Typed Delivery :=
  {| typed := Delivery_typed |}.
Proof.
  - by repeat split.
  - intros v old new. apply decode_struct_keeps.
    unfold Delivery_fields. fields_keep @Delivery_typed.
Defined.

#[export, refine] Instance SendMessageResponse_Typed : Typed SendMessageResponse :=
  {| typed := SendMessageResponse_typed |}.
Proof.
  - by repeat split.
  - intros v old new. apply decode_struct_keeps.
    unfold SendMessageResponse_fields, SendMessageResponse_wires.
    fields_keep SendMessageResponse_typed.
Defined.
