(* ===== verification/Http.v ===== *)
(** * Http: the part of [net/http] the client calls

    A request is built by [NewRequest], gets its headers by [Header_Set] and
    is sent by [http_Client_Do].  What the network and the server do is a
    function from the request to an [exchange]: either no response, or a
    status and a body, each with the time at which it is complete.  The
    client's [Timeout] is a deadline on both.

    Of the checks of [url.Parse], the one on control characters is modelled.
    Redirects and cookies are not: the exchange is the last one. *)

From Stdlib Require Import ZArith Lia Ascii String.
From stdpp Require Import base tactics option list strings gmap.
From S2P Require Import Prelude.

Local Open Scope Z_scope.

(** * [time.Duration]: nanoseconds in 64 bits *)

Definition Duration : Type := Z.

Definition Nanosecond : Duration := 1.
Definition Microsecond : Duration := 1000 * Nanosecond.
Definition Millisecond : Duration := 1000 * Microsecond.
Definition Second : Duration := 1000 * Millisecond.

(** * Status codes and methods *)

Definition StatusOK : Z := 200.
Definition StatusInternalServerError : Z := 500.
Definition MethodPost : string := "POST".

(** * Headers *)

(** [httpguts.IsTokenRune]: the bytes of an HTTP token. *)
Definition is_token_byte (c : ascii) : bool :=
  is_upper c || is_lower c || is_digit c
  || bool_decide (c ∈ ["!"; "#"; "$"; "%"; "&"; "'"; "*"; "+"; "-"; "."; "^";
                        "_"; "`"; "|"; "~"]%char).

Fixpoint forallb_string (p : ascii -> bool) (s : string) : bool :=
  match s with
  | EmptyString => true
  | String c s' => p c && forallb_string p s'
  end.

(** The first letter and the letters after a hyphen in capitals, the others
    in lower case. *)
Fixpoint canonical_go (upper : bool) (s : string) : string :=
  match s with
  | EmptyString => EmptyString
  | String c s' =>
      String (if upper then to_upper c else to_lower c)
             (canonical_go (bool_decide (c = "-"%char)) s')
  end.

(** [textproto.CanonicalMIMEHeaderKey]: a key that holds a byte outside the
    tokens is returned as it is. *)
Definition CanonicalMIMEHeaderKey (s : string) : string :=
  if forallb_string is_token_byte s then canonical_go true s else s.

Abbreviation Header := (gmap string (list string)).

Definition Header_Set (h : Header) (key val : string) : Header :=
  <[CanonicalMIMEHeaderKey key := [val]]> h.

Definition Header_Get (h : Header) (key : string) : string :=
  match h !! CanonicalMIMEHeaderKey key with
  | Some (v :: _) => v
  | _ => EmptyString
  end.

(** * Requests *)

Record Request : Type := mkRequest {
  Request_Method : string;
  Request_URL : string;
  Request_Header : Header;
  Request_Body : option string
}.

Definition with_header (key val : string) (r : Request) : Request :=
  mkRequest (Request_Method r) (Request_URL r)
            (Header_Set (Request_Header r) key val) (Request_Body r).

(** [stringContainsCTLByte]. *)
Definition is_ctl (c : ascii) : bool :=
  (code c <? 32)%nat || bool_decide (code c = 127%nat).

Fixpoint existsb_string (p : ascii -> bool) (s : string) : bool :=
  match s with
  | EmptyString => false
  | String c s' => p c || existsb_string p s'
  end.

Definition valid_method (m : string) : bool :=
  negb (bool_decide (m = EmptyString)) && forallb_string is_token_byte m.

Inductive request_error : Type :=
| InvalidMethod (m : string)
| InvalidURL (url : string).

(** An empty method means GET. *)
Definition method_or_get (method : string) : string :=
  if bool_decide (method = EmptyString) then "GET" else method.

(** [http.NewRequest(method, url, body)]. *)
Definition NewRequest (method url : string) (body : option string)
  : result request_error Request :=
  let m := method_or_get method in
  if negb (valid_method m) then Err (InvalidMethod m)
  else if existsb_string is_ctl url then Err (InvalidURL url)
  else Ok (mkRequest m url ∅ body).

(** * The exchange with the server *)

Record reply : Type := mkReply {
  reply_at : Duration;          (* when status and headers have arrived *)
  reply_status : Z;
  reply_body : string;
  reply_body_at : Duration;     (* when the last byte of the body has arrived *)
  reply_body_error : option string   (* the connection breaks after the body's bytes *)
}.

Inductive exchange : Type :=
| NetError (msg : string)
| Replied (r : reply).

(** [http.RoundTripper]. *)
Definition RoundTripper : Type := Request -> exchange.

Record http_Client : Type := mk_http_Client {
  http_Client_Transport : option RoundTripper;
  http_Client_Timeout : Duration
}.

(** [*url.Error]: the error of [http.Client.Do]. *)
Record url_Error : Type := mk_url_Error {
  url_Error_Op : string;
  url_Error_URL : string;
  url_Error_Err : string
}.

Definition timeout_awaiting_headers : string :=
  "context deadline exceeded (Client.Timeout exceeded while awaiting headers)".
Definition timeout_reading_body : string :=
  "context deadline exceeded (Client.Timeout or context cancellation while reading body)".

(** The deadline of [http.Client]: a [Timeout] that is not positive sets
    none. *)
Definition expired (timeout at_ : Duration) : bool :=
  (0 <? timeout) && (timeout <? at_).

(** [urlErrorOp]: the method with its first letter only in capitals. *)
Definition urlErrorOp (method : string) : string :=
  match method with
  | EmptyString => "Get"
  | String c s => String c (string_map to_lower s)
  end.

(** A response as [http.Client.Do] returns it: the status, and the body
    still to be read. *)
Record http_Response : Type := mk_http_Response {
  http_Response_StatusCode : Z;
  http_Response_Body : result string string
}.

(** What reading the body of [r] to its end fails with, if it fails: the
    deadline passes first, or the connection breaks. *)
Definition read_error (c : http_Client) (r : reply) : option string :=
  if expired (http_Client_Timeout c) (reply_body_at r) then Some timeout_reading_body
  else reply_body_error r.

Section transport.
Variable DefaultTransport : RoundTripper.

Definition transport_of (c : http_Client) : RoundTripper :=
  default DefaultTransport (http_Client_Transport c).

(** [c.Do(req)]. *)
Definition http_Client_Do (c : http_Client) (req : Request)
  : result url_Error http_Response :=
  let fail msg :=
    Err (mk_url_Error (urlErrorOp (Request_Method req)) (Request_URL req) msg) in
  match transport_of c req with
  | NetError msg => fail msg
  | Replied r =>
      if expired (http_Client_Timeout c) (reply_at r) then fail timeout_awaiting_headers
      else
        Ok (mk_http_Response (reply_status r)
              (match read_error c r with
               | Some e => Err e
               | None => Ok (reply_body r)
               end))
  end.
End transport.

(** [io.ReadAll(resp.Body)]. *)
Definition ReadAll (resp : http_Response) : result string string :=
  http_Response_Body resp.

(** The status, the headers and the whole body of [r] reach a client with
    the deadline of [c]. *)
Definition received (c : http_Client) (r : reply) : Prop :=
  expired (http_Client_Timeout c) (reply_at r) = false /\ read_error c r = None.

#[export] Instance received_dec c r : Decision (received c r).
Proof. unfold received. apply _. Defined.

(** * Laws *)

Lemma Header_Get_Set h k v : Header_Get (Header_Set h k v) k = v.
Proof. unfold Header_Get, Header_Set. by rewrite lookup_insert_eq. Qed.

Lemma Header_Get_Set_ne h k k' v :
  CanonicalMIMEHeaderKey k <> CanonicalMIMEHeaderKey k' ->
  Header_Get (Header_Set h k v) k' = Header_Get h k'.
Proof. intros Hne. unfold Header_Get, Header_Set. by rewrite lookup_insert_ne. Qed.

Lemma expired_no_timeout timeout at_ : timeout <= 0 -> expired timeout at_ = false.
Proof. intros H. unfold expired. destruct (Z.ltb_spec 0 timeout); [lia|done]. Qed.

Lemma expired_in_time timeout at_ : at_ <= timeout -> expired timeout at_ = false.
Proof.
  intros H. unfold expired. destruct (Z.ltb_spec timeout at_); [lia|].
  apply andb_false_r.
Qed.

Lemma NewRequest_Ok method url body req :
  NewRequest method url body = Ok req <->
  valid_method (method_or_get method) = true /\
  existsb_string is_ctl url = false /\
  req = mkRequest (method_or_get method) url ∅ body.
Proof.
  unfold NewRequest. destruct (valid_method _); simpl.
  - destruct (existsb_string _ _); split; try done.
    + by intros (_ & ? & _).
    + by intros [= <-].
    + by intros (_ & _ & ->).
  - split; [done|by intros [? _]].
Qed.

Lemma NewRequest_Err method url body e :
  NewRequest method url body = Err e <->
  (e = InvalidMethod (method_or_get method) /\
   valid_method (method_or_get method) = false) \/
  (e = InvalidURL url /\ valid_method (method_or_get method) = true /\
   existsb_string is_ctl url = true).
Proof.
  unfold NewRequest. destruct (valid_method _); simpl.
  - destruct (existsb_string _ _); split; try done.
    + intros [= <-]; auto.
    + by intros [[_ ?]|[-> _]].
    + by intros [[_ ?]|(_ & _ & ?)].
  - split; [intros [= <-]; auto|]. by intros [[-> _]|(_ & ? & _)].
Qed.

Lemma method_or_get_valid method :
  valid_method method = true -> method_or_get method = method.
Proof. unfold method_or_get. by case_bool_decide; [subst|]. Qed.

Section transport_laws.
Variable DefaultTransport : RoundTripper.
Implicit Types (c : http_Client) (req : Request) (r : reply).

(** [Do] fails exactly when the transport does or the headers come late, and
    then with the operation and the URL of the request. *)
Lemma http_Client_Do_Err c req e :
  http_Client_Do DefaultTransport c req = Err e <->
  exists msg,
    e = mk_url_Error (urlErrorOp (Request_Method req)) (Request_URL req) msg /\
    (transport_of DefaultTransport c req = NetError msg \/
     exists r, transport_of DefaultTransport c req = Replied r /\
               expired (http_Client_Timeout c) (reply_at r) = true /\
               msg = timeout_awaiting_headers).
Proof.
  unfold http_Client_Do. destruct (transport_of _ _ _) as [msg|r].
  - split; [intros [= <-]; eauto|]. by intros (? & -> & [[= ->]|(? & ? & _)]).
  - destruct (expired _ (reply_at r)) eqn:Hexp.
    + split; [intros [= <-]; eauto 10|].
      by intros (? & -> & [?|(? & _ & _ & ->)]).
    + split; [done|]. intros (? & _ & [?|(? & [= <-] & ? & _)]); congruence.
Qed.

(** [Do] returns a response exactly when a reply comes before the deadline;
    the response has the status of the reply, and its body reads to the end
    unless [read_error] says how it fails. *)
Lemma http_Client_Do_Ok c req resp :
  http_Client_Do DefaultTransport c req = Ok resp <->
  exists r, transport_of DefaultTransport c req = Replied r /\
            expired (http_Client_Timeout c) (reply_at r) = false /\
            http_Response_StatusCode resp = reply_status r /\
            ReadAll resp = match read_error c r with
                           | Some e => Err e
                           | None => Ok (reply_body r)
                           end.
Proof.
  unfold http_Client_Do, ReadAll. destruct (transport_of _ _ _) as [msg|r].
  { split; [done|by intros (? & ? & _)]. }
  destruct (expired _ (reply_at r)) eqn:H1; split; try done.
  - intros (? & [= <-] & ? & _). congruence.
  - intros [= <-]. eauto.
  - intros (? & [= <-] & _ & ? & ?). destruct resp; simpl in *. congruence.
Qed.

(** A reply that is [received] is what [Do] returns. *)
Lemma http_Client_Do_received c req r :
  transport_of DefaultTransport c req = Replied r -> received c r ->
  http_Client_Do DefaultTransport c req
  = Ok (mk_http_Response (reply_status r) (Ok (reply_body r))).
Proof.
  intros Ht (H1 & H2). unfold http_Client_Do. by rewrite Ht, H1, H2.
Qed.

End transport_laws.
