(* ===== verification/Fixtures.v ===== *)
(** * Fixtures: the servers and the bodies of client_test.go

    A test of client_test.go (src/unnamed/part_002) starts a server with
    [httptest.NewServer] whose handler writes one status and one body, and
    points a client at it.  Here the server is the transport [serve status
    body]: it answers every request at once with that status and body.

    A body is written as in the Go source, with ['] for the double quote;
    [lit] puts the double quotes back. *)

From Stdlib Require Import ZArith Lia Ascii String.
From stdpp Require Import base tactics option list strings gmap.
From S2P Require Import Prelude Json JsonParse Http.

Local Open Scope Z_scope.

(** The address of a test server. *)
Definition server_URL : string := "http://127.0.0.1:46025".

(** The handler writes its status and its body as soon as it is called. *)
Definition serve (status : Z) (body : string) : RoundTripper :=
  fun _ => Replied (mkReply Millisecond status body Millisecond None).

(** The server of [TestClientDoReadBodyError]: the connection is closed
    after a part of the body. *)
Definition serve_broken (status : Z) (body : string) : RoundTripper :=
  fun _ => Replied (mkReply Millisecond status body Millisecond
                      (Some "unexpected EOF")).

(** [mockTransport]: a transport that always fails. *)
Definition mockTransport : RoundTripper :=
  fun _ => NetError "mock transport error".

(** A server that answers after [delay]. *)
Definition serve_late (delay : Duration) (status : Z) (body : string) : RoundTripper :=
  fun _ => Replied (mkReply delay status body delay None).

(** The body of [TestClientDo]. *)
Definition success_body : string := lit "{
			'status': 'success',
			'time': 0.123,
			'flags': {},
			'data': {'test': 'data'}
		}".

(** The body of [TestClientDoError] and of [TestClientDoHTTPError]. *)
Definition error_body : string := lit "{
			'status': 'error',
			'time': 0.123,
			'flags': {},
			'data': {'error': 'test error'},
			'error_code': 'test-error',
			'message': 'Test error message'
		}".

(** The body of [TestClientDoReadBodyError], cut short. *)
Definition partial_body : string := lit "{'status':'success','time':0.123,'flags':{}".

(** The body of [TestClientDoUnmarshalResponseError]. *)
Definition invalid_success_body : string :=
  lit "{'status':'success','time':0.123,'flags':{},'data':invalid-json}".

(** The body of [TestClientDoUnmarshalErrorResponseError] and of
    [TestClientDoHTTPErrorUnmarshalError]. *)
Definition invalid_error_body : string :=
  lit "{'status':'error','time':0.123,'flags':{},'data':invalid-json}".

(** The URL of [TestClientDoRequestCreationError], with the byte 0x7F. *)
Definition invalid_URL : string :=
  "http://invalid-url-with-" +:+ String (byte_of 127) "-character".

(** The float64 nearest to 0.123, which the tests compare [Time] with. *)
Definition float_0_123 : float64 :=
  SpecFloat.S754_finite false 8863084066665136 (-56).

(** * The bodies of messages_test.go (src/README.md from line 314) *)

(** [TestGetMessage]. *)
Definition message_body : string := lit "{
			'status': 'success',
			'time': 0.123,
			'flags': {},
			'data': {
				'id': 123,
				'token': 'test-token'
			}
		}".

(** [TestGetMessageError] and [TestGetMessageDeliveriesError]. *)
Definition not_found_body : string := lit "{
			'status': 'error',
			'time': 0.123,
			'flags': {},
			'data': {'error': 'test error'},
			'error_code': 'message-not-found',
			'message': 'Message not found'
		}".

(** The four tests named [...UnmarshalError]. *)
Definition invalid_data_body : string := lit "{
			'status': 'success',
			'time': 0.123,
			'flags': {},
			'data': invalid-json
		}".

(** [TestGetMessageDeliveries]. *)
Definition deliveries_body : string := lit "{
			'status': 'success',
			'time': 0.123,
			'flags': {},
			'data': [
				{
					'id': 123,
					'status': 'delivered',
					'details': 'test details',
					'output': 'test output',
					'sent_with_ssl': true,
					'log_id': 456,
					'time': 0.456,
					'timestamp': '2023-01-01T00:00:00Z'
				}
			]
		}".

(** [TestSendMessage] and [TestSendRaw]. *)
Definition sent_body : string := lit "{
			'status': 'success',
			'time': 0.123,
			'flags': {},
			'data': {
				'message_id': 123,
				'token': 'test-token'
			}
		}".

(** [TestSendMessageError] and [TestSendRawError]. *)
Definition parameter_error_body : string := lit "{
			'status': 'parameter-error',
			'time': 0.123,
			'flags': {},
			'data': {'errors': {'from': ['is required']}},
			'error_code': 'validation-error',
			'message': 'The provided data was not sufficient to send an email'
		}".

(** An envelope whose [data] is [null], and one that has no [data]. *)
Definition null_data_body : string := lit "{'status':'success','data':null}".
Definition no_data_body : string := lit "{'status':'success'}".
