(* ===== verification/Client.v ===== *)
(** * Client: client.go

    [Client], its two constructors, the envelope types [Response] and
    [Error], and the request/response cycle [do] with its wrapper [post]
    (src/unnamed/part_000, lines 113 to 326).

    [do] is one function in the source and one definition here, its steps in
    the order of the source.  Each [if err != nil { return nil, ... }] is a
    bind of the [result] monad whose error is wrapped by [or_wrap].

    The body of a request is an [interface{}]: [None] is the nil interface,
    [Some (Box x)] a value [x] with the encoder of its dynamic type. *)

From Stdlib Require Import ZArith Lia Ascii String.
From stdpp Require Import base tactics option list strings gmap.
From S2P Require Import Prelude Json JsonString JsonParse JsonPrint Codec Http Fixtures.

Local Open Scope go_scope.
Local Open Scope Z_scope.

(** * Constants and the client *)

Definition DefaultBaseURL : string := "https://postal.example.com/api/v1".

Definition DefaultTimeout : Duration := (30 * Second)%Z.

Record Client : Type := mkClient {
  Client_BaseURL : string;
  Client_APIKey : string;
  Client_HTTPClient : option http_Client
}.

Definition NewClient (apiKey : string) : Client :=
  {| Client_BaseURL := DefaultBaseURL;
     Client_APIKey := apiKey;
     Client_HTTPClient := Some (mk_http_Client None DefaultTimeout) |}.

Definition NewClientWithOptions (apiKey baseURL : string) (timeout : Duration)
  : Client :=
  {| Client_BaseURL := baseURL;
     Client_APIKey := apiKey;
     Client_HTTPClient := Some (mk_http_Client None timeout) |}.

(** * The envelope *)

Record Response : Type := mkResponse {
  Response_Status : string;
  Response_Time : float64;
  Response_Flags : RawMessage;
  Response_Data : RawMessage
}.

Record Error : Type := mkError {
  Error_Status : string;
  Error_Time : float64;
  Error_Flags : RawMessage;
  Error_Data : RawMessage;
  Error_ErrorCode : string;
  Error_Message : string
}.

(** The fields of [Response] by their tags. *)
Definition Response_fields : list (field Response) := [
  Field "status" (setter Response_Status
    (fun x s => mkResponse x (Response_Time s) (Response_Flags s) (Response_Data s)));
  Field "time" (setter Response_Time
    (fun x s => mkResponse (Response_Status s) x (Response_Flags s) (Response_Data s)));
  Field "flags" (setter Response_Flags
    (fun x s => mkResponse (Response_Status s) (Response_Time s) x (Response_Data s)));
  Field "data" (setter Response_Data
    (fun x s => mkResponse (Response_Status s) (Response_Time s) (Response_Flags s) x))
].

#[export] Instance Response_Unmarshaler : Unmarshaler Response :=
  {| zero := mkResponse EmptyString float64_zero RawNil RawNil;
     decode := decode_struct "Response" Response_fields |}.

(** The fields of [Error] by their tags. *)
Definition Error_fields : list (field Error) := [
  Field "status" (setter Error_Status
    (fun x s => mkError x (Error_Time s) (Error_Flags s) (Error_Data s)
                        (Error_ErrorCode s) (Error_Message s)));
  Field "time" (setter Error_Time
    (fun x s => mkError (Error_Status s) x (Error_Flags s) (Error_Data s)
                        (Error_ErrorCode s) (Error_Message s)));
  Field "flags" (setter Error_Flags
    (fun x s => mkError (Error_Status s) (Error_Time s) x (Error_Data s)
                        (Error_ErrorCode s) (Error_Message s)));
  Field "data" (setter Error_Data
    (fun x s => mkError (Error_Status s) (Error_Time s) (Error_Flags s) x
                        (Error_ErrorCode s) (Error_Message s)));
  Field "error_code" (setter Error_ErrorCode
    (fun x s => mkError (Error_Status s) (Error_Time s) (Error_Flags s) (Error_Data s)
                        x (Error_Message s)));
  Field "message" (setter Error_Message
    (fun x s => mkError (Error_Status s) (Error_Time s) (Error_Flags s) (Error_Data s)
                        (Error_ErrorCode s) x))
].

#[export] Instance Error_Unmarshaler : Unmarshaler Error :=
  {| zero := mkError EmptyString float64_zero RawNil RawNil EmptyString EmptyString;
     decode := decode_struct "Error" Error_fields |}.

(** [(e *Error) Error()]: [fmt.Sprintf("postal API error: %s - %s", ...)]. *)
Definition Error_Error (e : Error) : string :=
  "postal API error: " +:+ Error_Status e +:+ " - " +:+ Error_Message e.

(** * The errors a call returns *)

(** What [%w] wraps. *)
Inductive cause : Type :=
| JsonCause (e : json_error)
| RequestCause (e : request_error)
| TransportCause (e : url_Error)
| ReadCause (msg : string).

Inductive error : Type :=
| Wrapped (msg : string) (c : cause)
      (* fmt.Errorf(msg + ": %w", err) *)
| ApiError (e : Error)
      (* *Error *)
| NilDereference.
      (* the run-time panic of a call through a nil HTTPClient: the call
         does not return, and neither do its callers *)

Definition wrap {E} (msg : string) (inj : E -> cause) (e : E) : error :=
  Wrapped msg (inj e).
Arguments wrap {E} msg inj e /.

(** * [interface{}] *)

Polymorphic Inductive boxed : Type :=
| Box {A : Type} {M : Marshaler A} (x : A).

#[export] Polymorphic Instance boxed_Marshaler : Marshaler boxed :=
  {| encode b := match b with Box x => encode x end;
     is_empty_value _ := false |}.

(** * The request/response cycle *)

Section client.
Variable DefaultTransport : RoundTripper.

Definition do (c : Client) (method path : string) (body : option boxed)
  : result error Response :=
  let url := Client_BaseURL c +:+ path in
  bodyReader ←
    match body with
    | None => Ok None
    | Some b =>
        Some <$> (Marshal b or_wrap wrap "error marshaling request body" JsonCause)
    end;
  req ← NewRequest method url bodyReader
          or_wrap wrap "error creating request" RequestCause;
  let req := with_header "Content-Type" "application/json" req in
  let req := with_header "Accept" "application/json" req in
  let req := with_header "X-Server-API-Key" (Client_APIKey c) req in
  hc ← of_option NilDereference (Client_HTTPClient c);
  resp ← http_Client_Do DefaultTransport hc req
           or_wrap wrap "error performing request" TransportCause;
  respBody ← ReadAll resp or_wrap wrap "error reading response body" ReadCause;
  if bool_decide (http_Response_StatusCode resp <> StatusOK) then
    apiError ← Unmarshal respBody (zero Error)
                 or_wrap wrap "error unmarshaling error response" JsonCause;
    Err (ApiError apiError)
  else
    apiResp ← Unmarshal respBody (zero Response)
                or_wrap wrap "error unmarshaling response" JsonCause;
    if bool_decide (Response_Status apiResp <> "success") then
      apiError ← Unmarshal respBody (zero Error)
                   or_wrap wrap "error unmarshaling error response" JsonCause;
      Err (ApiError apiError)
    else Ok apiResp.

Definition post (c : Client) (path : string) (body : option boxed)
  : result error Response :=
  do c MethodPost path body.

End client.

(** * The text of an error *)

Definition nil_dereference : string :=
  "runtime error: invalid memory address or nil pointer dereference".

Section error_text.
(** The text of a wrapped error is chosen by the library that made it. *)
Variable describe : cause -> string.

(** [err.Error()]. *)
Definition error_string (e : error) : string :=
  match e with
  | Wrapped msg c => msg +:+ ": " +:+ describe c
  | ApiError e => Error_Error e
  | NilDereference => nil_dereference
  end.
End error_text.

(** * The contract of [do]

    The stages of [do] on their own: the request it builds, and what it
    makes of a status and a body.  [do_stages] says that [do] is their
    composition; the theorems about [do] are proved through it. *)

Definition marshal_body (body : option boxed) : result json_error (option string) :=
  match body with
  | None => Ok None
  | Some b => Some <$> Marshal b
  end.

Definition request_of (c : Client) (method path : string) (body : option boxed)
  : result error Request :=
  bodyReader ← marshal_body body or_wrap wrap "error marshaling request body" JsonCause;
  req ← NewRequest method (Client_BaseURL c +:+ path) bodyReader
          or_wrap wrap "error creating request" RequestCause;
  Ok (with_header "X-Server-API-Key" (Client_APIKey c)
        (with_header "Accept" "application/json"
           (with_header "Content-Type" "application/json" req))).

Definition envelope (code : Z) (respBody : string) : result error Response :=
  if bool_decide (code <> StatusOK) then
    apiError ← Unmarshal respBody (zero Error)
                 or_wrap wrap "error unmarshaling error response" JsonCause;
    Err (ApiError apiError)
  else
    apiResp ← Unmarshal respBody (zero Response)
                or_wrap wrap "error unmarshaling response" JsonCause;
    if bool_decide (Response_Status apiResp <> "success") then
      apiError ← Unmarshal respBody (zero Error)
                   or_wrap wrap "error unmarshaling error response" JsonCause;
      Err (ApiError apiError)
    else Ok apiResp.

(** What [envelope] returns for a body it rejects: the [Error] the body
    decodes to, or the failure to decode it. *)
Definition rejection (body : string) (e : error) : Prop :=
  (exists je, Unmarshal body (zero Error) = Err je /\
              e = Wrapped "error unmarshaling error response" (JsonCause je)) \/
  (exists ae, Unmarshal body (zero Error) = Ok ae /\ e = ApiError ae).

(** The headers of every request, under their canonical keys. *)
Definition headers_of (c : Client) : Header :=
  {[ "Content-Type" := ["application/json"];
     "Accept" := ["application/json"];
     "X-Server-Api-Key" := [Client_APIKey c] ]}.

(** [req] is the request that [do c method path body] sends. *)
Definition sent (c : Client) (method path : string) (body : option boxed)
    (req : Request) : Prop :=
  valid_method (method_or_get method) = true /\
  existsb_string is_ctl (Client_BaseURL c +:+ path) = false /\
  marshal_body body = Ok (Request_Body req) /\
  Request_Method req = method_or_get method /\
  Request_URL req = Client_BaseURL c +:+ path /\
  Request_Header req = headers_of c.

(** The server's answer [r] reaches the client [c] for the request of
    [do T c method path body]. *)
Definition answered (T : RoundTripper) (c : Client) (method path : string)
    (body : option boxed) (r : reply) : Prop :=
  exists req hc,
    sent c method path body req /\ Client_HTTPClient c = Some hc /\
    transport_of T hc req = Replied r /\ received hc r.

(** What a call of [do] may return, case by case: the contract that [do]
    is proved to implement. *)
Inductive returns (T : RoundTripper) (c : Client) (method path : string)
    (body : option boxed) : result error Response -> Prop :=
| ret_marshal je :
    marshal_body body = Err je ->
    returns T c method path body
      (Err (Wrapped "error marshaling request body" (JsonCause je)))
| ret_request text re :
    marshal_body body = Ok text ->
    NewRequest method (Client_BaseURL c +:+ path) text = Err re ->
    returns T c method path body
      (Err (Wrapped "error creating request" (RequestCause re)))
| ret_nil req :
    sent c method path body req -> Client_HTTPClient c = None ->
    returns T c method path body (Err NilDereference)
| ret_transport req hc ue :
    sent c method path body req -> Client_HTTPClient c = Some hc ->
    http_Client_Do T hc req = Err ue ->
    returns T c method path body
      (Err (Wrapped "error performing request" (TransportCause ue)))
| ret_read req hc r msg :
    sent c method path body req -> Client_HTTPClient c = Some hc ->
    transport_of T hc req = Replied r ->
    expired (http_Client_Timeout hc) (reply_at r) = false ->
    read_error hc r = Some msg ->
    returns T c method path body
      (Err (Wrapped "error reading response body" (ReadCause msg)))
| ret_decode r je :
    answered T c method path body r -> reply_status r = StatusOK ->
    Unmarshal (reply_body r) (zero Response) = Err je ->
    returns T c method path body
      (Err (Wrapped "error unmarshaling response" (JsonCause je)))
| ret_rejected r e :
    answered T c method path body r ->
    reply_status r <> StatusOK \/
      (exists resp, Unmarshal (reply_body r) (zero Response) = Ok resp /\
                    Response_Status resp <> "success") ->
    rejection (reply_body r) e ->
    returns T c method path body (Err e)
| ret_success r resp :
    answered T c method path body r -> reply_status r = StatusOK ->
    Unmarshal (reply_body r) (zero Response) = Ok resp ->
    Response_Status resp = "success" ->
    returns T c method path body (Ok resp).

(** [r] and [e] hold the same envelope. *)
Definition same_envelope (r : Response) (e : Error) : Prop :=
  Error_Status e = Response_Status r /\ Error_Time e = Response_Time r /\
  Error_Flags e = Response_Flags r /\ Error_Data e = Response_Data r.

(** * The client of the tests

    [client := NewClient("test-api-key"); client.BaseURL = server.URL]. *)

Definition set_BaseURL (url : string) (c : Client) : Client :=
  mkClient url (Client_APIKey c) (Client_HTTPClient c).

Definition set_HTTPClient (hc : option http_Client) (c : Client) : Client :=
  mkClient (Client_BaseURL c) (Client_APIKey c) hc.

Definition test_client : Client := set_BaseURL server_URL (NewClient "test-api-key").

(** What [TestClientDo] expects. *)
Definition success_response : Response :=
  mkResponse "success" float_0_123 (Raw (JObject []))
    (Raw (JObject [("test", JString "data")])).

(** What [TestClientDoError] and [TestClientDoHTTPError] expect. *)
Definition test_error : Error :=
  mkError "error" float_0_123 (Raw (JObject []))
    (Raw (JObject [("error", JString "test error")])) "test-error" "Test error message".

(** * Laws of the stages *)

Lemma request_of_Ok c m p b req : request_of c m p b = Ok req <-> sent c m p b req.
Proof.
  unfold request_of, sent. split.
  - intros H. inv_bind.
    match goal with H : NewRequest _ _ _ = _ |- _ =>
      apply NewRequest_Ok in H as (? & ? & ->) end.
    by repeat split.
  - intros (Hm & Hu & Hb & Hme & Hurl & Hh). rewrite Hb. simpl.
    rewrite (proj2 (NewRequest_Ok m _ _ _) (conj Hm (conj Hu eq_refl))). simpl.
    destruct req; simpl in *. by subst.
Qed.

Lemma request_of_Err c m p b e :
  request_of c m p b = Err e <->
  (exists je, marshal_body b = Err je /\
              e = Wrapped "error marshaling request body" (JsonCause je)) \/
  (exists text re, marshal_body b = Ok text /\
                   NewRequest m (Client_BaseURL c +:+ p) text = Err re /\
                   e = Wrapped "error creating request" (RequestCause re)).
Proof.
  unfold request_of. split.
  - intros H. inv_bind; eauto 10.
  - intros [(je & Hb & ->)|(text & re & Hb & Hr & ->)]; rewrite Hb; simpl; [done|].
    by rewrite Hr.
Qed.

Lemma envelope_Ok code body r :
  envelope code body = Ok r <->
  code = StatusOK /\ Unmarshal body (zero Response) = Ok r /\
  Response_Status r = "success".
Proof.
  unfold envelope. split.
  - intros H. case_bool_decide as Hc; inv_bind.
    by case_bool_decide as Hs; inv_bind.
  - intros (-> & -> & Hs). simpl. rewrite Hs. done.
Qed.

Lemma envelope_Err code body e :
  envelope code body = Err e <->
  (exists je, code = StatusOK /\ Unmarshal body (zero Response) = Err je /\
              e = Wrapped "error unmarshaling response" (JsonCause je)) \/
  ((code <> StatusOK \/
    exists r, Unmarshal body (zero Response) = Ok r /\ Response_Status r <> "success") /\
   rejection body e).
Proof.
  unfold envelope, rejection. split.
  - intros H. case_bool_decide as Hc; inv_bind; eauto 10.
    + case_bool_decide as Hs; inv_bind; eauto 10.
  - intros [(je & -> & Hr & ->)|[Hwhy Hrej]].
    { by rewrite Hr. }
    assert (Hgo : (ae ← Unmarshal body (zero Error)
                     or_wrap wrap "error unmarshaling error response" JsonCause;
                   Err (ApiError ae) : result error Response) = Err e).
    { by destruct Hrej as [(? & -> & ->)|(? & -> & ->)]. }
    case_bool_decide as Hc; [done|].
    destruct Hwhy as [?|(r & -> & Hs)]; [done|].
    cbn [map_err mbind result_bind]. by rewrite bool_decide_eq_true_2.
Qed.

(** * [do] implements its contract *)

Section do_laws.
Variable T : RoundTripper.
Implicit Types (c : Client) (m p : string) (b : option boxed).

Lemma do_stages c m p b :
  do T c m p b =
    req ← request_of c m p b;
    hc ← of_option NilDereference (Client_HTTPClient c);
    resp ← http_Client_Do T hc req
             or_wrap wrap "error performing request" TransportCause;
    respBody ← ReadAll resp or_wrap wrap "error reading response body" ReadCause;
    envelope (http_Response_StatusCode resp) respBody.
Proof.
  unfold do, request_of, envelope, marshal_body.
  destruct b as [x|]; simpl; [destruct (Marshal x); simpl; [|done]|];
    by destruct (NewRequest _ _ _).
Qed.

(** After the request has been built and the client is not nil. *)
Lemma do_sent c m p b req hc :
  sent c m p b req -> Client_HTTPClient c = Some hc ->
  do T c m p b =
    resp ← http_Client_Do T hc req
             or_wrap wrap "error performing request" TransportCause;
    respBody ← ReadAll resp or_wrap wrap "error reading response body" ReadCause;
    envelope (http_Response_StatusCode resp) respBody.
Proof. intros Hs%request_of_Ok Hhc. by rewrite do_stages, Hs, Hhc. Qed.

Lemma do_answered c m p b r :
  answered T c m p b r -> do T c m p b = envelope (reply_status r) (reply_body r).
Proof.
  intros (req & hc & Hs & Hhc & Ht & Hr).
  by rewrite (do_sent _ _ _ _ _ _ Hs Hhc), (http_Client_Do_received _ _ _ _ Ht Hr).
Qed.

Lemma returns_do c m p b res : returns T c m p b res -> do T c m p b = res.
Proof.
  destruct 1 as [je Hb|text re Hb Hr|req Hs Hhc|req hc ue Hs Hhc Hd
                 |req hc r msg Hs Hhc Ht He Hr|r je Ha Hst Hu|r e Ha Hw Hrej
                 |r resp Ha Hst Hu Hok].
  - rewrite do_stages.
    by rewrite (proj2 (request_of_Err c m p b _) (or_introl (ex_intro _ je (conj Hb eq_refl)))).
  - rewrite do_stages. erewrite (proj2 (request_of_Err c m p b _)); [done|]. right; eauto.
  - apply request_of_Ok in Hs. by rewrite do_stages, Hs, Hhc.
  - by rewrite (do_sent _ _ _ _ _ _ Hs Hhc), Hd.
  - rewrite (do_sent _ _ _ _ _ _ Hs Hhc).
    unfold http_Client_Do, ReadAll. by rewrite Ht, He, Hr.
  - rewrite (do_answered _ _ _ _ _ Ha). apply envelope_Err. left; eauto.
  - rewrite (do_answered _ _ _ _ _ Ha). apply envelope_Err. by right.
  - rewrite (do_answered _ _ _ _ _ Ha). by apply envelope_Ok.
Qed.

Lemma do_returns_res c m p b : returns T c m p b (do T c m p b).
Proof.
  rewrite do_stages.
  destruct (request_of c m p b) as [req|e] eqn:Hreq; simpl.
  2:{ apply request_of_Err in Hreq as [(je & ? & ->)|(text & re & ? & ? & ->)];
        eauto 10 using returns. }
  apply request_of_Ok in Hreq.
  destruct (Client_HTTPClient c) as [hc|] eqn:Hhc; simpl; [|eauto 10 using returns].
  destruct (http_Client_Do T hc req) as [resp|ue] eqn:Hdo; simpl;
    [|eauto 10 using returns].
  apply http_Client_Do_Ok in Hdo as (r & Ht & He & Hcode & Hread).
  rewrite Hcode, Hread.
  destruct (read_error hc r) as [msg|] eqn:Hr; simpl; [eauto 10 using returns|].
  assert (Ha : answered T c m p b r) by (unfold answered, received; eauto 10).
  destruct (envelope _ _) as [resp'|e] eqn:Henv.
  - apply envelope_Ok in Henv as (? & ? & ?). eauto 10 using returns.
  - apply envelope_Err in Henv as [(je & ? & ? & ->)|[? ?]]; eauto 10 using returns.
Qed.

Lemma do_returns c m p b res : do T c m p b = res <-> returns T c m p b res.
Proof. split; [intros <-; apply do_returns_res|apply returns_do]. Qed.

Lemma do_nil_inv c m p b :
  do T c m p b = Err NilDereference -> Client_HTTPClient c = None.
Proof.
  intros H%do_returns. inversion H as [| | | | | |r e' Ha Hw Hrej|]; subst; eauto.
  by destruct Hrej as [(? & _ & ?)|(? & _ & ?)].
Qed.

End do_laws.

Lemma transport_of_ext T T' hc req :
  (http_Client_Transport hc = None -> T req = T' req) ->
  transport_of T hc req = transport_of T' hc req.
Proof. unfold transport_of. destruct (http_Client_Transport hc); simpl; auto. Qed.

Lemma http_Client_Do_ext T T' hc req :
  transport_of T hc req = transport_of T' hc req ->
  http_Client_Do T hc req = http_Client_Do T' hc req.
Proof. unfold http_Client_Do. by intros ->. Qed.

(** [do] asks the transport about the request [sent] describes, and about
    no other. *)
Lemma do_ext T T' c m p b :
  (forall req, sent c m p b req -> T req = T' req) ->
  do T c m p b = do T' c m p b.
Proof.
  intros Hext. rewrite !do_stages.
  destruct (request_of c m p b) as [req|] eqn:Hreq; [simpl|done].
  destruct (Client_HTTPClient c) as [hc|]; [simpl|done].
  apply request_of_Ok in Hreq.
  by rewrite (http_Client_Do_ext T T' hc req
                (transport_of_ext _ _ _ _ (fun _ => Hext _ Hreq))).
Qed.

(** * The two decoders of the envelope *)

(** Decides which field a key names, for the keys the two tables hold. *)
Ltac decide_names :=
  repeat (case_bool_decide; simplify_eq/=);
  repeat match goal with
         | H : fold_name _ = fold_name _ |- _ =>
             first [ by vm_compute in H | clear H ]
         end.

(** A key that names a field of [Response] names the field of [Error] with
    the same tag, and storing a value into both keeps the two alike; a key
    that names [error_code] or [message] names no field of [Response]. *)
Lemma find_field_envelope key :
  match find_field Response_fields key, find_field Error_fields key with
  | Some f, Some g =>
      forall v r e r' e', same_envelope r e ->
        field_set f v r = Ok r' -> field_set g v e = Ok e' -> same_envelope r' e'
  | None, Some g =>
      forall v r e e', same_envelope r e -> field_set g v e = Ok e' -> same_envelope r e'
  | None, None => True
  | Some _, None => False
  end.
Proof.
  unfold find_field, name_matches, Response_fields, Error_fields. simpl List.find.
  decide_names; try done;
    unfold same_envelope, setter; simpl; intros; inv_bind; simpl in *;
    intuition congruence.
Qed.

Lemma decode_members_envelope ms : forall r e r' e',
  same_envelope r e ->
  decode_members Response_fields ms r = Ok r' ->
  decode_members Error_fields ms e = Ok e' -> same_envelope r' e'.
Proof.
  induction ms as [|[k v] ms IH]; intros r e r' e' Hsame; simpl.
  { by intros [= <-] [= <-]. }
  destruct (unquote k) as [key|]; [simpl|done].
  pose proof (find_field_envelope key) as Hf.
  destruct (find_field Response_fields key) as [f|],
           (find_field Error_fields key) as [g|]; try done.
  - intros Hr He. inv_bind. eauto.
  - intros Hr He. inv_bind. eauto.
  - eauto.
Qed.

Lemma Unmarshal_same_envelope body r e :
  Unmarshal body (zero Response) = Ok r -> Unmarshal body (zero Error) = Ok e ->
  same_envelope r e.
Proof.
  unfold Unmarshal. destruct (json_parse body) as [v|]; [|done].
  destruct v; try done; simpl.
  - by intros [= <-] [= <-].
  - by apply decode_members_envelope.
Qed.

(** The test client reaches the test server, whatever the server writes. *)
Lemma answered_test_client status body :
  answered (serve status body) test_client MethodPost "/test" None
    (mkReply Millisecond status body Millisecond None).
Proof.
  eexists _, _. split; [|split; [reflexivity|split; [reflexivity|]]].
  - by apply request_of_Ok.
  - by vm_compute.
Defined.

(** * Properties of [do] *)

Section do_properties.
Variable T : RoundTripper.
Implicit Types (c : Client) (m p : string) (b : option boxed).

(** C1. Whatever [do] returns is allowed by the contract [returns]: a
    wrapped error of the stage that failed, the [Error] of a rejected call,
    or a response from a reply with status 200 whose envelope says
    ["success"]. *)
Theorem do_meets_contract c m p b : returns T c m p b (do T c m p b).
Proof. apply do_returns_res. Qed.

(** C2. The contract leaves [do] no choice: a result that [returns] allows
    is the result of [do]. *)
Theorem contract_determines_do c m p b res :
  returns T c m p b res -> do T c m p b = res.
Proof. apply returns_do. Qed.

(** C3. A call of [do] that returns a response returns one whose status
    is ["success"], decoded from a reply with HTTP status 200 that arrived
    in full before the deadline. *)
Theorem do_Ok_success c m p b resp :
  do T c m p b = Ok resp ->
  Response_Status resp = "success" /\
  exists r, answered T c m p b r /\ reply_status r = StatusOK /\
            Unmarshal (reply_body r) (zero Response) = Ok resp.
Proof. intros H%do_returns. inversion H; subst; eauto. Qed.

(** C4. A reply whose status is not 200 never gives a response, whatever
    its body says: [do] returns the [Error] the body decodes to, or the
    failure to decode it. *)
Theorem do_not_200_fails c m p b r :
  answered T c m p b r -> reply_status r <> StatusOK ->
  exists e, do T c m p b = Err e /\ rejection (reply_body r) e.
Proof.
  intros Ha Hst. rewrite (do_answered _ _ _ _ _ _ Ha).
  destruct (envelope _ _) as [resp|e] eqn:He.
  - by apply envelope_Ok in He as [? _].
  - apply envelope_Err in He as [(? & ? & _)|[_ ?]]; [done|eauto].
Qed.

(** C5. Every error of [do] is one of seven: a wrapped error with the
    message of the stage that failed and a cause of the kind that stage
    produces, the [Error] decoded from the body of a reply, or the
    dereference of a nil [HTTPClient]. *)
Theorem do_Err_taxonomy c m p b e :
  do T c m p b = Err e ->
  match e with
  | Wrapped msg (JsonCause _) =>
      msg ∈ ["error marshaling request body"; "error unmarshaling response";
             "error unmarshaling error response"]
  | Wrapped msg (RequestCause _) => msg = "error creating request"
  | Wrapped msg (TransportCause ue) =>
      msg = "error performing request" /\
      url_Error_URL ue = Client_BaseURL c +:+ p
  | Wrapped msg (ReadCause _) => msg = "error reading response body"
  | ApiError ae =>
      exists r, answered T c m p b r /\ Unmarshal (reply_body r) (zero Error) = Ok ae
  | NilDereference => Client_HTTPClient c = None
  end.
Proof.
  intros H%do_returns.
  inversion H as [| | |req hc ue Hs _ Hd| | |r e' Ha _ Hrej|]; subst;
    try done; try set_solver.
  - apply http_Client_Do_Err in Hd as (msg & -> & _).
    split; [done|]. apply Hs.
  - destruct Hrej as [(? & _ & ->)|(? & ? & ->)]; [set_solver|eauto].
Qed.

(** C6. [do] returns an [Error] exactly when a reply arrived in full, its
    body decodes to that [Error], and either its status is not 200 or its
    envelope does not say ["success"]. *)
Theorem do_ApiError_iff c m p b ae :
  do T c m p b = Err (ApiError ae) <->
  exists r, answered T c m p b r /\
    Unmarshal (reply_body r) (zero Error) = Ok ae /\
    (reply_status r <> StatusOK \/
     exists resp, Unmarshal (reply_body r) (zero Response) = Ok resp /\
                  Response_Status resp <> "success").
Proof.
  rewrite do_returns. split.
  - intros H. inversion H as [| | | | | |r e' Ha Hw Hrej|]; subst.
    destruct Hrej as [(? & _ & ?)|(? & ? & [= <-])]; [done|eauto].
  - intros (r & Ha & Hu & Hw). eapply ret_rejected; [done..|right; eauto].
Qed.

(** C18. [do] fails with a nil dereference exactly when the request could
    be built and the client has no [HTTPClient]. *)
Theorem do_NilDereference_iff c m p b :
  do T c m p b = Err NilDereference <->
  Client_HTTPClient c = None /\ exists req, sent c m p b req.
Proof.
  rewrite do_returns. split.
  - intros H. inversion H as [| |req Hs Hhc| | | |r e' Ha Hw Hrej|]; subst; eauto.
    by destruct Hrej as [(? & _ & ?)|(? & _ & ?)].
  - intros (Hhc & req & Hs). by eapply ret_nil.
Qed.

(** C7. [do] asks the transport about one request only, the one [sent]
    describes: the method, the URL made of [BaseURL] and the path, the three
    headers and the marshalled body.  Two transports that agree on it give
    the same result. *)
Theorem do_transport_ext T' c m p b :
  (forall req, sent c m p b req -> T req = T' req) ->
  do T c m p b = do T' c m p b.
Proof. apply do_ext. Qed.

(** C20. The request of [do] carries the three headers, and a server
    finds the key under the name as the code writes it and in lower case;
    its URL is the base URL followed by the path. *)
Theorem request_of_headers c m p b req :
  request_of c m p b = Ok req ->
  Header_Get (Request_Header req) "Content-Type" = "application/json" /\
  Header_Get (Request_Header req) "Accept" = "application/json" /\
  Header_Get (Request_Header req) "X-Server-API-Key" = Client_APIKey c /\
  Header_Get (Request_Header req) "x-server-api-key" = Client_APIKey c /\
  Request_URL req = Client_BaseURL c +:+ p.
Proof.
  intros (_ & _ & _ & _ & Hu & Hh)%request_of_Ok. by rewrite Hh, Hu.
Qed.

(** C14. A reply whose headers arrive after the deadline of the client is
    an error of the transport, with the operation and the URL of the
    request. *)
Theorem do_timeout c m p b req hc r :
  sent c m p b req -> Client_HTTPClient c = Some hc ->
  transport_of T hc req = Replied r ->
  0 < http_Client_Timeout hc < reply_at r ->
  do T c m p b =
    Err (Wrapped "error performing request"
           (TransportCause
              (mk_url_Error (urlErrorOp (method_or_get m)) (Client_BaseURL c +:+ p)
                 timeout_awaiting_headers))).
Proof.
  intros Hs Hhc Ht Hlate. rewrite (do_sent _ _ _ _ _ _ _ Hs Hhc).
  destruct Hs as (_ & _ & _ & <- & <- & _).
  unfold http_Client_Do, expired. rewrite Ht.
  by rewrite (proj2 (Z.ltb_lt _ _) (proj1 Hlate)), (proj2 (Z.ltb_lt _ _) (proj2 Hlate)).
Qed.

(** C13. A client made by [NewClient] gives up on a server that takes more
    than thirty seconds to answer. *)
Theorem NewClient_timeout key p b req r :
  sent (NewClient key) MethodPost p b req -> T req = Replied r ->
  30 * Second < reply_at r ->
  post T (NewClient key) p b =
    Err (Wrapped "error performing request"
           (TransportCause
              (mk_url_Error "Post" (DefaultBaseURL +:+ p) timeout_awaiting_headers))).
Proof. intros Hs Ht Hlate. unfold post. by erewrite do_timeout. Qed.

(** C19. A timeout that is not positive sets no deadline: the client waits
    for the reply however late it is. *)
Theorem no_timeout_no_deadline key url timeout p b req r :
  timeout <= 0 ->
  sent (NewClientWithOptions key url timeout) MethodPost p b req ->
  T req = Replied r -> reply_body_error r = None ->
  post T (NewClientWithOptions key url timeout) p b =
    envelope (reply_status r) (reply_body r).
Proof.
  intros Hle Hs Ht Hb. apply do_answered. eexists req, _.
  split; [done|]. split; [reflexivity|]. split; [done|].
  unfold received, read_error. simpl. by rewrite !expired_no_timeout.
Qed.

(** A client made by a constructor has an [HTTPClient]: [do] never
    dereferences nil. *)
Lemma constructors_never_nil key url timeout m p b :
  do T (NewClient key) m p b <> Err NilDereference /\
  do T (NewClientWithOptions key url timeout) m p b <> Err NilDereference.
Proof. by split; intros ?%do_nil_inv. Qed.

(** C16. An [Error] that [do] returns for a reply with status 200 never
    has the status ["success"]. *)
Theorem do_ApiError_200_status c m p b r ae :
  answered T c m p b r -> reply_status r = StatusOK ->
  do T c m p b = Err (ApiError ae) -> Error_Status ae <> "success".
Proof.
  intros Ha Hst. rewrite (do_answered _ _ _ _ _ _ Ha).
  intros [(? & _ & _ & ?)|[[?|(resp & Hu & Hs)] [(? & _ & ?)|(? & Hue & [= <-])]]]%envelope_Err;
    try done.
  by destruct (Unmarshal_same_envelope _ _ _ Hu Hue) as [-> _].
Qed.

(** C17. A reply whose status is not 200 is rejected even when its body
    is a success envelope: for a 201 Created, say, with a body that decodes
    as a [Response] with the status ["success"], [do] returns the [Error]
    the body decodes to, and that [Error] itself says ["success"] and holds
    the data of the response. *)
Theorem success_envelope_rejected c m p b r resp ae :
  answered T c m p b r -> reply_status r <> StatusOK ->
  Unmarshal (reply_body r) (zero Response) = Ok resp ->
  Response_Status resp = "success" ->
  Unmarshal (reply_body r) (zero Error) = Ok ae ->
  do T c m p b = Err (ApiError ae) /\
  Error_Status ae = "success" /\ Error_Data ae = Response_Data resp.
Proof.
  intros Ha Hst Hu Hs Hue. split.
  - apply returns_do. eapply ret_rejected; [done|by left|right; eauto].
  - destruct (Unmarshal_same_envelope _ _ _ Hu Hue) as (-> & _ & _ & ->). done.
Qed.
End do_properties.

(** C15. The two decoders of the envelope agree: when a body decodes both
    as a [Response] and as an [Error], the two have the same status, time,
    flags and data. *)
Theorem envelope_decoders_agree body r e :
  Unmarshal body (zero Response) = Ok r -> Unmarshal body (zero Error) = Ok e ->
  same_envelope r e.
Proof. apply Unmarshal_same_envelope. Qed.

(** C34. The text of an [Error] starts with the name of the client and
    holds the status and the message of the server. *)
Theorem Error_Error_contains e :
  has_prefix (Error_Error e) "postal API error: " = true /\
  contains (Error_Error e) (Error_Status e) = true /\
  contains (Error_Error e) (Error_Message e) = true.
Proof.
  unfold Error_Error. split; [apply has_prefix_app|]. split.
  - apply contains_middle.
  - do 3 apply contains_app_r. apply contains_refl.
Qed.

(** * The properties at the inputs of the tests *)

Lemma contract_determines_do_witness :
  do (serve 200 success_body) test_client MethodPost "/test" None = Ok success_response.
Proof.
  apply contract_determines_do.
  eapply ret_success; [apply answered_test_client|reflexivity| |reflexivity].
  by vm_compute.
Defined.

Lemma do_Ok_success_witness :
  Response_Status success_response = "success" /\
  exists r, answered (serve 200 success_body) test_client MethodPost "/test" None r /\
            reply_status r = StatusOK /\
            Unmarshal (reply_body r) (zero Response) = Ok success_response.
Proof.
  apply (do_Ok_success (serve 200 success_body) test_client MethodPost "/test" None).
  by vm_compute.
Defined.

Lemma do_not_200_fails_witness :
  exists e, do (serve 500 error_body) test_client MethodPost "/test" None = Err e /\
            rejection error_body e.
Proof.
  apply (do_not_200_fails _ _ _ _ _ _ (answered_test_client 500 error_body)).
  by vm_compute.
Defined.

Lemma do_Err_taxonomy_witness :
  exists r, answered (serve 500 error_body) test_client MethodPost "/test" None r /\
            Unmarshal (reply_body r) (zero Error) = Ok test_error.
Proof.
  apply (do_Err_taxonomy (serve 500 error_body) test_client MethodPost "/test" None
           (ApiError test_error)).
  by vm_compute.
Defined.

Lemma do_transport_ext_witness :
  do (serve 200 success_body) test_client MethodPost "/test" None =
  do (fun req => if bool_decide (Request_URL req = server_URL +:+ "/test")
                 then serve 200 success_body req else NetError "no route")
     test_client MethodPost "/test" None.
Proof.
  apply do_transport_ext. intros req (_ & _ & _ & _ & -> & _).
  by rewrite bool_decide_eq_true_2.
Defined.

Lemma request_of_headers_witness :
  let req := mkRequest MethodPost (server_URL +:+ "/test") (headers_of test_client) None in
  Header_Get (Request_Header req) "Content-Type" = "application/json" /\
  Header_Get (Request_Header req) "Accept" = "application/json" /\
  Header_Get (Request_Header req) "X-Server-API-Key" = "test-api-key" /\
  Header_Get (Request_Header req) "x-server-api-key" = "test-api-key" /\
  Request_URL req = server_URL +:+ "/test".
Proof. by apply (request_of_headers test_client MethodPost "/test" None). Defined.

Lemma do_timeout_witness :
  do (serve_late (31 * Second) 200 success_body) test_client MethodPost "/test" None =
    Err (Wrapped "error performing request"
           (TransportCause
              (mk_url_Error "Post" (server_URL +:+ "/test") timeout_awaiting_headers))).
Proof.
  eapply (do_timeout _ test_client MethodPost "/test" None);
    [by apply request_of_Ok|reflexivity|reflexivity|by vm_compute].
Defined.

Lemma NewClient_timeout_witness :
  post (serve_late (31 * Second) 200 success_body) (NewClient "test-api-key")
       "/send/message" None =
    Err (Wrapped "error performing request"
           (TransportCause
              (mk_url_Error "Post" (DefaultBaseURL +:+ "/send/message")
                 timeout_awaiting_headers))).
Proof.
  eapply NewClient_timeout; [by apply request_of_Ok|reflexivity|by vm_compute].
Defined.

Lemma no_timeout_no_deadline_witness :
  post (serve_late (3600 * Second) 200 success_body)
       (NewClientWithOptions "test-api-key" server_URL 0) "/test" None =
    envelope 200 success_body.
Proof.
  apply (no_timeout_no_deadline _ "test-api-key" server_URL 0 "/test" None
           (mkRequest MethodPost (server_URL +:+ "/test")
              (headers_of test_client) None)
           (mkReply (3600 * Second) 200 success_body (3600 * Second) None));
    [done|by apply request_of_Ok|reflexivity|reflexivity].
Defined.

Lemma do_ApiError_200_status_witness : Error_Status test_error <> "success".
Proof.
  apply (do_ApiError_200_status _ _ _ _ _ _ _ (answered_test_client 200 error_body));
    by vm_compute.
Defined.

Lemma envelope_decoders_agree_witness :
  same_envelope
    (mkResponse "error" float_0_123 (Raw (JObject []))
       (Raw (JObject [("error", JString "test error")])))
    test_error.
Proof. by apply (envelope_decoders_agree error_body). Defined.

Lemma success_envelope_rejected_witness :
  exists ae,
    do (serve 201 success_body) test_client MethodPost "/test" None = Err (ApiError ae) /\
    Error_Status ae = "success" /\ Error_Data ae = Response_Data success_response.
Proof.
  eexists.
  apply (success_envelope_rejected (serve 201 success_body) test_client MethodPost "/test"
           None _ success_response _ (answered_test_client 201 success_body));
    [done|by vm_compute|done|by vm_compute].
Defined.
