(* ===== verification/Envelope.v ===== *)
(** * Envelope: what the two decoders of the envelope store and refuse

    [do] decodes the body of a reply as a [Response] and, when the call is
    rejected, once more as an [Error] (src/unnamed/part_000, lines 293 to
    317).  This file adds to the agreement of the two decoders (Client)
    what they store and when the second one fails:

    - what [do] returns is well typed ([do_typed]): the strings of a
      [Response] or an [Error] are valid UTF-8, its time is a number, and
      its [flags] and [data] hold the text of a value;
    - for a reply with status 200 the second decoder is reached only with a
      body that decoded as a [Response], so it fails only on an
      [error_code] or a [message] that is no string, never on the syntax of
      the body ([do_second_decoder]). *)

From Stdlib Require Import ZArith Lia Ascii String.
From stdpp Require Import base tactics option list strings gmap.
From S2P Require Import Prelude Json JsonString Utf8 JsonParse JsonPrint JsonWf Codec RoundTrip GoTime Typed Models Http Fixtures Client.

Local Open Scope go_scope.
Local Open Scope Z_scope.

(** The invariant of a [Response]. *)
Definition Response_typed (r : Response) : Prop :=
  valid_utf8 (Response_Status r) = true /\ finite (Response_Time r) /\
  raw_typed (Response_Flags r) /\ raw_typed (Response_Data r).

(** The invariant of an [Error]. *)
Definition Error_typed (e : Error) : Prop :=
  valid_utf8 (Error_Status e) = true /\ finite (Error_Time e) /\
  raw_typed (Error_Flags e) /\ raw_typed (Error_Data e) /\
  valid_utf8 (Error_ErrorCode e) = true /\ valid_utf8 (Error_Message e) = true.

(** The error of a member that should be a string and is a value of
    another kind. *)
Definition not_a_string (je : json_error) : Prop :=
  exists k, je = UnmarshalTypeError k "string".

(** Two replies with the same status whose bodies are objects with the
    same members, under keys that may differ by their case. *)
Definition same_reply (r r' : reply) : Prop :=
  reply_status r = reply_status r' /\
  exists ms ms', json_parse (reply_body r) = Some (JObject ms) /\
                 json_parse (reply_body r') = Some (JObject ms') /\
                 same_members ms ms'.

(** The body of [TestClientDo] in compact form, and the same with other
    keys. *)
Definition quiet_body : string := lit "{'status':'success','data':{'test':'data'}}".
Definition shouted_body : string := lit "{'STATUS':'success','Data':{'test':'data'}}".

(** The body of a reply that says ["error"] with a message that is a
    number. *)
Definition bad_message_body : string := lit "{'status':'error','message':5}".

(** * Laws *)

#[export, refine] Instance Response_Typed : Typed Response := {| typed := Response_typed |}.
Proof.
  - by repeat split.
  - intros v old new. apply decode_struct_keeps.
    unfold Response_fields. fields_keep Response_typed.
Defined.

#[export, refine] Instance Error_Typed : Typed Error := {| typed := Error_typed |}.
Proof.
  - by repeat split.
  - intros v old new. apply decode_struct_keeps.
    unfold Error_fields. fields_keep Error_typed.
Defined.

(** The decoder of a string fails on a value the scanner returned only
    with a type error. *)
Lemma decode_string_Err v old je :
  parsed v -> decode_string v old = Err je -> not_a_string je.
Proof.
  intros [Hv _]. destruct v; cbn [decode_string type_error]; try done;
    try (intros [= <-]; by eexists).
  cbn [wf_value] in Hv. by destruct (unquote_total _ Hv) as [s ->].
Qed.

(** Whether a scalar decodes does not depend on what the target held. *)
Lemma decode_string_old v old old' : is_ok (decode_string v old) = is_ok (decode_string v old').
Proof. by destruct v. Qed.

Lemma decode_float64_old v old old' :
  is_ok (decode_float64 v old) = is_ok (decode_float64 v old').
Proof. by destruct v. Qed.

Lemma is_ok_bind_Ok {E A B} (m : result E A) (f : A -> B) :
  is_ok (x ← m; Ok (f x)) = is_ok m.
Proof. by destruct m. Qed.

(** A member that fills a field of [Response] fills the field of [Error]
    with the same tag, and a member for [error_code] or [message] is
    refused only when it is no string. *)
Lemma find_field_envelope_Err key :
  match find_field Response_fields key, find_field Error_fields key with
  | Some f, Some g =>
      forall v r e, is_ok (field_set f v r) = true -> is_ok (field_set g v e) = true
  | None, Some g =>
      forall v e je, parsed v -> field_set g v e = Err je ->
                     not_a_string je
  | None, None => True
  | Some _, None => False
  end.
Proof.
  unfold find_field, name_matches, Response_fields, Error_fields. simpl List.find.
  decide_names; try done; unfold setter;
    cbn [field_set decode string_Unmarshaler float64_Unmarshaler RawMessage_Unmarshaler];
    intros; rewrite ?is_ok_bind_Ok in *; try done.
  all: first [ by erewrite decode_string_old | by erewrite decode_float64_old
             | inv_bind; by eapply decode_string_Err ].
Qed.

(** When the members decode as a [Response], they are refused as an
    [Error] only for an [error_code] or a [message] that is no string. *)
Lemma decode_members_Error_Err ms : forall r e r' je,
  Forall (fun m : string * value => valid_raw m.1 = true /\ parsed m.2) ms ->
  decode_members Response_fields ms r = Ok r' ->
  decode_members Error_fields ms e = Err je ->
  not_a_string je.
Proof.
  induction ms as [|[k v] ms IH]; intros r e r' je Hms; cbn [decode_members]; [done|].
  apply Forall_cons in Hms as [[_ Hv] Hms].
  destruct (unquote k) as [key|]; [cbn [of_option mbind result_bind]|done].
  pose proof (find_field_envelope_Err key) as Hf.
  destruct (find_field Response_fields key) as [f|],
           (find_field Error_fields key) as [g|]; try done; [| |by eauto].
  - intros Hr He. specialize (Hf v r e).
    destruct (field_set f v r) as [r1|]; [|done].
    destruct (field_set g v e) as [e1|]; [|by discriminate Hf]. eauto.
  - intros Hr He. destruct (field_set g v e) as [e1|je'] eqn:Hg; [by eauto|].
    injection He as <-. eauto.
Qed.

Lemma Unmarshal_Error_Err body resp je :
  Unmarshal body (zero Response) = Ok resp -> Unmarshal body (zero Error) = Err je ->
  not_a_string je.
Proof.
  unfold Unmarshal. destruct (json_parse body) as [v|] eqn:Hp; [|done].
  apply json_parse_scanned in Hp.
  destruct v; try done. cbn [decode Response_Unmarshaler Error_Unmarshaler decode_struct].
  by apply decode_members_Error_Err, parsed_members.
Qed.


(** For a reply with status 200, the error of the second decoder. *)
Lemma envelope_second_Err body je :
  envelope StatusOK body
    = Err (Wrapped "error unmarshaling error response" (JsonCause je)) <->
  (exists resp, Unmarshal body (zero Response) = Ok resp /\
                Response_Status resp <> "success") /\
  Unmarshal body (zero Error) = Err je.
Proof.
  rewrite envelope_Err. unfold rejection. split.
  - intros [(? & _ & _ & [=])|[[?|Hr] [(je' & He & [= <-])|(? & _ & [=])]]]; done.
  - intros [Hr He]. right. split; [by right|]. left. eauto.
Qed.

Lemma Response_folds_apart : folds_apart Response_fields.
Proof. apply (bool_decide_unpack _). by vm_compute. Qed.

Lemma Error_folds_apart : folds_apart Error_fields.
Proof. apply (bool_decide_unpack _). by vm_compute. Qed.

(** What [do] makes of a body does not depend on the case of its keys. *)
Lemma envelope_fold code body body' ms ms' :
  json_parse body = Some (JObject ms) -> json_parse body' = Some (JObject ms') ->
  same_members ms ms' -> envelope code body = envelope code body'.
Proof.
  intros Hb Hb' Hms. unfold envelope, Unmarshal. rewrite Hb, Hb'.
  cbn [decode Response_Unmarshaler Error_Unmarshaler decode_struct].
  by rewrite (decode_members_fold _ Response_folds_apart _ _ Hms),
             (decode_members_fold _ Error_folds_apart _ _ Hms).
Qed.

Section envelope_properties.
Variable T : RoundTripper.
Implicit Types (c : Client) (m p : string) (b : option boxed).

(** C39. The second decoding of [do], for a reply with status 200: [do]
    returns ["error unmarshaling error response"] exactly when the body
    decodes as a [Response] that does not say ["success"] and does not
    decode as an [Error]; and then the body is JSON, and the failure is an
    [error_code] or a [message] that is no string.  A body that is no JSON
    never reaches the second decoder. *)
Theorem do_second_decoder c m p b r je :
  answered T c m p b r -> reply_status r = StatusOK ->
  (do T c m p b = Err (Wrapped "error unmarshaling error response" (JsonCause je)) <->
   (exists resp, Unmarshal (reply_body r) (zero Response) = Ok resp /\
                 Response_Status resp <> "success") /\
   Unmarshal (reply_body r) (zero Error) = Err je) /\
  (do T c m p b = Err (Wrapped "error unmarshaling error response" (JsonCause je)) ->
   not_a_string je).
Proof.
  intros Ha Hst. rewrite (do_answered _ _ _ _ _ _ Ha), Hst.
  split; [apply envelope_second_Err|].
  intros [(resp & Hu & _) He]%envelope_second_Err. by eapply Unmarshal_Error_Err.
Qed.

(** C37. [do] reads the keys of the envelope whatever their case, as
    [json.Unmarshal] does: two servers that answer with the same status and
    with objects of the same members, under keys that are equal after
    folding, get the same result from [do], response or error. *)
Theorem do_keys_fold T' c m p b r r' :
  answered T c m p b r -> answered T' c m p b r' -> same_reply r r' ->
  do T c m p b = do T' c m p b.
Proof.
  intros Ha Ha' (Hst & ms & ms' & Hb & Hb' & Hms).
  rewrite (do_answered _ _ _ _ _ _ Ha), (do_answered _ _ _ _ _ _ Ha'), Hst.
  by eapply envelope_fold.
Qed.

(** What [do] returns is well typed: the strings of a [Response], and of
    an [Error] decoded from a reply, are valid UTF-8, the time is a number,
    and [flags] and [data] hold the text of one JSON value each, or nothing
    when the body had no such member. *)
Lemma do_typed c m p b :
  match do T c m p b with
  | Ok resp => Response_typed resp
  | Err (ApiError ae) => Error_typed ae
  | Err _ => True
  end.
Proof.
  pose proof (do_returns_res T c m p b) as Hr.
  inversion Hr as [| | | | | |r e Ha _ Hrej|r resp Ha _ Hu _]; try done.
  - destruct Hrej as [(? & _ & ->)|(ae & Hu & ->)]; [done|].
    change (typed ae). eapply Unmarshal_typed; [apply typed_zero|done].
  - change (typed resp). eapply Unmarshal_typed; [apply typed_zero|done].
Qed.
End envelope_properties.

(** * The properties at the inputs of the tests *)

Lemma do_second_decoder_witness :
  do (serve 200 bad_message_body) test_client MethodPost "/test" None
  = Err (Wrapped "error unmarshaling error response"
           (JsonCause (UnmarshalTypeError KNumber "string"))).
Proof.
  apply (proj1 (do_second_decoder (serve 200 bad_message_body) test_client MethodPost
                  "/test" None _ _ (answered_test_client 200 bad_message_body) eq_refl)).
  split; [eexists; split; [reflexivity|done]|reflexivity].
Defined.

Lemma do_keys_fold_witness :
  do (serve 200 shouted_body) test_client MethodPost "/test" None
  = do (serve 200 quiet_body) test_client MethodPost "/test" None.
Proof.
  apply (do_keys_fold _ _ _ _ _ _ _ _
           (answered_test_client 200 shouted_body) (answered_test_client 200 quiet_body)).
  split; [reflexivity|]. eexists _, _. split; [reflexivity|split; [reflexivity|]].
  repeat (apply List.Forall2_cons;
          [split; [eexists _, _; repeat split; reflexivity|reflexivity]|]).
  apply List.Forall2_nil.
Defined.
