(* ===== verification/Messages.v ===== *)
(** * Messages: messages.go

    The four operations of the client (src/unnamed/part_001).  Each posts a
    body to a fixed path with [post] and decodes the [data] of the envelope
    into its result.  An error of [post] is returned as it is; an error of
    the decoding is wrapped.

    [GetMessage] and [GetMessageDeliveries] send the map
    [map[string]interface{}{"id": id}].  The send operations pass their
    request pointer as the body, so a nil request is sent as [null].

    The last part looks at both ends of the wire: a server that decodes
    the body of the request ([decoding]) and one that answers with the
    success envelope around a marshalled response ([success_text]); there
    the bound of a message id, 64 bits, is exact.  What an operation
    returns keeps the invariant of its type ([Typed]). *)

From Stdlib Require Import ZArith Lia Ascii String.
From stdpp Require Import base tactics option list strings gmap.
From S2P Require Import Prelude Json JsonString JsonParse JsonPrint Codec RoundTrip GoTime Typed Models Http Fixtures Client Envelope.

Local Open Scope go_scope.
Local Open Scope Z_scope.

Section messages.
Variable DefaultTransport : RoundTripper.
Context `{TimeParser}.

(** [map[string]interface{}{"id": id}]. *)
Definition id_body (id : Z) : gomap (option boxed) :=
  Map {[ "id" := Some (Box id) ]}.

Definition GetMessage (c : Client) (id : Z) : result error Message :=
  let body := id_body id in
  resp ← post DefaultTransport c "/messages/message" (Some (Box body));
  Unmarshal_raw (Response_Data resp) (zero Message)
    or_wrap wrap "error unmarshaling response" JsonCause.

Definition GetMessageDeliveries (c : Client) (id : Z)
  : result error (slice Delivery) :=
  let body := id_body id in
  resp ← post DefaultTransport c "/messages/deliveries" (Some (Box body));
  Unmarshal_raw (Response_Data resp) (zero (slice Delivery))
    or_wrap wrap "error unmarshaling response" JsonCause.

Definition SendMessage (c : Client) (req : option SendMessageRequest)
  : result error SendMessageResponse :=
  resp ← post DefaultTransport c "/send/message" (Some (Box req));
  Unmarshal_raw (Response_Data resp) (zero SendMessageResponse)
    or_wrap wrap "error unmarshaling send response" JsonCause.

Definition SendRaw (c : Client) (req : option SendRawRequest)
  : result error SendMessageResponse :=
  resp ← post DefaultTransport c "/send/raw" (Some (Box req));
  Unmarshal_raw (Response_Data resp) (zero SendMessageResponse)
    or_wrap wrap "error unmarshaling send response" JsonCause.

End messages.

(** * The contract of an operation *)

(** [x] is what the server holds for a POST of [body] to [path]: the reply
    arrived in full with status 200, its envelope says ["success"], and its
    [data] decodes to [x]. *)
Definition delivers {A} `{Unmarshaler A} (T : RoundTripper) (c : Client)
    (path : string) (body : option boxed) (x : A) : Prop :=
  exists r resp v,
    answered T c MethodPost path body r /\ reply_status r = StatusOK /\
    Unmarshal (reply_body r) (zero Response) = Ok resp /\
    Response_Status resp = "success" /\
    Response_Data resp = Raw v /\ decode v (zero A) = Ok x.

(** * The requests of the tests (messages_test.go) *)

(** The request of [TestSendMessage]. *)
Definition test_message : SendMessageRequest :=
  mkSendMessageRequest (Slice ["recipient@example.com"]) SliceNil SliceNil
    "test@example.com" "" "Test Subject" "" "" "Test Body" "" SliceNil MapNil false.

(** The request of [TestSendRaw]. *)
Definition test_raw : SendRawRequest :=
  mkSendRawRequest "test@example.com" (Slice ["recipient@example.com"])
    "base64-encoded-data" false.

(** What [TestSendMessage] and [TestSendRaw] expect. *)
Definition test_sent : SendMessageResponse := mkSendMessageResponse 123 "test-token".

(** * Servers that decode and encode *)

(** A server whose handler decodes the body of the request into a value of
    type [A], as the handlers of TestSendMessage and TestSendRaw do, and
    answers according to it; [bad] is what happens with a body that does
    not decode. *)
Definition decoding {A} `{Unmarshaler A} (handler : A -> exchange) (bad : exchange)
  : RoundTripper :=
  fun req =>
    match Decode (default "" (Request_Body req)) (zero A) with
    | Ok x => handler x
    | Err _ => bad
    end.

(** The envelope of a server that accepts the call, with [data]. *)
Definition success_reply (data : value) : value :=
  JObject [("status"%string, JString "success");
           ("time"%string, JNumber (Decimal.Decimal (Decimal.Pos (Decimal.D0 Decimal.Nil))
                               (Decimal.D1 (Decimal.D2 (Decimal.D3 Decimal.Nil)))));
           ("flags"%string, JObject []);
           ("data"%string, data)].

(** The text of that envelope around the text [data]. *)
Definition success_text (data : string) : string :=
  lit "{'status':'success','time':0.123,'flags':{},'data':" +:+ data +:+ "}".

(** * The scheme of an operation *)

Section scheme.
Context {A : Type} `{Unmarshaler A}.
Variable T : RoundTripper.
Implicit Types (c : Client) (path msg : string) (body : option boxed).

(** A POST followed by the decoding of [data] succeeds exactly when the
    server [delivers]. *)
Lemma data_Ok c path body msg (x : A) :
  (resp ← post T c path body;
   Unmarshal_raw (Response_Data resp) (zero A) or_wrap wrap msg JsonCause) = Ok x <->
  delivers T c path body x.
Proof.
  unfold delivers, post. split.
  - intros Hm. inv_bind. unfold Unmarshal_raw in *. case_match; [done|].
    match goal with Hd : do _ _ _ _ _ = Ok _ |- _ =>
      apply do_returns in Hd; inversion Hd; subst end.
    eauto 10.
  - intros (r & resp & v & Ha & Hst & Hu & Hs & Hd & Hx).
    rewrite (do_answered _ _ _ _ _ _ Ha), (proj2 (envelope_Ok _ _ resp)) by done.
    simpl. unfold Unmarshal_raw. by rewrite Hd, Hx.
Qed.

(** It fails with the error of [post], or with the wrapped error of the
    decoder. *)
Lemma data_Err c path body msg e :
  (resp ← post T c path body;
   Unmarshal_raw (Response_Data resp) (zero A) or_wrap wrap msg JsonCause) = Err e <->
  post T c path body = Err e \/
  exists resp je, post T c path body = Ok resp /\
                  Unmarshal_raw (Response_Data resp) (zero A) = Err je /\
                  e = Wrapped msg (JsonCause je).
Proof.
  split.
  - intros Hm. inv_bind; eauto 10.
  - intros [->|(resp & je & -> & Hu & ->)]; [done|]. simpl. by rewrite Hu.
Qed.

(** The answer of a server that accepts the call, with the [data] of its
    envelope. *)
Lemma post_accepted c path body r resp :
  answered T c MethodPost path body r -> reply_status r = StatusOK ->
  Unmarshal (reply_body r) (zero Response) = Ok resp ->
  Response_Status resp = "success" -> post T c path body = Ok resp.
Proof.
  intros Ha Hst Hu Hs. unfold post.
  rewrite (do_answered _ _ _ _ _ _ Ha). by apply envelope_Ok.
Qed.

(** The error of the decoder of [data], under a message that is not one of
    [do]: it is returned exactly when the server accepted the call and the
    [data] of its envelope does not decode. *)
Lemma own_decode_Err c path body je :
  (resp ← post T c path body;
   Unmarshal_raw (Response_Data resp) (zero A)
     or_wrap wrap "error unmarshaling send response" JsonCause)
  = Err (Wrapped "error unmarshaling send response" (JsonCause je)) <->
  exists r resp,
    answered T c MethodPost path body r /\ reply_status r = StatusOK /\
    Unmarshal (reply_body r) (zero Response) = Ok resp /\
    Response_Status resp = "success" /\
    Unmarshal_raw (Response_Data resp) (zero A) = Err je.
Proof.
  rewrite data_Err. unfold post. split.
  - intros [Hp|(resp & je' & Hp & Hu & [= <-])]; apply do_returns in Hp.
    + inversion Hp as [| | | | | |r e' _ _ Hrej|]; subst.
      by destruct Hrej as [(? & _ & ?)|(? & _ & ?)].
    + inversion Hp; subst. eauto 10.
  - intros (r & resp & Ha & Hst & Hu & Hs & Hd). right. exists resp, je.
    by rewrite <- (post_accepted _ _ _ _ _ Ha Hst Hu Hs).
Qed.
End scheme.

(** What the server delivers is well typed: the [data] of the envelope is
    the text of a value, and its decoder keeps the invariant of the
    result. *)
Lemma delivers_typed {A} `{Typed A} T c path body (x : A) :
  delivers T c path body x -> typed x.
Proof.
  intros (r & resp & v & _ & _ & Hu & _ & Hd & Hx).
  eapply typed_decode; [|apply typed_zero|done].
  apply (Unmarshal_typed _ (zero Response)) in Hu as (_ & _ & _ & Hdata); [|apply typed_zero].
  by rewrite Hd in Hdata.
Qed.

(** A nil request is marshalled to [null] and posted: the call is what
    the answer to that request makes it. *)
Lemma nil_answered {A} `{Marshaler A} (T : RoundTripper) c hc path r :
  Client_HTTPClient c = Some hc ->
  existsb_string is_ctl (Client_BaseURL c +:+ path) = false ->
  transport_of T hc (mkRequest MethodPost (Client_BaseURL c +:+ path) (headers_of c)
                       (Some "null")) = Replied r ->
  received hc r ->
  post T c path (Some (Box (None : option A))) = envelope (reply_status r) (reply_body r).
Proof.
  intros Hhc Hu Ht Hr. apply do_answered.
  exists (mkRequest MethodPost (Client_BaseURL c +:+ path) (headers_of c) (Some "null")), hc.
  split; [by repeat split|done].
Qed.

(** The body of the two queries: the object with the member [id]. *)
Lemma id_body_Marshal id :
  Marshal (Box (id_body id)) = Ok (lit "{'id':" +:+ print_int (Z.to_int id) +:+ "}").
Proof.
  unfold Marshal, id_body. simpl. unfold sorted_entries.
  rewrite map_to_list_singleton. simpl. unfold print_number. by str_simpl.
Qed.

(** * Properties of the operations *)

Section operations.
Variable T : RoundTripper.
Context `{TimeParser}.
Implicit Types (c : Client) (id : Z).

(** C8. [SendMessage] returns a result exactly when the server answers
    the POST of the request to [/send/message] in full, with status 200 and
    an envelope that says ["success"], and the result is what the [data] of
    the envelope decodes to. *)
Theorem SendMessage_delivers c req r :
  SendMessage T c req = Ok r <-> delivers T c "/send/message" (Some (Box req)) r.
Proof. apply data_Ok. Qed.

(** C10. [SendRaw] returns a result exactly when the server answers the
    POST of the request to [/send/raw] in full, with status 200 and an
    envelope that says ["success"], and the result is what the [data] of the
    envelope decodes to. *)
Theorem SendRaw_delivers c req r :
  SendRaw T c req = Ok r <-> delivers T c "/send/raw" (Some (Box req)) r.
Proof. apply data_Ok. Qed.

(** C9. [GetMessage] returns a message exactly when the server answers
    the POST of [{"id": id}] to [/messages/message] in full, with status
    200 and an envelope that says ["success"], and the message is what the
    [data] of the envelope decodes to. *)
Theorem GetMessage_delivers c id msg :
  GetMessage T c id = Ok msg <->
  delivers T c "/messages/message" (Some (Box (id_body id))) msg.
Proof. apply data_Ok. Qed.

(** C11. [GetMessageDeliveries] returns the deliveries exactly when the
    server answers the POST of [{"id": id}] to [/messages/deliveries] in
    full, with status 200 and an envelope that says ["success"], and the
    deliveries are what the [data] of the envelope decodes to. *)
Theorem GetMessageDeliveries_delivers c id ds :
  GetMessageDeliveries T c id = Ok ds <->
  delivers T c "/messages/deliveries" (Some (Box (id_body id))) ds.
Proof. apply data_Ok. Qed.

(** C12. An operation fails with the error of its POST, unchanged, or
    with the error of the decoder of [data] wrapped in its own message:
    ["error unmarshaling response"] for the queries, ["error unmarshaling
    send response"] for the two ways of sending. *)
Theorem operations_Err c id req raw e :
  (GetMessage T c id = Err e <->
   post T c "/messages/message" (Some (Box (id_body id))) = Err e \/
   exists resp je,
     post T c "/messages/message" (Some (Box (id_body id))) = Ok resp /\
     Unmarshal_raw (Response_Data resp) (zero Message) = Err je /\
     e = Wrapped "error unmarshaling response" (JsonCause je)) /\
  (GetMessageDeliveries T c id = Err e <->
   post T c "/messages/deliveries" (Some (Box (id_body id))) = Err e \/
   exists resp je,
     post T c "/messages/deliveries" (Some (Box (id_body id))) = Ok resp /\
     Unmarshal_raw (Response_Data resp) (zero (slice Delivery)) = Err je /\
     e = Wrapped "error unmarshaling response" (JsonCause je)) /\
  (SendMessage T c req = Err e <->
   post T c "/send/message" (Some (Box req)) = Err e \/
   exists resp je,
     post T c "/send/message" (Some (Box req)) = Ok resp /\
     Unmarshal_raw (Response_Data resp) (zero SendMessageResponse) = Err je /\
     e = Wrapped "error unmarshaling send response" (JsonCause je)) /\
  (SendRaw T c raw = Err e <->
   post T c "/send/raw" (Some (Box raw)) = Err e \/
   exists resp je,
     post T c "/send/raw" (Some (Box raw)) = Ok resp /\
     Unmarshal_raw (Response_Data resp) (zero SendMessageResponse) = Err je /\
     e = Wrapped "error unmarshaling send response" (JsonCause je)).
Proof. repeat split; apply data_Err. Qed.

(** C35. What an operation returns is well typed: every integer of a
    message, a delivery or a send result is within 64 bits, every string is
    valid UTF-8 whatever bytes the server sent, every time is a number, and
    the [inspection] of a message holds the text of a value. *)
Theorem operations_typed c id req raw :
  (forall msg, GetMessage T c id = Ok msg -> Message_typed msg) /\
  (forall ds, GetMessageDeliveries T c id = Ok ds -> Forall Delivery_typed (elems ds)) /\
  (forall r, SendMessage T c req = Ok r -> SendMessageResponse_typed r) /\
  (forall r, SendRaw T c raw = Ok r -> SendMessageResponse_typed r).
Proof.
  split; [|split; [|split]]; intros x Hx%data_Ok; by apply delivers_typed in Hx.
Qed.

(** C21. No operation fails to marshal its request: the body of a query
    is an object with one number, and no field of a request has a type that
    [json.Marshal] refuses. *)
Theorem operations_always_marshal c id req raw je :
  let e := Wrapped "error marshaling request body" (JsonCause je) in
  GetMessage T c id <> Err e /\ GetMessageDeliveries T c id <> Err e /\
  SendMessage T c req <> Err e /\ SendRaw T c raw <> Err e.
Proof.
  assert (Hno : forall p b, is_ok (marshal_body b) = true ->
            post T c p b <> Err (Wrapped "error marshaling request body" (JsonCause je))).
  { intros p b Hb Hp%do_returns. inversion Hp as [je' Hm| | | | | |r e' _ _ Hrej|]; subst.
    - by rewrite Hm in Hb.
    - by destruct Hrej as [(? & _ & ?)|(? & _ & ?)]. }
  assert (Hop : forall (A : Type) `(Unmarshaler A) p b msg,
            msg <> "error marshaling request body" -> is_ok (marshal_body b) = true ->
            (resp ← post T c p b;
             Unmarshal_raw (Response_Data resp) (zero A) or_wrap wrap msg JsonCause)
            <> Err (Wrapped "error marshaling request body" (JsonCause je))).
  { intros A ? p b msg Hmsg Hb [Hp|(? & ? & _ & _ & [= ? _])]%data_Err; [|done].
    by apply (Hno p b). }
  assert (Hid : is_ok (marshal_body (Some (Box (id_body id)))) = true).
  { simpl. by rewrite id_body_Marshal. }
  assert (Hreq : forall (A : Type) `(Total A) (x : A),
            is_ok (marshal_body (Some (Box x))) = true).
  { intros A ? ? x. simpl. pose proof (Marshal_total x) as Hx.
    unfold Marshal in *. simpl. by destruct (encode x). }
  repeat split; (apply Hop; [done|first [exact Hid|by apply Hreq, _]]).
Qed.
End operations.

Section data.
Variable T : RoundTripper.
Implicit Types (c : Client).

(** C23. A nil request is not refused: [SendMessage] and [SendRaw]
    post the body [null] to their path with the headers of the client, and
    return what the answer of the server to that request makes of the call,
    the decoding of its [data] included. *)
Theorem nil_request_is_sent c hc path r :
  Client_HTTPClient c = Some hc ->
  existsb_string is_ctl (Client_BaseURL c +:+ path) = false ->
  transport_of T hc (mkRequest MethodPost (Client_BaseURL c +:+ path) (headers_of c)
                       (Some "null")) = Replied r ->
  received hc r ->
  let answer :=
    resp ← envelope (reply_status r) (reply_body r);
    Unmarshal_raw (Response_Data resp) (zero SendMessageResponse)
      or_wrap wrap "error unmarshaling send response" JsonCause in
  (path = "/send/message" -> SendMessage T c None = answer) /\
  (path = "/send/raw" -> SendRaw T c None = answer).
Proof.
  intros Hhc Hu Ht Hr answer.
  split; intros ->; unfold SendMessage, SendRaw; by erewrite nil_answered.
Qed.

(** C22. When the envelope says ["success"] and its [data] is [null],
    [SendMessage] returns the zero result and no error; when the envelope
    has no [data], it returns the error of the decoder. *)
Theorem SendMessage_null_data c req r resp :
  answered T c MethodPost "/send/message" (Some (Box req)) r ->
  reply_status r = StatusOK ->
  Unmarshal (reply_body r) (zero Response) = Ok resp ->
  Response_Status resp = "success" ->
  (Response_Data resp = Raw JNull ->
   SendMessage T c req = Ok (mkSendMessageResponse 0 "")) /\
  (Response_Data resp = RawNil ->
   SendMessage T c req =
     Err (Wrapped "error unmarshaling send response" (JsonCause SyntaxError))).
Proof.
  intros Ha Hst Hu Hs. unfold SendMessage.
  rewrite (post_accepted _ _ _ _ _ _ Ha Hst Hu Hs). simpl. by split; intros ->.
Qed.

(** C38. The error ["error unmarshaling send response"] has one source:
    [SendMessage] and [SendRaw] return it exactly when the reply arrived in
    full with status 200, its body decodes as an envelope that says
    ["success"], and the [data] of that envelope does not decode into the
    result.  A body that is no JSON at all never gives it: the call fails
    before, in [do]. *)
Theorem send_decode_error_iff c req raw je :
  (SendMessage T c req
     = Err (Wrapped "error unmarshaling send response" (JsonCause je)) <->
   exists r resp,
     answered T c MethodPost "/send/message" (Some (Box req)) r /\
     reply_status r = StatusOK /\
     Unmarshal (reply_body r) (zero Response) = Ok resp /\
     Response_Status resp = "success" /\
     Unmarshal_raw (Response_Data resp) (zero SendMessageResponse) = Err je) /\
  (SendRaw T c raw
     = Err (Wrapped "error unmarshaling send response" (JsonCause je)) <->
   exists r resp,
     answered T c MethodPost "/send/raw" (Some (Box raw)) r /\
     reply_status r = StatusOK /\
     Unmarshal (reply_body r) (zero Response) = Ok resp /\
     Response_Status resp = "success" /\
     Unmarshal_raw (Response_Data resp) (zero SendMessageResponse) = Err je).
Proof. split; apply own_decode_Err. Qed.
End data.

(** * Both ends of the wire *)

(** What a valid request is marshalled to decodes to the request. *)
Lemma marshal_body_decodes {A} `{Faithful A} `{!Total A} (x : A) body :
  sound x -> (depth A <= max_depth)%nat ->
  marshal_body (Some (Box (Some x))) = Ok body ->
  Unmarshal (default "" body) (zero A) = Ok x.
Proof.
  intros Hx Hd Hb. destruct (survives x Hx Hd) as (text & Hm & Hu).
  unfold marshal_body in Hb. change (Marshal (Box (Some x))) with (Marshal x) in Hb.
  rewrite Hm in Hb. by injection Hb as <-.
Qed.

Section wire.
Variable T : RoundTripper.
Implicit Types (c : Client).

(** C27. A server that decodes the body of the request of [SendMessage]
    reads the request of the caller: for a valid request, the operation
    returns what it returns when the handler is given that request. *)
Theorem SendMessage_server_reads c req handler bad :
  SendMessageRequest_valid req ->
  SendMessage (decoding handler bad) c (Some req)
  = SendMessage (fun _ => handler req) c (Some req).
Proof.
  intros Hr%SendMessageRequest_valid_sound. unfold SendMessage, post.
  rewrite (do_ext (decoding handler bad) (fun _ => handler req)); [done|].
  intros r (_ & _ & Hb & _). unfold decoding.
  rewrite (Decode_Unmarshal _ _ req); [done|].
  apply marshal_body_decodes; [done|by apply Nat.leb_le|done].
Qed.

(** A server that decodes the body of the request of [SendRaw] reads
    the request of the caller. *)
Lemma SendRaw_server_reads c req handler bad :
  SendRawRequest_valid req ->
  SendRaw (decoding handler bad) c (Some req)
  = SendRaw (fun _ => handler req) c (Some req).
Proof.
  intros Hr%SendRawRequest_valid_sound. unfold SendRaw, post.
  rewrite (do_ext (decoding handler bad) (fun _ => handler req)); [done|].
  intros r (_ & _ & Hb & _). unfold decoding.
  rewrite (Decode_Unmarshal _ _ req); [done|].
  apply marshal_body_decodes; [done|by apply Nat.leb_le|done].
Qed.

Lemma Unmarshal_success_reply v :
  wf_value v = true -> (value_depth v < max_depth)%nat ->
  exists resp, Unmarshal (json_print (success_reply v)) (zero Response) = Ok resp /\
               Response_Status resp = "success" /\ Response_Data resp = Raw v.
Proof.
  intros Hv Hd. rewrite Unmarshal_json_print.
  - eexists. split; [by vm_compute|]. done.
  - cbn. by rewrite Hv.
  - assert (2 <= max_depth)%nat by (by apply Nat.leb_le).
    cbn [value_depth success_reply foldr snd]. lia.
Qed.

(** The text of the envelope is the print of its value. *)
Lemma success_text_print v : json_print (success_reply v) = success_text (json_print v).
Proof. unfold success_text. cbn. unfold print_string, print_number. by str_simpl. Qed.

(** The client returns what the server marshalled into the [data] of a
    success envelope. *)
Lemma send_reads_answer c path body resp data r :
  answered T c MethodPost path body r -> reply_status r = StatusOK ->
  SendMessageResponse_valid resp -> Marshal resp = Ok data ->
  reply_body r = success_text data ->
  (r' ← post T c path body;
   Unmarshal_raw (Response_Data r') (zero SendMessageResponse)
     or_wrap wrap "error unmarshaling send response" JsonCause) = Ok resp.
Proof.
  intros Ha Hst Hr%SendMessageResponse_valid_sound (v & Hv & [= <-])%bind_Ok_inv Hb.
  rewrite <- success_text_print in Hb.
  destruct (Unmarshal_success_reply v) as (resp0 & Hu & Hs & Hd).
  { by apply (encode_wf resp). }
  { pose proof (encode_depth resp v Hv).
    assert (depth SendMessageResponse < max_depth)%nat by (by apply Nat.ltb_lt). lia. }
  rewrite <- Hb in Hu. rewrite (post_accepted _ _ _ _ _ _ Ha Hst Hu Hs).
  cbn [mbind result_bind]. rewrite Hd. cbn [Unmarshal_raw].
  by rewrite (round_trip resp v).
Qed.

(** C28. [SendMessage] returns the response the server marshalled: when
    the reply arrives in full with status 200 and its body is the success
    envelope around the text of a valid response, the result is that
    response. *)
Theorem SendMessage_reads_answer c req resp data r :
  answered T c MethodPost "/send/message" (Some (Box req)) r ->
  reply_status r = StatusOK ->
  SendMessageResponse_valid resp -> Marshal resp = Ok data ->
  reply_body r = success_text data ->
  SendMessage T c req = Ok resp.
Proof. apply send_reads_answer. Qed.

(** [SendRaw] returns the response the server marshalled into the
    success envelope. *)
Lemma SendRaw_reads_answer c req resp data r :
  answered T c MethodPost "/send/raw" (Some (Box req)) r ->
  reply_status r = StatusOK ->
  SendMessageResponse_valid resp -> Marshal resp = Ok data ->
  reply_body r = success_text data ->
  SendRaw T c req = Ok resp.
Proof. apply send_reads_answer. Qed.

(** The [data] a server writes for a response. *)
Lemma encode_SendMessageResponse z tok :
  encode (mkSendMessageResponse z tok)
  = Ok (JObject [(quote "message_id", JNumber (Decimal.Decimal (Z.to_int z) Decimal.Nil));
                 (quote "token", JString (quote tok))]).
Proof. done. Qed.

(** An id beyond 64 bits is refused by the decoder of the result. *)
Lemma decode_id_beyond z tok :
  ~ int_range z ->
  decode (JObject [(quote "message_id", JNumber (Decimal.Decimal (Z.to_int z) Decimal.Nil));
                   (quote "token", JString (quote tok))]) (zero SendMessageResponse)
  = Err (UnmarshalTypeError KNumber "int").
Proof.
  intros Hz. cbn [decode SendMessageResponse_Unmarshaler decode_struct decode_members].
  change (unquote (quote "message_id")) with (Some "message_id").
  cbn [of_option mbind result_bind].
  change (find_field SendMessageResponse_fields "message_id")
    with (Some (wire_in (Wire "message_id" false SendMessageResponse_MessageID (fun x s =>
            mkSendMessageResponse x (SendMessageResponse_Token s))))).
  unfold setter. cbn -[int_of_decimal unquote quote]. by rewrite int_of_decimal_beyond.
Qed.

(** C33. The id of a message is an [int] of 64 bits, and [SendMessage]
    holds the server to it: when the server answers with the success
    envelope around a response with the id [z], the call returns that
    response if [z] is within 64 bits, and the type error of the decoder,
    wrapped, if it is beyond them.  No id is wrapped around or cut. *)
Theorem SendMessage_id_bounds c req r z tok data :
  answered T c MethodPost "/send/message" (Some (Box req)) r ->
  reply_status r = StatusOK ->
  valid_utf8 tok = true ->
  Marshal (mkSendMessageResponse z tok) = Ok data ->
  reply_body r = success_text data ->
  SendMessage T c req =
    if decide (int_range z) then Ok (mkSendMessageResponse z tok)
    else Err (Wrapped "error unmarshaling send response"
                (JsonCause (UnmarshalTypeError KNumber "int"))).
Proof.
  intros Ha Hst Htok Hm Hb. case_decide as Hz.
  { by apply (send_reads_answer c _ _ _ data r). }
  apply bind_Ok_inv in Hm as (v & Hv & [= <-]).
  rewrite encode_SendMessageResponse in Hv. injection Hv as <-.
  rewrite <- success_text_print in Hb.
  destruct (Unmarshal_success_reply
              (JObject [(quote "message_id", JNumber (Decimal.Decimal (Z.to_int z) Decimal.Nil));
                        (quote "token", JString (quote tok))])) as (resp & Hu & Hs & Hd).
  { cbn [wf_value forallb fst snd]. by rewrite !valid_raw_quote, wf_number_to_int. }
  { by apply Nat.ltb_lt. }
  rewrite <- Hb in Hu. unfold SendMessage.
  rewrite (post_accepted _ _ _ _ _ _ Ha Hst Hu Hs). cbn [mbind result_bind].
  rewrite Hd. cbn [Unmarshal_raw]. by rewrite decode_id_beyond.
Qed.
End wire.

(** * The properties at the inputs of the tests *)

Lemma answered_test_message body :
  answered (serve 200 body) test_client MethodPost "/send/message"
    (Some (Box (Some test_message))) (mkReply Millisecond 200 body Millisecond None).
Proof.
  eexists _, _. split; [|split; [reflexivity|split; [reflexivity|]]].
  - apply request_of_Ok. by vm_compute.
  - by vm_compute.
Defined.

Lemma nil_request_is_sent_witness :
  SendMessage (serve 200 sent_body) test_client None = Ok test_sent.
Proof.
  refine (proj1 (nil_request_is_sent (serve 200 sent_body) test_client _ "/send/message"
                   (mkReply Millisecond 200 sent_body Millisecond None)
                   eq_refl eq_refl eq_refl _) eq_refl).
  by vm_compute.
Defined.

Lemma SendMessage_null_data_witness :
  SendMessage (serve 200 null_data_body) test_client (Some test_message)
  = Ok (mkSendMessageResponse 0 "").
Proof.
  eapply (proj1 (SendMessage_null_data _ _ _ _ _ (answered_test_message null_data_body)
                   eq_refl eq_refl eq_refl)).
  reflexivity.
Defined.

Lemma answered_test_raw body :
  answered (serve 200 body) test_client MethodPost "/send/raw"
    (Some (Box (Some test_raw))) (mkReply Millisecond 200 body Millisecond None).
Proof.
  eexists _, _. split; [|split; [reflexivity|split; [reflexivity|]]].
  - apply request_of_Ok. by vm_compute.
  - by vm_compute.
Defined.

Lemma test_message_valid : SendMessageRequest_valid test_message.
Proof. repeat split; try done; by repeat constructor. Defined.

Lemma test_raw_valid : SendRawRequest_valid test_raw.
Proof. repeat split; by repeat constructor. Defined.

Lemma test_sent_valid : SendMessageResponse_valid test_sent.
Proof. by split. Defined.

Lemma SendMessage_server_reads_witness :
  SendMessage (decoding (fun req => if bool_decide (SendMessageRequest_From req = "test@example.com")
                                    then Replied (mkReply Millisecond 200 sent_body Millisecond None)
                                    else NetError "t.Errorf")
                        (NetError "t.Errorf"))
              test_client (Some test_message)
  = SendMessage (fun _ => Replied (mkReply Millisecond 200 sent_body Millisecond None))
                test_client (Some test_message).
Proof.
  exact (SendMessage_server_reads test_client test_message _ _ test_message_valid).
Defined.

Lemma SendRaw_server_reads_witness :
  SendRaw (decoding (fun req => if bool_decide (SendRawRequest_MailFrom req = "test@example.com")
                                then Replied (mkReply Millisecond 200 sent_body Millisecond None)
                                else NetError "t.Errorf")
                    (NetError "t.Errorf"))
          test_client (Some test_raw)
  = SendRaw (fun _ => Replied (mkReply Millisecond 200 sent_body Millisecond None))
            test_client (Some test_raw).
Proof. exact (SendRaw_server_reads test_client test_raw _ _ test_raw_valid). Defined.

Lemma SendMessage_reads_answer_witness :
  SendMessage (serve 200 (success_text (lit "{'message_id':123,'token':'test-token'}")))
              test_client (Some test_message)
  = Ok test_sent.
Proof.
  exact (SendMessage_reads_answer _ _ _ _ _ _ (answered_test_message _) eq_refl
           test_sent_valid eq_refl eq_refl).
Defined.

Lemma SendRaw_reads_answer_witness :
  SendRaw (serve 200 (success_text (lit "{'message_id':123,'token':'test-token'}")))
          test_client (Some test_raw)
  = Ok test_sent.
Proof.
  exact (SendRaw_reads_answer _ _ _ _ _ _ (answered_test_raw _) eq_refl
           test_sent_valid eq_refl eq_refl).
Defined.

Lemma SendMessage_id_bounds_witness :
  SendMessage
    (serve 200 (success_text (lit "{'message_id':9223372036854775808,'token':'test-token'}")))
    test_client (Some test_message)
  = Err (Wrapped "error unmarshaling send response"
           (JsonCause (UnmarshalTypeError KNumber "int"))).
Proof.
  exact (SendMessage_id_bounds _ _ _ _ (2 ^ 63) "test-token" _ (answered_test_message _)
           eq_refl eq_refl eq_refl eq_refl).
Defined.
