(* ===== verification/Examples.v ===== *)
(** * Examples: the two example programs

    [message.SendExample] (src/examples/message/send_message.go) and
    [raw.SendExample] (examples/raw/send_raw.go, src/unnamed/part_003) make
    a client, send a message, print what the server assigned to it, then
    ask for the message and for its deliveries and print them.  After each
    call, an error ends the program through [log.Fatalf].

    A program is a function of the console: it adds lines to the standard
    output or to the standard error stream and returns or exits
    ([program], with the bind of stdpp).  [Printf] is [fmt.Printf] with its
    text already formatted; [Fatalf] is [log.Fatalf], whose line starts
    with the date and time, the parameter [stamp].  Both examples end with
    the same lines, which are [inspect] here.

    The discipline of the console ([disciplined]) is the invariant of
    these programs: a statement only adds lines to the standard output,
    and the only exit is that of [log.Fatalf], with status 1 after one
    line on the standard error stream. *)

From Stdlib Require Import ZArith Lia Ascii String.
From stdpp Require Import base tactics option list strings gmap.
From S2P Require Import Prelude Json JsonString JsonParse JsonPrint Codec RoundTrip Base64 GoTime Models Http Fixtures Client Messages.

Local Open Scope go_scope.
Local Open Scope Z_scope.

(** * A program that prints and may exit *)

Record console : Type := mkConsole {
  stdout : list string;
  stderr : list string
}.

Inductive ending (A : Type) : Type :=
| Returns (a : A)
| Exits (status : Z).
Arguments Returns {A} a.
Arguments Exits {A} status.

Definition program (A : Type) : Type := console -> console * ending A.

#[export] Instance program_ret : MRet program := fun A a k => (k, Returns a).

#[export] Instance program_bind : MBind program := fun A B f m k =>
  match m k with
  | (k', Returns a) => f a k'
  | (k', Exits n) => (k', Exits n)
  end.

Definition newline : string := String (byte_of 10) EmptyString.

(** [fmt.Printf] with its text formatted. *)
Definition Printf (text : string) : program unit :=
  fun k => (mkConsole (stdout k ++ [text]) (stderr k), Returns tt).

(** [%d] of an [int]. *)
Definition itoa (z : Z) : string := print_int (Z.to_int z).

(** [for i, x := range l { f(i, x) }]. *)
Fixpoint range {A} (f : Z -> A -> program unit) (i : Z) (l : list A) : program unit :=
  match l with
  | [] => mret tt
  | x :: l' => f i x;; range f (i + 1) l'
  end.

Section programs.
Variable DefaultTransport : RoundTripper.
Context `{TimeParser}.
(** The text of a wrapped error, and the date and time the standard logger
    writes in front of a message. *)
Variable describe : cause -> string.
Variable stamp : string.

(** [log.Fatalf]: the message goes to the standard error stream after the
    stamp, a newline is added, and the program exits with status 1. *)
Definition Fatalf {A} (text : string) : program A :=
  fun k => (mkConsole (stdout k) (stderr k ++ [stamp +:+ text +:+ newline]), Exits 1).

(** [if err != nil { log.Fatalf(format, err) }], the format ending in [%v]. *)
Definition or_Fatalf {A} (r : result error A) (format : string) : program A :=
  match r with
  | Ok a => mret a
  | Err e => Fatalf (format +:+ error_string describe e)
  end.

(** The client of both examples. *)
Definition example_client (apiKey baseURL : string) : Client :=
  let client := NewClient apiKey in
  if bool_decide (baseURL <> "") then set_BaseURL baseURL client else client.

Definition delivery_line (i : Z) (delivery : Delivery) : string :=
  "Delivery " +:+ itoa (i + 1) +:+ " - Status: " +:+ Delivery_Status delivery
  +:+ ", Details: " +:+ Delivery_Details delivery +:+ newline.

(** What both examples do with the response of the send operation. *)
Definition inspect (client : Client) (resp : SendMessageResponse) : program unit :=
  message ← or_Fatalf (GetMessage DefaultTransport client (SendMessageResponse_MessageID resp))
               "Error getting message: ";
  Printf ("Message details - ID: " +:+ itoa (Message_ID message) +:+ ", Token: "
          +:+ Message_Token message +:+ newline);;
  deliveries ← or_Fatalf (GetMessageDeliveries DefaultTransport client
                            (SendMessageResponse_MessageID resp))
                  "Error getting message deliveries: ";
  Printf ("Message has " +:+ itoa (Z.of_nat (len deliveries)) +:+ " deliveries" +:+ newline);;
  range (fun i delivery => Printf (delivery_line i delivery)) 0 (elems deliveries).

(** The lines of the deliveries, numbered from [i + 1]. *)
Fixpoint delivery_lines (i : Z) (ds : list Delivery) : list string :=
  match ds with
  | [] => []
  | d :: ds' => delivery_line i d :: delivery_lines (i + 1) ds'
  end.

Definition details_line (message : Message) : string :=
  "Message details - ID: " +:+ itoa (Message_ID message) +:+ ", Token: "
  +:+ Message_Token message +:+ newline.

Definition count_line (deliveries : slice Delivery) : string :=
  "Message has " +:+ itoa (Z.of_nat (len deliveries)) +:+ " deliveries" +:+ newline.

(** The console after [lines] were printed, and after a fatal message. *)
Definition printed (k : console) (lines : list string) : console :=
  mkConsole (stdout k ++ lines) (stderr k).

Definition failed (k : console) (format : string) (e : error) : console :=
  mkConsole (stdout k) (stderr k ++ [stamp +:+ (format +:+ error_string describe e) +:+ newline]).
End programs.

(** * The discipline of the console *)

(** The discipline of the console: a step from [k] to [k'] that ends with
    [e] only adds lines to the standard output; the standard error stream
    is left as it was by a step that returns, and gets one line from a
    step that exits, which exits with status 1. *)
Definition step_ok {A} (k : console) (r : console * ending A) : Prop :=
  stdout k `prefix_of` stdout r.1 /\
  match r.2 with
  | Returns _ => stderr r.1 = stderr k
  | Exits n => n = 1 /\ exists line, stderr r.1 = stderr k ++ [line]
  end.

(** A program that keeps the discipline from every console. *)
Definition disciplined {A} (m : program A) : Prop := forall k, step_ok k (m k).

(** * examples/message/send_message.go *)

Module message.
Section SendExample.
Variable DefaultTransport : RoundTripper.
Context `{TimeParser}.
Variable describe : cause -> string.
Variable stamp : string.

Definition req : SendMessageRequest :=
  mkSendMessageRequest (Slice ["recipient@example.com"]) SliceNil SliceNil
    "sender@yourdomain.com" "" "Hello from Postal API" "" ""
    "This is a test email sent using the Postal API Go client."
    "<p>This is a test email sent using the <strong>Postal API Go client</strong>.</p>"
    SliceNil (Map {[ "X-Custom-Header" := "Custom Value" ]}) false.

Definition sent_line (resp : SendMessageResponse) : string :=
  "Message sent successfully! Message ID: " +:+ itoa (SendMessageResponse_MessageID resp)
  +:+ ", Token: " +:+ SendMessageResponse_Token resp +:+ newline.

Definition SendExample (apiKey baseURL : string) : program unit :=
  let client := example_client apiKey baseURL in
  resp ← or_Fatalf describe stamp (SendMessage DefaultTransport client (Some req))
            "Error sending message: ";
  Printf (sent_line resp);;
  inspect DefaultTransport describe stamp client resp.
End SendExample.
End message.

(** * examples/raw/send_raw.go *)

Module raw.
Section SendExample.
Variable DefaultTransport : RoundTripper.
Context `{TimeParser}.
Variable describe : cause -> string.
Variable stamp : string.

Definition rawMessage : string := "From: sender@yourdomain.com
To: recipient@example.com
Subject: Hello from Postal API
Content-Type: text/plain; charset=utf-8

This is a test email sent using the Postal API Go client with a raw RFC2822 message.
".

Definition encodedMessage : string := EncodeToString rawMessage.

Definition req : SendRawRequest :=
  mkSendRawRequest "sender@yourdomain.com" (Slice ["recipient@example.com"])
    encodedMessage false.

Definition sent_line (resp : SendMessageResponse) : string :=
  "Raw message sent successfully! Message ID: "
  +:+ itoa (SendMessageResponse_MessageID resp)
  +:+ ", Token: " +:+ SendMessageResponse_Token resp +:+ newline.

Definition SendExample (apiKey baseURL : string) : program unit :=
  let client := example_client apiKey baseURL in
  resp ← or_Fatalf describe stamp (SendRaw DefaultTransport client (Some req))
            "Error sending raw message: ";
  Printf (sent_line resp);;
  inspect DefaultTransport describe stamp client resp.
End SendExample.
End raw.

(** * A server for the examples

    The answers of the servers of messages_test.go, by the path of the
    request. *)
Definition example_server : RoundTripper :=
  fun req =>
    let path := default "" (strip_prefix server_URL (Request_URL req)) in
    if bool_decide (path = "/messages/message") then serve 200 message_body req
    else if bool_decide (path = "/messages/deliveries") then serve 200 deliveries_body req
    else serve 200 sent_body req.

(** * Laws *)

Section program_laws.
Context {A B : Type}.
Implicit Types (m : program A) (f : A -> program B) (k : console).

Lemma bind_Returns m f k k' a : m k = (k', Returns a) -> (m ≫= f) k = f a k'.
Proof. unfold mbind, program_bind. by intros ->. Qed.

Lemma bind_Exits m f k k' n : m k = (k', Exits n) -> (m ≫= f) k = (k', Exits n).
Proof. unfold mbind, program_bind. by intros ->. Qed.
End program_laws.

Lemma stdout_printed k lines : stdout (printed k lines) = stdout k ++ lines.
Proof. done. Qed.

Lemma printed_printed k l1 l2 : printed (printed k l1) l2 = printed k (l1 ++ l2).
Proof. unfold printed. simpl. by rewrite <- (assoc_L (++)). Qed.

Lemma printed_nil k : printed k [] = k.
Proof. destruct k. unfold printed. simpl. by rewrite (right_id_L [] (++)). Qed.

Lemma Printf_printed text k : Printf text k = (printed k [text], Returns tt).
Proof. done. Qed.

Section example_laws.
Variable DefaultTransport : RoundTripper.
Context `{TimeParser}.
Variable describe : cause -> string.
Variable stamp : string.

Lemma range_printed ds : forall i k,
  range (fun i d => Printf (delivery_line i d)) i ds k
  = (printed k (delivery_lines i ds), Returns tt).
Proof.
  induction ds as [|d ds IH]; intros i k; cbn [range delivery_lines].
  - by rewrite printed_nil.
  - rewrite (bind_Returns _ _ _ _ _ (Printf_printed _ k)), IH. by rewrite printed_printed.
Qed.

Lemma or_Fatalf_Ok {A} (r : result error A) format a k :
  r = Ok a -> or_Fatalf describe stamp r format k = (k, Returns a).
Proof. by intros ->. Qed.

Lemma or_Fatalf_Err {A} (r : result error A) format e k :
  r = Err e ->
  or_Fatalf describe stamp r format k = (failed describe stamp k format e, Exits 1).
Proof. by intros ->. Qed.

(** What [inspect] leaves on the console, by the results of its two
    calls. *)
Lemma inspect_run client resp k :
  inspect DefaultTransport describe stamp client resp k =
    match GetMessage DefaultTransport client (SendMessageResponse_MessageID resp) with
    | Err e => (failed describe stamp k "Error getting message: " e, Exits 1)
    | Ok message =>
        match GetMessageDeliveries DefaultTransport client
                (SendMessageResponse_MessageID resp) with
        | Err e => (failed describe stamp (printed k [details_line message])
                      "Error getting message deliveries: " e, Exits 1)
        | Ok ds => (printed k (details_line message :: count_line ds
                               :: delivery_lines 0 (elems ds)), Returns tt)
        end
    end.
Proof.
  unfold inspect.
  destruct (GetMessage _ _ _) as [message|e] eqn:Hm;
    [|by erewrite bind_Exits by by apply or_Fatalf_Err].
  erewrite bind_Returns by by apply or_Fatalf_Ok.
  erewrite bind_Returns by apply Printf_printed.
  destruct (GetMessageDeliveries _ _ _) as [ds|e] eqn:Hd;
    [|by erewrite bind_Exits by by apply or_Fatalf_Err].
  erewrite bind_Returns by by apply or_Fatalf_Ok.
  erewrite bind_Returns by apply Printf_printed.
  by rewrite range_printed, !printed_printed.
Qed.

(** A send operation followed by the lines both examples share. *)
Lemma send_run (first : result error SendMessageResponse) format line client k :
  (resp ← or_Fatalf describe stamp first format;
   Printf (line resp);; inspect DefaultTransport describe stamp client resp) k =
    match first with
    | Err e => (failed describe stamp k format e, Exits 1)
    | Ok resp => inspect DefaultTransport describe stamp client resp (printed k [line resp])
    end.
Proof.
  destruct first as [resp|e]; [|by erewrite bind_Exits by by apply or_Fatalf_Err].
  erewrite bind_Returns by by apply or_Fatalf_Ok.
  by erewrite bind_Returns by apply Printf_printed.
Qed.

Abbreviation getMessage c resp :=
  (GetMessage DefaultTransport c (SendMessageResponse_MessageID resp)).
Abbreviation getDeliveries c resp :=
  (GetMessageDeliveries DefaultTransport c (SendMessageResponse_MessageID resp)).

(** What a run that returns has printed, and what a run that exits has
    printed and logged, for a send operation with the result [first]. *)
Lemma example_returns first format line c k k' :
  (resp ← or_Fatalf describe stamp first format;
   Printf (line resp);; inspect DefaultTransport describe stamp c resp) k
  = (k', Returns tt) <->
  exists resp message ds,
    first = Ok resp /\ getMessage c resp = Ok message /\ getDeliveries c resp = Ok ds /\
    k' = printed k (line resp :: details_line message :: count_line ds
                    :: delivery_lines 0 (elems ds)).
Proof.
  rewrite send_run. split.
  - destruct first as [resp|]; [|done]. rewrite inspect_run.
    destruct (getMessage c resp) as [message|] eqn:Hm; [|done].
    destruct (getDeliveries c resp) as [ds|] eqn:Hd; [|done].
    intros [= <-]. rewrite printed_printed. exists resp, message, ds.
    repeat split; assumption || reflexivity.
  - intros (resp & message & ds & -> & Hm & Hd & ->).
    by rewrite inspect_run, Hm, Hd, printed_printed.
Qed.

Lemma example_exits first format line c k k' n :
  (resp ← or_Fatalf describe stamp first format;
   Printf (line resp);; inspect DefaultTransport describe stamp c resp) k
  = (k', Exits n) <->
  n = 1 /\ exists e,
    (first = Err e /\ k' = failed describe stamp k format e) \/
    (exists resp, first = Ok resp /\ getMessage c resp = Err e /\
       k' = failed describe stamp (printed k [line resp]) "Error getting message: " e) \/
    (exists resp message, first = Ok resp /\ getMessage c resp = Ok message /\
       getDeliveries c resp = Err e /\
       k' = failed describe stamp (printed k [line resp; details_line message])
              "Error getting message deliveries: " e).
Proof.
  rewrite send_run. split.
  - destruct first as [resp|e]; [|intros [= <- <-]; eauto 6].
    rewrite inspect_run.
    destruct (getMessage c resp) as [message|e] eqn:Hm; [|intros [= <- <-]; eauto 10].
    destruct (getDeliveries c resp) as [ds|e] eqn:Hd; [done|].
    intros [= <- <-]. rewrite printed_printed. eauto 12.
  - intros (-> & e & [(-> & ->)|[(resp & -> & Hm & ->)|(resp & message & -> & Hm & Hd & ->)]]);
      [done|by rewrite inspect_run, Hm|by rewrite inspect_run, Hm, Hd, printed_printed].
Qed.

(** C29. The message example returns exactly when its three calls succeed,
    and then it has printed the line of each call and one line for every
    delivery, in this order, and nothing on the standard error stream. *)
Theorem message_example_returns apiKey baseURL k k' :
  let c := example_client apiKey baseURL in
  message.SendExample DefaultTransport describe stamp apiKey baseURL k = (k', Returns tt) <->
  exists resp message ds,
    SendMessage DefaultTransport c (Some message.req) = Ok resp /\
    getMessage c resp = Ok message /\ getDeliveries c resp = Ok ds /\
    k' = printed k (message.sent_line resp :: details_line message :: count_line ds
                    :: delivery_lines 0 (elems ds)).
Proof. apply example_returns. Qed.

(** C30. The message example exits only with status 1, after the first of
    its three calls that fails: it has logged one line, the message of
    that step followed by the error of the client, and printed the lines of
    the steps before it and no other. *)
Theorem message_example_exits apiKey baseURL k k' n :
  let c := example_client apiKey baseURL in
  message.SendExample DefaultTransport describe stamp apiKey baseURL k = (k', Exits n) <->
  n = 1 /\ exists e,
    (SendMessage DefaultTransport c (Some message.req) = Err e /\
       k' = failed describe stamp k "Error sending message: " e) \/
    (exists resp, SendMessage DefaultTransport c (Some message.req) = Ok resp /\
       getMessage c resp = Err e /\
       k' = failed describe stamp (printed k [message.sent_line resp])
              "Error getting message: " e) \/
    (exists resp message, SendMessage DefaultTransport c (Some message.req) = Ok resp /\
       getMessage c resp = Ok message /\ getDeliveries c resp = Err e /\
       k' = failed describe stamp (printed k [message.sent_line resp; details_line message])
              "Error getting message deliveries: " e).
Proof. apply example_exits. Qed.
End example_laws.

(** * The request of the raw example *)

Lemma raw_req_valid : SendRawRequest_valid raw.req.
Proof.
  split; [done|split; [by repeat constructor|]]. apply EncodeToString_valid_utf8.
Qed.

Lemma message_req_valid : SendMessageRequest_valid message.req.
Proof.
  repeat (split; [first [by apply map_Forall_singleton|done|by repeat constructor]|]).
  done.
Qed.

(** C31. A server that decodes the request of the raw example reads the
    request the example built, and the [data] of that request is the
    base64 text from which the decoder of the standard encoding gives back
    the message of the example, byte for byte. *)
Theorem raw_example_request (handler : SendRawRequest -> exchange) bad c :
  SendRaw (decoding handler bad) c (Some raw.req) = SendRaw (fun _ => handler raw.req) c (Some raw.req)
  /\ DecodeString (SendRawRequest_Data raw.req) = Some raw.rawMessage.
Proof.
  split; [apply SendRaw_server_reads, raw_req_valid|apply DecodeString_EncodeToString].
Qed.

(** * The examples at the servers of the tests *)

(** With the answers of the tests, the message example prints four lines
    and returns. *)
Example message_example_run :
  message.SendExample (H:=strict_rfc3339) example_server (fun _ => "") ""
    "key" server_URL (mkConsole [] [])
  = (mkConsole ["Message sent successfully! Message ID: 123, Token: test-token" +:+ newline;
                "Message details - ID: 123, Token: test-token" +:+ newline;
                "Message has 1 deliveries" +:+ newline;
                "Delivery 1 - Status: delivered, Details: test details" +:+ newline] [],
     Returns tt).
Proof. by vm_compute. Qed.

(** A server that answers every request as it answers the send operation
    stops the raw example at its third call. *)
Example raw_example_run :
  raw.SendExample (H:=strict_rfc3339) (serve 200 sent_body) (fun _ => "cause")
    "2024/01/01 00:00:00 " "key" server_URL (mkConsole [] [])
  = (mkConsole ["Raw message sent successfully! Message ID: 123, Token: test-token" +:+ newline;
                "Message details - ID: 0, Token: test-token" +:+ newline]
               ["2024/01/01 00:00:00 Error getting message deliveries: "
                +:+ "error unmarshaling response: cause" +:+ newline],
     Exits 1).
Proof. by vm_compute. Qed.

(** * The examples keep the discipline of the console *)

Lemma disciplined_ret {A} (a : A) : disciplined (mret a).
Proof. intros k. by split. Qed.

Lemma disciplined_bind {A B} (m : program A) (f : A -> program B) :
  disciplined m -> (forall a, disciplined (f a)) -> disciplined (m ≫= f).
Proof.
  intros Hm Hf k. specialize (Hm k). unfold mbind, program_bind, step_ok in *.
  destruct (m k) as [k1 [a|n]]; [|done]. destruct Hm as [Hout Herr]. cbn [fst snd] in *.
  specialize (Hf a k1). unfold step_ok in Hf. destruct (f a k1) as [k2 e].
  destruct Hf as [Hout' Herr']. cbn [fst snd] in *. split; [by etrans|].
  destruct e; by rewrite <- ?Herr.
Qed.

Lemma disciplined_Printf text : disciplined (Printf text).
Proof. intros k. split; [by apply prefix_app_r|done]. Qed.

Lemma disciplined_Fatalf {A} stamp text : disciplined (@Fatalf stamp A text).
Proof. intros k. split; [done|]. split; [done|by eexists]. Qed.

Lemma disciplined_or_Fatalf {A} describe stamp (r : result error A) format :
  disciplined (or_Fatalf describe stamp r format).
Proof. destruct r; [apply disciplined_ret|apply disciplined_Fatalf]. Qed.

Lemma disciplined_range {A} (f : Z -> A -> program unit) l :
  (forall i x, disciplined (f i x)) -> forall i, disciplined (range f i l).
Proof.
  intros Hf. induction l as [|x l IH]; intros i; cbn [range];
    [apply disciplined_ret|]. apply disciplined_bind; [done|]. intros _. apply IH.
Qed.

#[export] Hint Resolve disciplined_ret disciplined_Printf disciplined_Fatalf
  disciplined_or_Fatalf : postal.

(** Every statement of a program keeps the discipline. *)
Ltac disciplined :=
  repeat first [ apply disciplined_bind; [|intros ?]
               | apply disciplined_range; intros ? ?
               | by auto with postal ].

Section examples.
Variable T : RoundTripper.
Context `{TimeParser}.
Variable describe : cause -> string.
Variable stamp : string.


End examples.
