(* ===== verification/Tests.v ===== *)
(** * Tests: client_test.go and messages_test.go, run on the model

    Each test function of the two files is a boolean: the conjunction of
    the assertions the test makes, [false] where the test would stop with
    [t.Fatal].  The examples at the end run them: they check the model
    against the expectations of the repository at the inputs of its tests,
    and are no properties of the code; the properties are in Client and
    Messages.  The server of a test is a transport (Fixtures); a handler
    that checks the request it gets is [checking]: a request that fails the
    check gets no reply, so the test fails as it does in Go, where
    [t.Errorf] marks it failed.

    The text of a wrapped error ends with the text of its cause, which a Go
    library writes.  The tests only look for the message in front of it, so
    they are stated for every [describe]. *)

From Stdlib Require Import ZArith Lia Ascii String.
From stdpp Require Import base tactics option list strings gmap.
From S2P Require Import Prelude Json JsonString JsonParse JsonPrint Codec GoTime Models Http Fixtures Client Messages.

Local Open Scope go_scope.
Local Open Scope Z_scope.

(** * What the tests use *)

(** A handler that checks the request before it writes its reply. *)
Definition checking (check : Request -> bool) (status : Z) (body : string)
  : RoundTripper :=
  fun req => if check req then serve status body req else NetError "t.Errorf".

(** [r.URL.Path] for a request to the test server. *)
Definition url_path (req : Request) : string :=
  default "" (strip_prefix server_URL (Request_URL req)).

(** [r.Method != http.MethodPost]. *)
Definition is_post (req : Request) : bool :=
  bool_decide (Request_Method req = MethodPost).

(** [json.NewDecoder(r.Body).Decode(&req)]. *)
Definition decode_body {A} `{Unmarshaler A} (req : Request) : option A :=
  match Decode (default "" (Request_Body req)) (zero A) with
  | Ok x => Some x
  | Err _ => None
  end.

(** The type assertion of an error to a pointer to [Error]. *)
Definition as_Error (e : error) : option Error :=
  match e with ApiError ae => Some ae | _ => None end.

(** [chan int], which [json.Marshal] refuses. *)
Inductive chan : Type := make_chan.

#[export] Instance chan_Marshaler : Marshaler chan :=
  {| encode _ := Err (UnsupportedTypeError "chan int");
     is_empty_value _ := false |}.

Record BadType : Type := mkBadType { BadType_Ch : chan }.

#[export] Instance BadType_Marshaler : Marshaler BadType :=
  {| encode := encode_struct [getter "Ch" false BadType_Ch];
     is_empty_value _ := false |}.

(** * client_test.go *)

Definition TestNewClient : bool :=
  let apiKey := "test-api-key" in
  let client := NewClient apiKey in
  bool_decide (Client_APIKey client = apiKey)
  && bool_decide (Client_BaseURL client = DefaultBaseURL)
  && bool_decide (http_Client_Timeout <$> Client_HTTPClient client = Some DefaultTimeout).

Definition TestNewClientWithOptions : bool :=
  let apiKey := "test-api-key" in
  let baseURL := "https://custom.example.com/api/v1" in
  let timeout := 60 * Second in
  let client := NewClientWithOptions apiKey baseURL timeout in
  bool_decide (Client_APIKey client = apiKey)
  && bool_decide (Client_BaseURL client = baseURL)
  && bool_decide (http_Client_Timeout <$> Client_HTTPClient client = Some timeout).

Definition TestClientDo_handler (r : Request) : bool :=
  is_post r
  && bool_decide (Header_Get (Request_Header r) "Content-Type" = "application/json")
  && bool_decide (Header_Get (Request_Header r) "Accept" = "application/json")
  && bool_decide (Header_Get (Request_Header r) "X-Server-API-Key" = "test-api-key").

Definition TestClientDo : bool :=
  let server := checking TestClientDo_handler StatusOK success_body in
  let client := set_BaseURL server_URL (NewClient "test-api-key") in
  let body : gomap string := Map {[ "test" := "data" ]} in
  match post server client "/test" (Some (Box body)) with
  | Err _ => false
  | Ok resp =>
      bool_decide (Response_Status resp = "success")
      && SpecFloat.SFeqb (Response_Time resp) float_0_123
  end.

(** The assertions [TestClientDoError] and [TestClientDoHTTPError] share. *)
Definition expect_test_error (res : result error Response) : bool :=
  match res with
  | Ok _ => false
  | Err err =>
      match as_Error err with
      | None => false
      | Some apiErr =>
          bool_decide (Error_Status apiErr = "error")
          && bool_decide (Error_Message apiErr = "Test error message")
      end
  end.

Definition TestClientDoError : bool :=
  let server := serve StatusOK error_body in
  let client := set_BaseURL server_URL (NewClient "test-api-key") in
  expect_test_error (post server client "/test" None).

Definition TestClientDoHTTPError : bool :=
  let server := serve StatusInternalServerError error_body in
  let client := set_BaseURL server_URL (NewClient "test-api-key") in
  expect_test_error (post server client "/test" None).

Definition TestErrorMethod : bool :=
  let apiErr := mkError "error" float_0_123 (Raw (JObject []))
                  (Raw (JObject [("error", JString "test error")]))
                  "test-error" "Test error message" in
  let set_Message m e :=
    mkError (Error_Status e) (Error_Time e) (Error_Flags e) (Error_Data e)
            (Error_ErrorCode e) m in
  let set_Status s e :=
    mkError s (Error_Time e) (Error_Flags e) (Error_Data e)
            (Error_ErrorCode e) (Error_Message e) in
  bool_decide (Error_Error apiErr = "postal API error: error - Test error message")
  && (let apiErr := set_Message "" apiErr in
      bool_decide (Error_Error apiErr = "postal API error: error - ")
      && (let apiErr := set_Message "Invalid parameter"
                          (set_Status "parameter-error" apiErr) in
          bool_decide (Error_Error apiErr
                       = "postal API error: parameter-error - Invalid parameter"))).

Section client_tests.
Variable describe : cause -> string.
(** The network a client reaches when the test starts no server. *)
Variable network : RoundTripper.

(** [err == nil] is fatal; else [strings.Contains(err.Error(), msg)]. *)
Definition expect_error_containing {A} (msg : string) (res : result error A) : bool :=
  match res with
  | Ok _ => false
  | Err err => contains (error_string describe err) msg
  end.

Definition TestClientDoRequestCreationError : bool :=
  let client := set_BaseURL invalid_URL (NewClient "test-api-key") in
  expect_error_containing "error creating request"
    (post network client "/test" None).

Definition TestClientDoMarshalError : bool :=
  let client := NewClient "test-api-key" in
  let badBody := mkBadType make_chan in
  expect_error_containing "error marshaling request body"
    (post network client "/test" (Some (Box badBody))).

Definition TestClientDoHTTPClientError : bool :=
  let client :=
    set_HTTPClient (Some (mk_http_Client (Some mockTransport) 0))
      (NewClient "test-api-key") in
  expect_error_containing "error performing request"
    (post network client "/test" None).

Definition TestClientDoUnmarshalResponseError : bool :=
  let server := serve StatusOK invalid_success_body in
  let client := set_BaseURL server_URL (NewClient "test-api-key") in
  expect_error_containing "error unmarshaling response" (post server client "/test" None).

Definition TestClientDoUnmarshalErrorResponseError : bool :=
  let server := serve StatusOK invalid_error_body in
  let client := set_BaseURL server_URL (NewClient "test-api-key") in
  expect_error_containing "error unmarshaling response" (post server client "/test" None).

Definition TestClientDoHTTPErrorUnmarshalError : bool :=
  let server := serve StatusInternalServerError invalid_error_body in
  let client := set_BaseURL server_URL (NewClient "test-api-key") in
  expect_error_containing "error unmarshaling error response"
    (post server client "/test" None).

End client_tests.

(** [TestClientDoReadBodyError] asserts nothing: the result of the call is
    dropped.  With the connection closed after a part of the body, it is
    this. *)
Definition TestClientDoReadBodyError : result error Response :=
  let server := serve_broken StatusOK partial_body in
  let client := set_BaseURL server_URL (NewClient "test-api-key") in
  post server client "/test" None.

(** * messages_test.go *)

(** The handler of a test of an operation checks the path and the method. *)
Definition posted_to (path : string) (r : Request) : bool :=
  bool_decide (url_path r = path) && is_post r.

Definition TestGetMessage : bool :=
  let server := checking (posted_to "/messages/message") StatusOK message_body in
  let client := set_BaseURL server_URL (NewClient "test-api-key") in
  match GetMessage server client 123 with
  | Err _ => false
  | Ok message =>
      bool_decide (Message_ID message = 123)
      && bool_decide (Message_Token message = "test-token")
  end.

Definition TestSendMessage_handler (r : Request) : bool :=
  posted_to "/send/message" r
  && match decode_body r with
     | None => false
     | Some req =>
         bool_decide (SendMessageRequest_From req = "test@example.com")
         && bool_decide (elems (SendMessageRequest_To req) = ["recipient@example.com"])
     end.

Definition expect_test_sent (res : result error SendMessageResponse) : bool :=
  match res with
  | Err _ => false
  | Ok resp =>
      bool_decide (SendMessageResponse_MessageID resp = 123)
      && bool_decide (SendMessageResponse_Token resp = "test-token")
  end.

Definition TestSendMessage : bool :=
  let server := checking TestSendMessage_handler StatusOK sent_body in
  let client := set_BaseURL server_URL (NewClient "test-api-key") in
  expect_test_sent (SendMessage server client (Some test_message)).

Definition TestSendRaw_handler (r : Request) : bool :=
  posted_to "/send/raw" r
  && match decode_body r with
     | None => false
     | Some req =>
         bool_decide (SendRawRequest_MailFrom req = "test@example.com")
         && bool_decide (elems (SendRawRequest_RcptTo req) = ["recipient@example.com"])
     end.

Definition TestSendRaw : bool :=
  let server := checking TestSendRaw_handler StatusOK sent_body in
  let client := set_BaseURL server_URL (NewClient "test-api-key") in
  expect_test_sent (SendRaw server client (Some test_raw)).

(** The request of [TestSendMessageError]: no sender. *)
Definition test_message_no_sender : SendMessageRequest :=
  mkSendMessageRequest (Slice ["recipient@example.com"]) SliceNil SliceNil
    "" "" "Test Subject" "" "" "Test Body" "" SliceNil MapNil false.

(** The request of [TestSendRawError]: no sender. *)
Definition test_raw_no_sender : SendRawRequest :=
  mkSendRawRequest "" (Slice ["recipient@example.com"]) "base64-encoded-data" false.

Section delivery_tests.
Context `{TimeParser}.

Definition TestGetMessageDeliveries : bool :=
  let server := checking (posted_to "/messages/deliveries") StatusOK deliveries_body in
  let client := set_BaseURL server_URL (NewClient "test-api-key") in
  match GetMessageDeliveries server client 123 with
  | Err _ => false
  | Ok deliveries =>
      match elems deliveries with
      | [delivery] =>
          bool_decide (Delivery_ID delivery = 123)
          && bool_decide (Delivery_Status delivery = "delivered")
          && bool_decide (Delivery_SentWithSSL delivery = true)
      | _ => false
      end
  end.
End delivery_tests.

Section message_tests.
Variable describe : cause -> string.
Context `{TimeParser}.

Definition test_server_client (status : Z) (body : string) : RoundTripper * Client :=
  (serve status body, set_BaseURL server_URL (NewClient "test-api-key")).

Definition TestGetMessageError : bool :=
  let '(server, client) := test_server_client StatusOK not_found_body in
  expect_error_containing describe "Message not found" (GetMessage server client 123).

Definition TestGetMessageUnmarshalError : bool :=
  let '(server, client) := test_server_client StatusOK invalid_data_body in
  expect_error_containing describe "error unmarshaling response"
    (GetMessage server client 123).

Definition TestGetMessageDeliveriesError : bool :=
  let '(server, client) := test_server_client StatusOK not_found_body in
  expect_error_containing describe "Message not found"
    (GetMessageDeliveries server client 123).

Definition TestGetMessageDeliveriesUnmarshalError : bool :=
  let '(server, client) := test_server_client StatusOK invalid_data_body in
  expect_error_containing describe "error unmarshaling response"
    (GetMessageDeliveries server client 123).

Definition TestSendMessageError : bool :=
  let '(server, client) := test_server_client StatusOK parameter_error_body in
  expect_error_containing describe
    "The provided data was not sufficient to send an email"
    (SendMessage server client (Some test_message_no_sender)).

Definition TestSendMessageUnmarshalError : bool :=
  let '(server, client) := test_server_client StatusOK invalid_data_body in
  expect_error_containing describe "error unmarshaling response"
    (SendMessage server client (Some test_message)).

Definition TestSendRawError : bool :=
  let '(server, client) := test_server_client StatusOK parameter_error_body in
  expect_error_containing describe
    "The provided data was not sufficient to send an email"
    (SendRaw server client (Some test_raw_no_sender)).

Definition TestSendRawUnmarshalError : bool :=
  let '(server, client) := test_server_client StatusOK invalid_data_body in
  expect_error_containing describe "error unmarshaling response"
    (SendRaw server client (Some test_raw)).

End message_tests.

(** * The tests pass *)

Section tests_pass.
Variable describe : cause -> string.
Variable network : RoundTripper.
Context `{TimeParser}.

(** Every test of client_test.go that asserts something passes, whatever
    text the libraries give to the cause of a wrapped error and whatever
    the network does. *)
Example client_tests_pass :
  TestNewClient = true /\ TestNewClientWithOptions = true /\
  TestClientDo = true /\ TestClientDoError = true /\
  TestClientDoHTTPError = true /\ TestErrorMethod = true /\
  TestClientDoRequestCreationError describe network = true /\
  TestClientDoMarshalError describe network = true /\
  TestClientDoHTTPClientError describe network = true /\
  TestClientDoUnmarshalResponseError describe = true /\
  TestClientDoUnmarshalErrorResponseError describe = true /\
  TestClientDoHTTPErrorUnmarshalError describe = true.
Proof. by vm_compute. Qed.

(** Every test of messages_test.go that does not decode a time passes,
    whatever text the libraries give to the cause of a wrapped error and
    however the time parser behaves. *)
Example message_tests_pass :
  TestGetMessage = true /\ TestSendMessage = true /\ TestSendRaw = true /\
  TestGetMessageError describe = true /\
  TestGetMessageUnmarshalError describe = true /\
  TestGetMessageDeliveriesError describe = true /\
  TestGetMessageDeliveriesUnmarshalError describe = true /\
  TestSendMessageError describe = true /\
  TestSendMessageUnmarshalError describe = true /\
  TestSendRawError describe = true /\ TestSendRawUnmarshalError describe = true.
Proof. by vm_compute. Qed.

(** [TestGetMessageDeliveries] passes with every time parser that accepts
    the timestamp of its body. *)
Example TestGetMessageDeliveries_passes :
  is_Some (parse_time "2023-01-01T00:00:00Z") -> TestGetMessageDeliveries = true.
Proof.
  destruct H as [Time0 zero0 parse0]. simpl. intros [t Ht].
  vm_compute. vm_compute in Ht. by rewrite Ht.
Qed.

(** The four tests of messages_test.go named [...UnmarshalError] never
    reach the decoder of [data]: their body is no JSON at all, so the call
    fails in [post] with the message of the envelope's decoder, and the
    operation returns that error as it is (the general fact is
    [send_decode_error_iff] of Messages). *)
Example unmarshal_error_tests_fail_in_post :
  let '(server, client) := test_server_client StatusOK invalid_data_body in
  let e := Wrapped "error unmarshaling response" (JsonCause SyntaxError) in
  post server client "/messages/message" (Some (Box (id_body 123))) = Err e /\
  GetMessage server client 123 = Err e /\
  GetMessageDeliveries server client 123 = Err e /\
  SendMessage server client (Some test_message) = Err e /\
  SendRaw server client (Some test_raw) = Err e.
Proof. by vm_compute. Qed.

(** [TestClientDoUnmarshalErrorResponseError] means to test the decoding
    of an error response, and its body says ["error"]; but the body is no
    JSON, so the call stops at the decoder of the response: the error is
    the one [TestClientDoUnmarshalResponseError] sees (the general fact is
    [do_second_decoder] of Client). *)
Example error_response_test_fails_in_first_decoder :
  let '(server, client) := test_server_client StatusOK invalid_error_body in
  post server client "/test" None
  = Err (Wrapped "error unmarshaling response" (JsonCause SyntaxError)) /\
  post server client "/test" None
  = post (serve StatusOK invalid_success_body) client "/test" None.
Proof. by vm_compute. Qed.

End tests_pass.

Example TestGetMessageDeliveries_strict :
  @TestGetMessageDeliveries strict_rfc3339 = true.
Proof. apply (@TestGetMessageDeliveries_passes strict_rfc3339). by eexists. Defined.
